(** * GuiWorld infrastructure: hub-and-spoke Terraform configurations

    A shallow embedding of the Terraform code under [infrastructure/]
    (the hub and the Key Vault, Database and Storage spokes).  A Terraform
    configuration is a pure description: given the input variables, the
    remote states it reads, the values produced by the [random] provider and
    the attributes computed by the [azurerm] provider, it yields a set of
    resource instances.  Each module below transcribes one directory:
    its [variable] blocks (type, default, validation), its [locals] and its
    [resource], [data] and [output] blocks. *)

From Stdlib Require Import ZArith Ascii Sorted.
From stdpp Require Import base option list strings gmap fin_maps pretty sorting.

Open Scope string_scope.
Open Scope Z_scope.
Set Warnings "-register-all".

(** ** Results of a run *)

Inductive result (A : Type) : Type :=
| Ok (a : A)
| Err (msg : string).
Arguments Ok {A} a.
Arguments Err {A} msg.

#[global] Instance result_ret : MRet result := fun A a => Ok a.
#[global] Instance result_bind : MBind result := fun A B f m =>
  match m with
  | Ok a => f a
  | Err e => Err e
  end.
#[global] Instance result_fmap : FMap result := fun A B f m =>
  match m with
  | Ok a => Ok (f a)
  | Err e => Err e
  end.

Definition is_ok {A} (r : result A) : bool :=
  match r with Ok _ => true | Err _ => false end.

Definition from_option {A} (msg : string) (o : option A) : result A :=
  match o with Some a => Ok a | None => Err msg end.

(** A validation block: the condition and the error message raised when
    the condition is false. *)
Definition validation (condition : bool) (error_message : string) : result unit :=
  if condition then Ok tt else Err error_message.

(** ** Terraform language built-ins *)

Module Terraform.

(** [merge(m1, m2, ...)]: the union of the maps; when a key is defined in
    several maps the argument that comes later wins.  ([∪] on [gmap] keeps
    the left operand's value, hence the later map goes to the left.) *)
Definition merge (ms : list (gmap string string)) : gmap string string :=
  foldl (fun acc m => m ∪ acc) ∅ ms.

(** [contains(list, value)] *)
Definition contains (l : list string) (x : string) : bool :=
  bool_decide (x ∈ l).

(** The lexical order of strings, and of map entries by their keys. *)
Definition string_le (a b : string) : Prop := String.leb a b = true.
#[global] Instance string_le_dec : RelDecision string_le :=
  fun a b => decide (String.leb a b = true).

Definition key_le {A} (a b : string * A) : Prop := string_le a.1 b.1.
#[global] Instance key_le_dec {A} : RelDecision (@key_le A) :=
  fun a b => decide (string_le a.1 b.1).

(** [toset(list)]: the distinct elements.  Terraform keeps a set of strings
    in lexical order, which is the order of the instances of a [for_each]
    over it and of [keys]. *)
Definition toset (l : list string) : list string :=
  merge_sort string_le (remove_dups l).

(** The entries of a map given to [for_each], in the lexical order of their
    keys. *)
Definition entries {A} (m : gmap string A) : list (string * A) :=
  merge_sort key_le (map_to_list m).

(** [count = n]: instances [0 .. n-1] of a block. *)
Definition count {A} (n : nat) (block : nat → A) : list A :=
  block <$> seq 0 n.

(** *** [cidrhost]

    [cidrhost(prefix, hostnum)] parses [prefix] as a CIDR block and returns
    the address of host number [hostnum] in it; it raises an error when
    [prefix] is not in CIDR notation or when the host number does not fit.
    The parser below follows the one Terraform uses for dotted-decimal IPv4
    prefixes (the only notation in this repository): four decimal octets of
    value at most 255 separated by dots, a slash, and a decimal prefix
    length of at most 32.  IPv6 prefixes, which Terraform parses as well,
    are outside this model, which refuses them; and the configurations call
    [cidrhost] with host number 0 only.  The prefixes that the examples and
    theorems below find refused hold no colon, so they are no IPv6 prefix
    either. *)

Definition is_digit (c : ascii) : bool :=
  let n := Z.of_nat (nat_of_ascii c) in (48 <=? n) && (n <=? 57).

Definition digit_value (c : ascii) : Z := Z.of_nat (nat_of_ascii c) - 48.

(** Numbers at or above [big] are refused while scanning digits. *)
Definition big : Z := 16777215.

(** [dtoi_from n s]: scan the decimal digits at the head of [s] starting
    from the accumulated value [n]; the result is the value, the number of
    digits consumed and the remaining text, or [None] on overflow. *)
Fixpoint dtoi_from (n : Z) (s : string) : option (Z * nat * string) :=
  match s with
  | String c s' =>
      if is_digit c then
        let n' := n * 10 + digit_value c in
        if big <=? n' then None
        else '(v, i, rest) ← dtoi_from n' s'; Some (v, S i, rest)
      else Some (n, O, s)
  | EmptyString => Some (n, O, s)
  end.

(** [dtoi s]: a decimal number at the head of [s]; at least one digit is
    required. *)
Definition dtoi (s : string) : option (Z * string) :=
  '(v, i, rest) ← dtoi_from 0 s;
  if decide (i = O) then None else Some (v, rest).

(** One octet: a number not above 255. *)
Definition parse_octet (s : string) : option (Z * string) :=
  '(v, rest) ← dtoi s;
  if 255 <? v then None else Some (v, rest).

(** A literal dot. *)
Definition expect_dot (s : string) : option string :=
  match s with
  | String "." s' => Some s'
  | _ => None
  end.

Definition parseIPv4 (s : string) : option Z :=
  '(a, s) ← parse_octet s;
  s ← expect_dot s;
  '(b, s) ← parse_octet s;
  s ← expect_dot s;
  '(c, s) ← parse_octet s;
  s ← expect_dot s;
  '(d, s) ← parse_octet s;
  if decide (s = "") then Some (((a * 256 + b) * 256 + c) * 256 + d) else None.

(** Split at the first slash. *)
Fixpoint split_slash (s : string) : option (string * string) :=
  match s with
  | EmptyString => None
  | String c s' =>
      if decide (c = "/"%char) then Some ("", s')
      else '(a, m) ← split_slash s'; Some (String c a, m)
  end.

(** [ParseCIDR s]: the network address (host bits cleared) and the prefix
    length. *)
Definition ParseCIDR (s : string) : option (Z * Z) :=
  '(addr, mask) ← split_slash s;
  ip ← parseIPv4 addr;
  '(n, rest) ← dtoi mask;
  if decide (rest = "") then
    if 32 <? n then None
    else
      let host_bits := 32 - n in
      Some (Z.shiftl (Z.shiftr ip host_bits) host_bits, n)
  else None.

Definition render_ipv4 (ip : Z) : string :=
  pretty (Z.shiftr ip 24) +:+ "." +:+
  pretty (Z.land (Z.shiftr ip 16) 255) +:+ "." +:+
  pretty (Z.land (Z.shiftr ip 8) 255) +:+ "." +:+
  pretty (Z.land ip 255).

Definition cidrhost (prefix : string) (hostnum : Z) : option string :=
  '(network, n) ← ParseCIDR prefix;
  if (0 <=? hostnum) && (hostnum <? 2 ^ (32 - n))
  then Some (render_ipv4 (network + hostnum))
  else None.

(** [can(e)]: whether [e] evaluates without an error. *)
Definition can {A} (e : option A) : bool := bool_decide (is_Some e).

End Terraform.

(** ** Values and resource instances *)

(** Attribute values, as in a plan: strings, booleans, numbers, [null],
    lists, string maps (tags) and nested blocks or objects. *)
Inductive value : Type :=
| VStr (s : string)
| VBool (b : bool)
| VNum (n : Z)
| VNull
| VList (l : list value)
| VMap (m : gmap string string)
| VObj (fields : list (string * value)).

Definition strings (l : list string) : value := VList (VStr <$> l).

(** Lookup in an association list of arguments (first binding). *)
Fixpoint assoc (k : string) (fields : list (string * value)) : option value :=
  match fields with
  | [] => None
  | (k', v) :: rest => if decide (k = k') then Some v else assoc k rest
  end.

(** One resource instance: [resource "rtype" "rlabel" { body }], with the
    instance key when the block has [count] or [for_each]. *)
Record resource : Type := Resource {
  rtype : string;
  rlabel : string;
  rkey : option string;
  body : list (string * value)
}.

Definition attr (k : string) (r : resource) : option value := assoc k (body r).

Definition name_of (r : resource) : option string :=
  match attr "name" r with
  | Some (VStr s) => Some s
  | _ => None
  end.

Definition tags_of (r : resource) : option (gmap string string) :=
  match attr "tags" r with
  | Some (VMap m) => Some m
  | _ => None
  end.

(** Field of a nested block. *)
Definition field (k : string) (v : value) : option value :=
  match v with
  | VObj fs => assoc k fs
  | _ => None
  end.

Definition of_type (t : string) (rs : list resource) : list resource :=
  filter (fun r => rtype r = t) rs.

(** The address of an instance, e.g. [azurerm_subnet.keyvault]. *)
Definition address (r : resource) : string :=
  rtype r +:+ "." +:+ rlabel r +:+
  match rkey r with
  | Some k => "[" +:+ k +:+ "]"
  | None => ""
  end.

(** Attributes the [azurerm] provider computes when it creates a resource
    (known after apply), by resource address. *)
Record Azure : Type := {
  az_id : string → string;
  az_fqdn : string → string;
  az_primary_connection_string : string → string;
  az_primary_access_key : string → string;
  az_tenant_id : string;
  az_object_id : string
}.

(** A block without [count] or [for_each]. *)
Definition single (t l : string) (b : list (string * value)) : resource :=
  Resource t l None b.

(** Instance [i] of a block with [count]. *)
Definition indexed (t l : string) (i : nat) (b : list (string * value)) : resource :=
  Resource t l (Some (pretty i)) b.

(** Instance of a block with [for_each], by its key. *)
Definition keyed (t l k : string) (b : list (string * value)) : resource :=
  Resource t l (Some k) b.

(** The regions accepted by the location variables. *)
Definition azure_regions : list string := [
  "East US"; "East US 2"; "West US"; "West US 2"; "West US 3";
  "Central US"; "North Central US"; "South Central US";
  "West Central US"; "Canada Central"; "Canada East";
  "Brazil South"; "North Europe"; "West Europe";
  "UK South"; "UK West"; "France Central"; "Germany West Central";
  "Switzerland North"; "Norway East"; "Sweden Central";
  "Australia East"; "Australia Southeast"; "Japan East"; "Japan West";
  "Korea Central"; "South India"; "Southeast Asia"; "East Asia"
].

(** A [security_rule] block of a network security group. *)
Definition security_rule (name : string) (priority : Z) (access protocol : string)
    (destination_ports : string * value) (source_address_prefix : string) : value :=
  VObj [
    ("name", VStr name);
    ("priority", VNum priority);
    ("direction", VStr "Inbound");
    ("access", VStr access);
    ("protocol", VStr protocol);
    ("source_port_range", VStr "*");
    destination_ports;
    ("source_address_prefix", VStr source_address_prefix);
    ("destination_address_prefix", VStr "*")
  ].

(** ** Remote state *)

(** The outputs stored in a state file, and the state files by path. *)
Definition read_state (states : gmap string (gmap string value)) (path : string)
  : result (gmap string value) :=
  from_option ("Unable to find remote state: " +:+ path) (states !! path).

Definition output (outputs : gmap string value) (k : string) : result value :=
  from_option ("Unsupported attribute: " +:+ k) (outputs !! k).

Definition output_string (outputs : gmap string value) (k : string) : result string :=
  v ← output outputs k;
  match v with
  | VStr s => Ok s
  | _ => Err ("Incorrect attribute value type: " +:+ k)
  end.

Definition output_map (outputs : gmap string value) (k : string)
  : result (gmap string string) :=
  v ← output outputs k;
  match v with
  | VMap m => Ok m
  | _ => Err ("Incorrect attribute value type: " +:+ k)
  end.

Definition output_strings (outputs : gmap string value) (k : string)
  : result (list string) :=
  v ← output outputs k;
  match v with
  | VList l =>
      from_option ("Incorrect attribute value type: " +:+ k)
        (mapM (fun x => match x with VStr s => Some s | _ => None end) l)
  | _ => Err ("Incorrect attribute value type: " +:+ k)
  end.

(** ** The [random] provider *)

Module Random.

(** Arguments of [random_string] and [random_password]. *)
Record Args : Type := {
  length : nat;
  special : bool;
  upper : bool;
  lower : bool;
  numeric : bool;
  min_lower : nat;
  min_upper : nat;
  min_numeric : nat;
  min_special : nat;
  override_special : string
}.

(** The provider's defaults for the optional arguments. *)
Definition with_length (n : nat) : Args := {|
  length := n; special := true; upper := true; lower := true; numeric := true;
  min_lower := 0; min_upper := 0; min_numeric := 0; min_special := 0;
  override_special := ""
|}.

Definition is_lower (c : ascii) : bool :=
  let n := nat_of_ascii c in (97 <=? n)%nat && (n <=? 122)%nat.
Definition is_upper (c : ascii) : bool :=
  let n := nat_of_ascii c in (65 <=? n)%nat && (n <=? 90)%nat.
Definition is_numeric (c : ascii) : bool :=
  let n := nat_of_ascii c in (48 <=? n)%nat && (n <=? 57)%nat.

Definition default_special : string := "!@#$%&*()-_=+[]{}<>:?".

Definition special_set (a : Args) : list ascii :=
  String.list_ascii_of_string
    (if decide (override_special a = "") then default_special else override_special a).

Definition is_special (a : Args) (c : ascii) : bool := bool_decide (c ∈ special_set a).

Definition allowed (a : Args) (c : ascii) : bool :=
  (lower a && is_lower c) || (upper a && is_upper c) ||
  (numeric a && is_numeric c) || (special a && is_special a c).

Definition count_if (p : ascii → bool) (s : string) : nat :=
  List.length (filter (fun c => p c = true) (String.list_ascii_of_string s)).

(** What the provider guarantees about a generated result: its length, the
    character classes it draws from and the minimum number of characters of
    each class.  Which string is drawn is otherwise arbitrary. *)
Definition generated (a : Args) (s : string) : bool :=
  bool_decide (String.length s = length a) &&
  forallb (allowed a) (String.list_ascii_of_string s) &&
  (min_lower a <=? count_if is_lower s)%nat &&
  (min_upper a <=? count_if is_upper s)%nat &&
  (min_numeric a <=? count_if is_numeric s)%nat &&
  (min_special a <=? count_if (is_special a) s)%nat.

End Random.

(** [string_contains needle hay]: [needle] occurs in [hay]. *)
Fixpoint string_contains (needle hay : string) : bool :=
  String.prefix needle hay ||
  match hay with
  | EmptyString => false
  | String _ hay' => string_contains needle hay'
  end.

(** ** The hub ([infrastructure/hub]) *)

Module Hub.

Record Variables : Type := {
  environment : string;
  hub_location : string;
  hub_vnet_address_space : string;
  gateway_subnet_address_prefix : string;
  firewall_subnet_address_prefix : string;
  bastion_subnet_address_prefix : string;
  shared_services_subnet_address_prefix : string;
  enable_azure_firewall : bool;
  enable_azure_bastion : bool;
  log_analytics_retention_days : Z;
  additional_tags : gmap string string;
  cost_center : string;
  owner_email : string
}.

Definition defaults : Variables := {|
  environment := "dev";
  hub_location := "Central US";
  hub_vnet_address_space := "10.0.0.0/16";
  gateway_subnet_address_prefix := "10.0.1.0/24";
  firewall_subnet_address_prefix := "10.0.2.0/24";
  bastion_subnet_address_prefix := "10.0.3.0/24";
  shared_services_subnet_address_prefix := "10.0.4.0/24";
  enable_azure_firewall := false;
  enable_azure_bastion := false;
  log_analytics_retention_days := 30;
  additional_tags := ∅;
  cost_center := "GuiWorld-Hub";
  owner_email := ""
|}.

Section Config.
  (** [regex_can pattern s] stands for [can(regex(pattern, s))]; the regular
      expression engine is Terraform's. *)
Variable regex_can : string → string → bool.
Variable var : Variables.
  (** [formatdate("YYYY-MM-DD", timestamp())] *)
Variable today : string.
  (** [random_string.suffix.result] *)
Variable suffix : string.
Variable az : Azure.

  (** The validation blocks of the address variables. *)
Definition address_validations : list (result unit) := [
    validation (Terraform.can (Terraform.cidrhost (hub_vnet_address_space var) 0))
      "Hub VNet address space must be a valid CIDR block.";
    validation (Terraform.can (Terraform.cidrhost (gateway_subnet_address_prefix var) 0))
      "Gateway subnet address prefix must be a valid CIDR block.";
    validation (Terraform.can (Terraform.cidrhost (firewall_subnet_address_prefix var) 0))
      "Firewall subnet address prefix must be a valid CIDR block.";
    validation (Terraform.can (Terraform.cidrhost (bastion_subnet_address_prefix var) 0))
      "Bastion subnet address prefix must be a valid CIDR block.";
    validation (Terraform.can (Terraform.cidrhost (shared_services_subnet_address_prefix var) 0))
      "Shared services subnet address prefix must be a valid CIDR block."
  ].

  (** All validation blocks, in the order of the variables. *)
Definition validations : list (result unit) :=
    [ validation (Terraform.contains ["dev"; "staging"; "prod"] (environment var))
        "Environment must be one of: dev, staging, prod.";
      validation (Terraform.contains azure_regions (hub_location var))
        "Hub location must be a valid Azure region." ]
    ++ address_validations ++
    [ validation ((30 <=? log_analytics_retention_days var)
                  && (log_analytics_retention_days var <=? 730))
        "Log Analytics retention must be between 30 and 730 days.";
      validation (bool_decide (owner_email var = "")
                  || regex_can "^[a-zA-Z0-9._%+-]+@[a-zA-Z0-9.-]+\.[a-zA-Z]{2,}$" (owner_email var))
        "Owner email must be a valid email address or empty string." ].

Definition validate : result unit := _ ← mapM id validations; Ok tt.

  (** [locals] *)
Definition resource_suffix : string := suffix.
Definition common_tags : gmap string string :=
    Terraform.merge [
      {[ "Environment" := environment var;
         "Project" := "GuiWorld";
         "ManagedBy" := "Terraform";
         "Architecture" := "HubAndSpoke";
         "Component" := "Hub";
         "CreatedDate" := today ]};
      additional_tags var ].

Definition named (stem : string) : string :=
    stem +:+ environment var +:+ "-" +:+ resource_suffix.

Definition random_string_suffix : resource :=
    single "random_string" "suffix" [
      ("length", VNum 8); ("special", VBool false); ("upper", VBool false);
      ("result", VStr suffix) ].

Definition azurerm_resource_group_hub : resource :=
    single "azurerm_resource_group" "hub" [
      ("name", VStr (named "rg-guiworld-hub-"));
      ("location", VStr (hub_location var));
      ("tags", VMap common_tags) ].

Definition azurerm_virtual_network_hub : resource :=
    single "azurerm_virtual_network" "hub" [
      ("name", VStr (named "vnet-guiworld-hub-"));
      ("address_space", strings [hub_vnet_address_space var]);
      ("location", VStr (hub_location var));
      ("resource_group_name", VStr (named "rg-guiworld-hub-"));
      ("tags", VMap common_tags) ].

Definition subnet (label name prefix : string) : resource :=
    single "azurerm_subnet" label [
      ("name", VStr name);
      ("resource_group_name", VStr (named "rg-guiworld-hub-"));
      ("virtual_network_name", VStr (named "vnet-guiworld-hub-"));
      ("address_prefixes", strings [prefix]) ].

Definition azurerm_subnet_gateway : resource :=
    subnet "gateway" "GatewaySubnet" (gateway_subnet_address_prefix var).
Definition azurerm_subnet_firewall : resource :=
    subnet "firewall" "AzureFirewallSubnet" (firewall_subnet_address_prefix var).
Definition azurerm_subnet_bastion : resource :=
    subnet "bastion" "AzureBastionSubnet" (bastion_subnet_address_prefix var).
Definition azurerm_subnet_shared_services : resource :=
    subnet "shared_services" "snet-shared-services"
      (shared_services_subnet_address_prefix var).

Definition azurerm_network_security_group_shared_services : resource :=
    single "azurerm_network_security_group" "shared_services" [
      ("name", VStr (named "nsg-shared-services-"));
      ("location", VStr (hub_location var));
      ("resource_group_name", VStr (named "rg-guiworld-hub-"));
      ("security_rule", VList [
         security_rule "AllowHTTPS" 1001 "Allow" "Tcp"
           ("destination_port_range", VStr "443") "*";
         security_rule "AllowHTTP" 1002 "Allow" "Tcp"
           ("destination_port_range", VStr "80")
           (if decide (environment var = "prod") then "VirtualNetwork" else "*") ]);
      ("tags", VMap common_tags) ].

Definition azurerm_subnet_network_security_group_association_shared_services : resource :=
    single "azurerm_subnet_network_security_group_association" "shared_services" [
      ("subnet_id", VStr (az_id az "azurerm_subnet.shared_services"));
      ("network_security_group_id",
        VStr (az_id az "azurerm_network_security_group.shared_services")) ].

Definition azurerm_log_analytics_workspace_hub : resource :=
    single "azurerm_log_analytics_workspace" "hub" [
      ("name", VStr (named "law-guiworld-hub-"));
      ("location", VStr (hub_location var));
      ("resource_group_name", VStr (named "rg-guiworld-hub-"));
      ("sku", VStr "PerGB2018");
      ("retention_in_days", VNum (log_analytics_retention_days var));
      ("tags", VMap common_tags) ].

Definition public_ip (label stem : string) (i : nat) : resource :=
    indexed "azurerm_public_ip" label i [
      ("name", VStr (named stem));
      ("location", VStr (hub_location var));
      ("resource_group_name", VStr (named "rg-guiworld-hub-"));
      ("allocation_method", VStr "Static");
      ("sku", VStr "Standard");
      ("tags", VMap common_tags) ].

Definition azurerm_firewall_hub (i : nat) : resource :=
    indexed "azurerm_firewall" "hub" i [
      ("name", VStr (named "afw-guiworld-hub-"));
      ("location", VStr (hub_location var));
      ("resource_group_name", VStr (named "rg-guiworld-hub-"));
      ("sku_name", VStr "AZFW_VNet");
      ("sku_tier", VStr "Standard");
      ("ip_configuration", VObj [
         ("name", VStr "configuration");
         ("subnet_id", VStr (az_id az "azurerm_subnet.firewall"));
         ("public_ip_address_id", VStr (az_id az "azurerm_public_ip.firewall[0]")) ]);
      ("tags", VMap common_tags) ].

Definition azurerm_bastion_host_hub (i : nat) : resource :=
    indexed "azurerm_bastion_host" "hub" i [
      ("name", VStr (named "bastion-guiworld-hub-"));
      ("location", VStr (hub_location var));
      ("resource_group_name", VStr (named "rg-guiworld-hub-"));
      ("ip_configuration", VObj [
         ("name", VStr "configuration");
         ("subnet_id", VStr (az_id az "azurerm_subnet.bastion"));
         ("public_ip_address_id", VStr (az_id az "azurerm_public_ip.bastion[0]")) ]);
      ("tags", VMap common_tags) ].

Definition private_dns_zone (label name : string) : resource :=
    single "azurerm_private_dns_zone" label [
      ("name", VStr name);
      ("resource_group_name", VStr (named "rg-guiworld-hub-"));
      ("tags", VMap common_tags) ].

Definition dns_zone_link (label name zone : string) : resource :=
    single "azurerm_private_dns_zone_virtual_network_link" label [
      ("name", VStr name);
      ("resource_group_name", VStr (named "rg-guiworld-hub-"));
      ("private_dns_zone_name", VStr zone);
      ("virtual_network_id", VStr (az_id az "azurerm_virtual_network.hub"));
      ("registration_enabled", VBool false);
      ("tags", VMap common_tags) ].

Definition keyvault_zone : string := "privatelink.vaultcore.azure.net".
Definition postgres_zone : string := "privatelink.postgres.database.azure.com".
Definition storage_zone : string := "privatelink.blob.core.windows.net".

Definition resources : list resource :=
    [ random_string_suffix;
      azurerm_resource_group_hub;
      azurerm_virtual_network_hub;
      azurerm_subnet_gateway;
      azurerm_subnet_firewall;
      azurerm_subnet_bastion;
      azurerm_subnet_shared_services;
      azurerm_network_security_group_shared_services;
      azurerm_subnet_network_security_group_association_shared_services;
      azurerm_log_analytics_workspace_hub ]
    ++ Terraform.count (if enable_azure_firewall var then 1 else 0)
         (public_ip "firewall" "pip-firewall-")
    ++ Terraform.count (if enable_azure_firewall var then 1 else 0) azurerm_firewall_hub
    ++ Terraform.count (if enable_azure_bastion var then 1 else 0)
         (public_ip "bastion" "pip-bastion-")
    ++ Terraform.count (if enable_azure_bastion var then 1 else 0) azurerm_bastion_host_hub
    ++ [ private_dns_zone "keyvault" keyvault_zone;
         private_dns_zone "postgres" postgres_zone;
         private_dns_zone "storage" storage_zone;
         dns_zone_link "keyvault_hub" "keyvault-hub-link" keyvault_zone;
         dns_zone_link "postgres_hub" "postgres-hub-link" postgres_zone;
         dns_zone_link "storage_hub" "storage-hub-link" storage_zone ].

  (** The outputs stored in the hub's state, which the spokes read.  Outputs
      that only repeat an attribute computed by the provider (the firewall's
      address, the bastion's host name, the summary) are left out. *)
Definition outputs : gmap string value :=
    list_to_map [
      ("hub_resource_group_name", VStr (named "rg-guiworld-hub-"));
      ("hub_resource_group_id", VStr (az_id az "azurerm_resource_group.hub"));
      ("hub_location", VStr (hub_location var));
      ("hub_vnet_name", VStr (named "vnet-guiworld-hub-"));
      ("hub_vnet_id", VStr (az_id az "azurerm_virtual_network.hub"));
      ("hub_vnet_address_space", strings [hub_vnet_address_space var]);
      ("gateway_subnet_id", VStr (az_id az "azurerm_subnet.gateway"));
      ("firewall_subnet_id", VStr (az_id az "azurerm_subnet.firewall"));
      ("bastion_subnet_id", VStr (az_id az "azurerm_subnet.bastion"));
      ("shared_services_subnet_id", VStr (az_id az "azurerm_subnet.shared_services"));
      ("keyvault_private_dns_zone_name", VStr keyvault_zone);
      ("keyvault_private_dns_zone_id", VStr (az_id az "azurerm_private_dns_zone.keyvault"));
      ("postgres_private_dns_zone_name", VStr postgres_zone);
      ("postgres_private_dns_zone_id", VStr (az_id az "azurerm_private_dns_zone.postgres"));
      ("storage_private_dns_zone_name", VStr storage_zone);
      ("storage_private_dns_zone_id", VStr (az_id az "azurerm_private_dns_zone.storage"));
      ("log_analytics_workspace_id",
        VStr (az_id az "azurerm_log_analytics_workspace.hub"));
      ("log_analytics_workspace_name", VStr (named "law-guiworld-hub-"));
      ("environment", VStr (environment var));
      ("resource_suffix", VStr resource_suffix);
      ("common_tags", VMap common_tags);
      ("shared_services_nsg_id",
        VStr (az_id az "azurerm_network_security_group.shared_services")) ].

  (** A run: the variables are validated first; nothing is created when a
      validation fails. *)
Definition apply : result (list resource * gmap string value) :=
    _ ← validate;
    Ok (resources, outputs).
End Config.

End Hub.

(** ** The Key Vault spoke ([infrastructure/spokes/keyvault-spoke]) *)

Module KeyvaultSpoke.

Record Variables : Type := {
  spoke_location : string;
  hub_state_path : string;
  spoke_vnet_address_space : string;
  keyvault_subnet_address_prefix : string;
  key_vault_sku : string;
  soft_delete_retention_days : Z;
  enable_purge_protection : bool;
  allow_public_access : bool;
  additional_tags : gmap string string;
  cost_center : string
}.

Definition defaults : Variables := {|
  spoke_location := "South Central US";
  hub_state_path := "../../hub/terraform.tfstate";
  spoke_vnet_address_space := "10.1.0.0/16";
  keyvault_subnet_address_prefix := "10.1.1.0/24";
  key_vault_sku := "standard";
  soft_delete_retention_days := 7;
  enable_purge_protection := false;
  allow_public_access := true;
  additional_tags := ∅;
  cost_center := "GuiWorld-KeyVault"
|}.

(** The hub outputs this configuration refers to
    ([data.terraform_remote_state.hub.outputs.*]).  All but one are referred
    to by blocks that always have an instance.  [keyvault_private_dns_zone_id]
    is referred to by the private endpoint alone, whose [count] may be zero:
    the field holds the reference, which is resolved where an instance uses
    it. *)
Record HubOutputs : Type := {
  environment : string;
  common_tags : gmap string string;
  hub_resource_group_name : string;
  hub_vnet_name : string;
  hub_vnet_id : string;
  shared_services_subnet_id : string;
  keyvault_private_dns_zone_name : string;
  keyvault_private_dns_zone_id : result string;
  log_analytics_workspace_id : string
}.

Definition read_hub (o : gmap string value) : result HubOutputs :=
  e ← output_string o "environment";
  t ← output_map o "common_tags";
  rg ← output_string o "hub_resource_group_name";
  vn ← output_string o "hub_vnet_name";
  vi ← output_string o "hub_vnet_id";
  ss ← output_string o "shared_services_subnet_id";
  zn ← output_string o "keyvault_private_dns_zone_name";
  la ← output_string o "log_analytics_workspace_id";
  Ok {| environment := e; common_tags := t; hub_resource_group_name := rg;
        hub_vnet_name := vn; hub_vnet_id := vi; shared_services_subnet_id := ss;
        keyvault_private_dns_zone_name := zn;
        keyvault_private_dns_zone_id := output_string o "keyvault_private_dns_zone_id";
        log_analytics_workspace_id := la |}.

Section Config.
Variable var : Variables.
  (** [random_string.suffix.result] *)
Variable suffix : string.
Variable az : Azure.

Definition address_validations : list (result unit) := [
    validation (Terraform.can (Terraform.cidrhost (spoke_vnet_address_space var) 0))
      "Spoke VNet address space must be a valid CIDR block.";
    validation (Terraform.can (Terraform.cidrhost (keyvault_subnet_address_prefix var) 0))
      "Key Vault subnet address prefix must be a valid CIDR block."
  ].

Definition validations : list (result unit) :=
    [ validation (Terraform.contains azure_regions (spoke_location var))
        "Spoke location must be a valid Azure region." ]
    ++ address_validations ++
    [ validation (Terraform.contains ["standard"; "premium"] (key_vault_sku var))
        "Key Vault SKU must be either 'standard' or 'premium'.";
      validation ((7 <=? soft_delete_retention_days var)
                  && (soft_delete_retention_days var <=? 90))
        "Soft delete retention days must be between 7 and 90." ].

Definition validate : result unit := _ ← mapM id validations; Ok tt.

Section Resources.
Variable hub : HubOutputs.

    (** [locals] *)
Definition resource_suffix : string := suffix.
Definition hub_environment : string := environment hub.
Definition hub_tags : gmap string string := common_tags hub.
Definition spoke_specific_tags : gmap string string :=
      {[ "Component" := "KeyVault-Spoke"; "Region" := spoke_location var ]}.
Definition spoke_tags : gmap string string :=
      Terraform.merge [hub_tags; spoke_specific_tags; additional_tags var].

Definition named (stem : string) : string :=
      stem +:+ hub_environment +:+ "-" +:+ resource_suffix.

Definition random_string_suffix : resource :=
      single "random_string" "suffix" [
        ("length", VNum 8); ("special", VBool false); ("upper", VBool false);
        ("result", VStr suffix) ].

Definition azurerm_resource_group_keyvault_spoke : resource :=
      single "azurerm_resource_group" "keyvault_spoke" [
        ("name", VStr (named "rg-guiworld-keyvault-"));
        ("location", VStr (spoke_location var));
        ("tags", VMap spoke_tags) ].

Definition azurerm_virtual_network_keyvault_spoke : resource :=
      single "azurerm_virtual_network" "keyvault_spoke" [
        ("name", VStr (named "vnet-guiworld-keyvault-"));
        ("address_space", strings [spoke_vnet_address_space var]);
        ("location", VStr (spoke_location var));
        ("resource_group_name", VStr (named "rg-guiworld-keyvault-"));
        ("tags", VMap spoke_tags) ].

Definition azurerm_subnet_keyvault : resource :=
      single "azurerm_subnet" "keyvault" [
        ("name", VStr "snet-keyvault");
        ("resource_group_name", VStr (named "rg-guiworld-keyvault-"));
        ("virtual_network_name", VStr (named "vnet-guiworld-keyvault-"));
        ("address_prefixes", strings [keyvault_subnet_address_prefix var]);
        ("private_endpoint_network_policies_enabled", VBool false) ].

Definition azurerm_network_security_group_keyvault : resource :=
      single "azurerm_network_security_group" "keyvault" [
        ("name", VStr (named "nsg-keyvault-"));
        ("location", VStr (spoke_location var));
        ("resource_group_name", VStr (named "rg-guiworld-keyvault-"));
        ("security_rule", VList [
           security_rule "AllowKeyVaultHTTPS" 1001 "Allow" "Tcp"
             ("destination_port_range", VStr "443") "VirtualNetwork";
           security_rule "DenyAllInbound" 4096 "Deny" "*"
             ("destination_port_range", VStr "*") "*" ]);
        ("tags", VMap spoke_tags) ].

Definition azurerm_subnet_network_security_group_association_keyvault : resource :=
      single "azurerm_subnet_network_security_group_association" "keyvault" [
        ("subnet_id", VStr (az_id az "azurerm_subnet.keyvault"));
        ("network_security_group_id",
          VStr (az_id az "azurerm_network_security_group.keyvault")) ].

Definition azurerm_key_vault_main : resource :=
      single "azurerm_key_vault" "main" [
        ("name", VStr (named "kv-guiworld-"));
        ("location", VStr (spoke_location var));
        ("resource_group_name", VStr (named "rg-guiworld-keyvault-"));
        ("tenant_id", VStr (az_tenant_id az));
        ("sku_name", VStr (key_vault_sku var));
        ("soft_delete_retention_days", VNum (soft_delete_retention_days var));
        ("purge_protection_enabled", VBool (enable_purge_protection var));
        ("public_network_access_enabled", VBool (allow_public_access var));
        ("network_acls", VObj [
           ("bypass", VStr "AzureServices");
           ("default_action",
             VStr (if allow_public_access var then "Allow" else "Deny"));
           ("virtual_network_subnet_ids", strings [
              az_id az "azurerm_subnet.keyvault";
              shared_services_subnet_id hub ]) ]);
        ("access_policy", VObj [
           ("tenant_id", VStr (az_tenant_id az));
           ("object_id", VStr (az_object_id az));
           ("key_permissions", strings [
              "Create"; "Delete"; "Get"; "List"; "Update"; "Import";
              "Backup"; "Restore"; "Recover" ]);
           ("secret_permissions", strings [
              "Set"; "Get"; "Delete"; "List"; "Backup"; "Restore"; "Recover" ]);
           ("certificate_permissions", strings [
              "Create"; "Delete"; "Get"; "List"; "Update"; "Import";
              "Backup"; "Restore"; "Recover" ]) ]);
        ("tags", VMap spoke_tags) ].

Definition azurerm_private_endpoint_keyvault (i : nat) : result resource :=
      zone_id ← keyvault_private_dns_zone_id hub;
      Ok (indexed "azurerm_private_endpoint" "keyvault" i [
        ("name", VStr (named "pep-keyvault-"));
        ("location", VStr (spoke_location var));
        ("resource_group_name", VStr (named "rg-guiworld-keyvault-"));
        ("subnet_id", VStr (az_id az "azurerm_subnet.keyvault"));
        ("private_service_connection", VObj [
           ("name", VStr "psc-keyvault");
           ("private_connection_resource_id", VStr (az_id az "azurerm_key_vault.main"));
           ("subresource_names", strings ["vault"]);
           ("is_manual_connection", VBool false) ]);
        ("private_dns_zone_group", VObj [
           ("name", VStr "dns-zone-group");
           ("private_dns_zone_ids", strings [zone_id]) ]);
        ("tags", VMap spoke_tags) ]).

Definition azurerm_virtual_network_peering_spoke_to_hub : resource :=
      single "azurerm_virtual_network_peering" "spoke_to_hub" [
        ("name", VStr "peer-keyvault-to-hub");
        ("resource_group_name", VStr (named "rg-guiworld-keyvault-"));
        ("virtual_network_name", VStr (named "vnet-guiworld-keyvault-"));
        ("remote_virtual_network_id", VStr (hub_vnet_id hub));
        ("allow_virtual_network_access", VBool true);
        ("allow_forwarded_traffic", VBool true);
        ("allow_gateway_transit", VBool false);
        ("use_remote_gateways", VBool false) ].

Definition azurerm_virtual_network_peering_hub_to_spoke : resource :=
      single "azurerm_virtual_network_peering" "hub_to_spoke" [
        ("name", VStr "peer-hub-to-keyvault");
        ("resource_group_name", VStr (hub_resource_group_name hub));
        ("virtual_network_name", VStr (hub_vnet_name hub));
        ("remote_virtual_network_id",
          VStr (az_id az "azurerm_virtual_network.keyvault_spoke"));
        ("allow_virtual_network_access", VBool true);
        ("allow_forwarded_traffic", VBool true);
        ("allow_gateway_transit", VBool true);
        ("use_remote_gateways", VBool false) ].

Definition azurerm_private_dns_zone_virtual_network_link_keyvault_spoke : resource :=
      single "azurerm_private_dns_zone_virtual_network_link" "keyvault_spoke" [
        ("name", VStr "keyvault-spoke-link");
        ("resource_group_name", VStr (hub_resource_group_name hub));
        ("private_dns_zone_name", VStr (keyvault_private_dns_zone_name hub));
        ("virtual_network_id", VStr (az_id az "azurerm_virtual_network.keyvault_spoke"));
        ("registration_enabled", VBool false);
        ("tags", VMap spoke_tags) ].

Definition azurerm_monitor_diagnostic_setting_keyvault : resource :=
      single "azurerm_monitor_diagnostic_setting" "keyvault" [
        ("name", VStr (named "diag-keyvault-"));
        ("target_resource_id", VStr (az_id az "azurerm_key_vault.main"));
        ("log_analytics_workspace_id", VStr (log_analytics_workspace_id hub));
        ("enabled_log", VList [
           VObj [("category", VStr "AuditEvent")];
           VObj [("category", VStr "AzurePolicyEvaluationDetails")] ]);
        ("metric", VObj [("category", VStr "AllMetrics"); ("enabled", VBool true)]) ].

    (** Every block of the configuration, with its references resolved. *)
Definition resources : result (list resource) :=
      keyvault ←
        mapM id (Terraform.count (if allow_public_access var then 0 else 1)
                   azurerm_private_endpoint_keyvault);
      Ok ([ random_string_suffix;
            azurerm_resource_group_keyvault_spoke;
            azurerm_virtual_network_keyvault_spoke;
            azurerm_subnet_keyvault;
            azurerm_network_security_group_keyvault;
            azurerm_subnet_network_security_group_association_keyvault;
            azurerm_key_vault_main ]
          ++ keyvault
          ++ [ azurerm_virtual_network_peering_spoke_to_hub;
               azurerm_virtual_network_peering_hub_to_spoke;
               azurerm_private_dns_zone_virtual_network_link_keyvault_spoke;
               azurerm_monitor_diagnostic_setting_keyvault ])%list.

Definition outputs : gmap string value :=
      list_to_map [
        ("resource_group_name", VStr (named "rg-guiworld-keyvault-"));
        ("location", VStr (spoke_location var));
        ("vnet_name", VStr (named "vnet-guiworld-keyvault-"));
        ("vnet_id", VStr (az_id az "azurerm_virtual_network.keyvault_spoke"));
        ("vnet_address_space", strings [spoke_vnet_address_space var]);
        ("keyvault_subnet_id", VStr (az_id az "azurerm_subnet.keyvault"));
        ("keyvault_subnet_address_prefix", VStr (keyvault_subnet_address_prefix var));
        ("key_vault_name", VStr (named "kv-guiworld-"));
        ("key_vault_id", VStr (az_id az "azurerm_key_vault.main"));
        ("key_vault_resource_id", VStr (az_id az "azurerm_key_vault.main"));
        ("nsg_id", VStr (az_id az "azurerm_network_security_group.keyvault"));
        ("hub_connection", VObj [
           ("hub_vnet_id", VStr (hub_vnet_id hub));
           ("hub_resource_group", VStr (hub_resource_group_name hub));
           ("peering_spoke_to_hub", VStr "peer-keyvault-to-hub");
           ("peering_hub_to_spoke", VStr "peer-hub-to-keyvault");
           ("dns_zone_linked", VStr (keyvault_private_dns_zone_name hub)) ]) ].
End Resources.

  (** A run: variable validation, then the remote state of the hub is read
      and the references that the planned blocks make to its outputs are
      resolved; only then are resources created. *)
Definition apply (states : gmap string (gmap string value))
    : result (list resource * gmap string value) :=
    _ ← validate;
    o ← read_state states (hub_state_path var);
    hub ← read_hub o;
    rs ← resources hub;
    Ok (rs, outputs hub).
End Config.

End KeyvaultSpoke.

(** ** The Database spoke ([infrastructure/spokes/database-spoke]) *)

Module DatabaseSpoke.

Record Variables : Type := {
  spoke_location : string;
  hub_state_path : string;
  keyvault_state_path : string;
  store_password_in_keyvault : bool;
  spoke_vnet_address_space : string;
  database_subnet_address_prefix : string;
  postgresql_sku : string;
  postgresql_storage_mb : Z;
  postgresql_version : string;
  database_admin_username : string;
  database_admin_password : string;
  database_name : string;
  additional_databases : list string;
  database_timezone : string;
  backup_retention_days : Z;
  geo_redundant_backup_enabled : bool;
  enable_high_availability : bool;
  maintenance_window_day : Z;
  maintenance_window_hour : Z;
  additional_tags : gmap string string;
  cost_center : string
}.

Definition defaults : Variables := {|
  spoke_location := "East US";
  hub_state_path := "../../hub/terraform.tfstate";
  keyvault_state_path := "../keyvault-spoke/terraform.tfstate";
  store_password_in_keyvault := false;
  spoke_vnet_address_space := "10.2.0.0/16";
  database_subnet_address_prefix := "10.2.1.0/24";
  postgresql_sku := "B_Standard_B1ms";
  postgresql_storage_mb := 32768;
  postgresql_version := "15";
  database_admin_username := "guiworld_admin";
  database_admin_password := "";
  database_name := "guiworld";
  additional_databases := [];
  database_timezone := "UTC";
  backup_retention_days := 14;
  geo_redundant_backup_enabled := false;
  enable_high_availability := false;
  maintenance_window_day := 0;
  maintenance_window_hour := 3;
  additional_tags := ∅;
  cost_center := "GuiWorld-Database"
|}.

(** The hub outputs this configuration refers to. *)
Record HubOutputs : Type := {
  environment : string;
  common_tags : gmap string string;
  hub_resource_group_name : string;
  hub_vnet_name : string;
  hub_vnet_id : string;
  hub_vnet_address_space : list string;
  postgres_private_dns_zone_name : string;
  postgres_private_dns_zone_id : string;
  log_analytics_workspace_id : string
}.

Definition read_hub (o : gmap string value) : result HubOutputs :=
  e ← output_string o "environment";
  t ← output_map o "common_tags";
  rg ← output_string o "hub_resource_group_name";
  vn ← output_string o "hub_vnet_name";
  vi ← output_string o "hub_vnet_id";
  sp ← output_strings o "hub_vnet_address_space";
  zn ← output_string o "postgres_private_dns_zone_name";
  zi ← output_string o "postgres_private_dns_zone_id";
  la ← output_string o "log_analytics_workspace_id";
  Ok {| environment := e; common_tags := t; hub_resource_group_name := rg;
        hub_vnet_name := vn; hub_vnet_id := vi; hub_vnet_address_space := sp;
        postgres_private_dns_zone_name := zn; postgres_private_dns_zone_id := zi;
        log_analytics_workspace_id := la |}.

(** The arguments of [random_string.suffix] and [random_password.db_admin]. *)
Definition random_string_suffix_args : Random.Args :=
  {| Random.length := 8; Random.special := false; Random.upper := false;
     Random.lower := true; Random.numeric := true;
     Random.min_lower := 0; Random.min_upper := 0; Random.min_numeric := 0;
     Random.min_special := 0; Random.override_special := "" |}.

Definition random_password_db_admin_args : Random.Args :=
  {| Random.length := 16; Random.special := true; Random.upper := true;
     Random.lower := true; Random.numeric := true;
     Random.min_lower := 0; Random.min_upper := 0; Random.min_numeric := 0;
     Random.min_special := 0; Random.override_special := "" |}.

Section Config.
  (** [regex_can pattern s] stands for [can(regex(pattern, s))]. *)
Variable regex_can : string → string → bool.
Variable var : Variables.
  (** [random_string.suffix.result] and [random_password.db_admin.result] *)
Variable suffix : string.
Variable db_admin : string.
Variable az : Azure.

Definition address_validations : list (result unit) := [
    validation (Terraform.can (Terraform.cidrhost (spoke_vnet_address_space var) 0))
      "Spoke VNet address space must be a valid CIDR block.";
    validation (Terraform.can (Terraform.cidrhost (database_subnet_address_prefix var) 0))
      "Database subnet address prefix must be a valid CIDR block."
  ].

Definition validations : list (result unit) :=
    [ validation (Terraform.contains azure_regions (spoke_location var))
        "Spoke location must be a valid Azure region." ]
    ++ address_validations ++
    [ validation
        (regex_can
           "^(B_Standard_B[124]ms|GP_Standard_D[248]s_v3|MO_Standard_E[248]s_v3)$"
           (postgresql_sku var))
        "PostgreSQL SKU must be a valid flexible server SKU.";
      validation ((20480 <=? postgresql_storage_mb var)
                  && (postgresql_storage_mb var <=? 16777216))
        "PostgreSQL storage must be between 20GB and 16TB (20480 to 16777216 MB).";
      validation (Terraform.contains ["11"; "12"; "13"; "14"; "15"] (postgresql_version var))
        "PostgreSQL version must be 11, 12, 13, 14, or 15.";
      validation (regex_can "^[a-zA-Z][a-zA-Z0-9_]{2,63}$" (database_admin_username var))
        "Database admin username must be 3-64 characters, start with a letter, and contain only letters, numbers, and underscores.";
      validation
        (bool_decide (database_admin_password var = "")
         || regex_can
              "^(?=.*[a-z])(?=.*[A-Z])(?=.*\d)(?=.*[@$!%*?&])[A-Za-z\d@$!%*?&]{12,128}$"
              (database_admin_password var))
        "Database admin password must be 12-128 characters with at least one lowercase letter, one uppercase letter, one digit, and one special character, or leave empty for auto-generation.";
      validation (regex_can "^[a-zA-Z][a-zA-Z0-9_]{0,62}$" (database_name var))
        "Database name must start with a letter and contain only letters, numbers, and underscores (max 63 characters).";
      validation ((7 <=? backup_retention_days var) && (backup_retention_days var <=? 35))
        "Backup retention days must be between 7 and 35.";
      validation ((0 <=? maintenance_window_day var) && (maintenance_window_day var <=? 6))
        "Maintenance window day must be between 0 (Sunday) and 6 (Saturday).";
      validation ((0 <=? maintenance_window_hour var) && (maintenance_window_hour var <=? 23))
        "Maintenance window hour must be between 0 and 23." ].

Definition validate : result unit := _ ← mapM id validations; Ok tt.

Section Resources.
Variable hub : HubOutputs.
    (** The instances of [data.terraform_remote_state.keyvault] (as many as
        its [count]), each with the outputs it read. *)
Variable keyvault : list (gmap string value).

    (** [locals] *)
Definition resource_suffix : string := suffix.
Definition hub_environment : string := environment hub.
Definition hub_tags : gmap string string := common_tags hub.
Definition spoke_specific_tags : gmap string string :=
      {[ "Component" := "Database-Spoke"; "Region" := spoke_location var ]}.
Definition spoke_tags : gmap string string :=
      Terraform.merge [hub_tags; spoke_specific_tags; additional_tags var].

Definition named (stem : string) : string :=
      stem +:+ hub_environment +:+ "-" +:+ resource_suffix.

Definition random_string_suffix : resource :=
      single "random_string" "suffix" [
        ("length", VNum 8); ("special", VBool false); ("upper", VBool false);
        ("result", VStr suffix) ].

Definition random_password_db_admin : resource :=
      single "random_password" "db_admin" [
        ("length", VNum 16); ("special", VBool true);
        ("result", VStr db_admin) ].

Definition azurerm_resource_group_database_spoke : resource :=
      single "azurerm_resource_group" "database_spoke" [
        ("name", VStr (named "rg-guiworld-database-"));
        ("location", VStr (spoke_location var));
        ("tags", VMap spoke_tags) ].

Definition azurerm_virtual_network_database_spoke : resource :=
      single "azurerm_virtual_network" "database_spoke" [
        ("name", VStr (named "vnet-guiworld-database-"));
        ("address_space", strings [spoke_vnet_address_space var]);
        ("location", VStr (spoke_location var));
        ("resource_group_name", VStr (named "rg-guiworld-database-"));
        ("tags", VMap spoke_tags) ].

Definition azurerm_subnet_database : resource :=
      single "azurerm_subnet" "database" [
        ("name", VStr "snet-database");
        ("resource_group_name", VStr (named "rg-guiworld-database-"));
        ("virtual_network_name", VStr (named "vnet-guiworld-database-"));
        ("address_prefixes", strings [database_subnet_address_prefix var]);
        ("delegation", VObj [
           ("name", VStr "postgresql-delegation");
           ("service_delegation", VObj [
              ("name", VStr "Microsoft.DBforPostgreSQL/flexibleServers");
              ("actions", strings [
                 "Microsoft.Network/virtualNetworks/subnets/join/action" ]) ]) ]) ].

    (** [hub_vnet_address_space[0]]: an index error when the list is empty. *)
Definition hub_vnet_address_space_0 : result string :=
      from_option "Invalid index" (hub_vnet_address_space hub !! 0%nat).

Definition azurerm_network_security_group_database : result resource :=
      hub_space ← hub_vnet_address_space_0;
      Ok (single "azurerm_network_security_group" "database" [
        ("name", VStr (named "nsg-database-"));
        ("location", VStr (spoke_location var));
        ("resource_group_name", VStr (named "rg-guiworld-database-"));
        ("security_rule", VList [
           security_rule "AllowPostgreSQL" 1001 "Allow" "Tcp"
             ("destination_port_range", VStr "5432") "VirtualNetwork";
           security_rule "AllowPostgreSQLFromHub" 1002 "Allow" "Tcp"
             ("destination_port_range", VStr "5432") hub_space;
           security_rule "DenyAllInbound" 4096 "Deny" "*"
             ("destination_port_range", VStr "*") "*" ]);
        ("tags", VMap spoke_tags) ]).

Definition azurerm_subnet_network_security_group_association_database : resource :=
      single "azurerm_subnet_network_security_group_association" "database" [
        ("subnet_id", VStr (az_id az "azurerm_subnet.database"));
        ("network_security_group_id",
          VStr (az_id az "azurerm_network_security_group.database")) ].

Definition azurerm_private_dns_zone_virtual_network_link_database_spoke : resource :=
      single "azurerm_private_dns_zone_virtual_network_link" "database_spoke" [
        ("name", VStr "database-spoke-link");
        ("resource_group_name", VStr (hub_resource_group_name hub));
        ("private_dns_zone_name", VStr (postgres_private_dns_zone_name hub));
        ("virtual_network_id", VStr (az_id az "azurerm_virtual_network.database_spoke"));
        ("registration_enabled", VBool false);
        ("tags", VMap spoke_tags) ].

Definition azurerm_postgresql_flexible_server_main : resource :=
      single "azurerm_postgresql_flexible_server" "main" [
        ("name", VStr (named "psql-guiworld-"));
        ("resource_group_name", VStr (named "rg-guiworld-database-"));
        ("location", VStr (spoke_location var));
        ("administrator_login", VStr (database_admin_username var));
        ("administrator_password",
          VStr (if decide (database_admin_password var ≠ "")
                then database_admin_password var else db_admin));
        ("sku_name", VStr (postgresql_sku var));
        ("storage_mb", VNum (postgresql_storage_mb var));
        ("version", VStr (postgresql_version var));
        ("backup_retention_days", VNum (backup_retention_days var));
        ("geo_redundant_backup_enabled", VBool (geo_redundant_backup_enabled var));
        ("delegated_subnet_id", VStr (az_id az "azurerm_subnet.database"));
        ("private_dns_zone_id", VStr (postgres_private_dns_zone_id hub));
        ("high_availability",
          VList ((fun _ : nat => VObj [("mode", VStr "ZoneRedundant")])
                 <$> (if enable_high_availability var then [1%nat] else [])));
        ("maintenance_window", VObj [
           ("day_of_week", VNum (maintenance_window_day var));
           ("start_hour", VNum (maintenance_window_hour var));
           ("start_minute", VNum 0) ]);
        ("tags", VMap spoke_tags) ].

Definition azurerm_postgresql_flexible_server_database_guiworld : resource :=
      single "azurerm_postgresql_flexible_server_database" "guiworld" [
        ("name", VStr (database_name var));
        ("server_id", VStr (az_id az "azurerm_postgresql_flexible_server.main"));
        ("collation", VStr "en_US.utf8");
        ("charset", VStr "utf8") ].

Definition azurerm_postgresql_flexible_server_database_additional (each : string)
      : resource :=
      keyed "azurerm_postgresql_flexible_server_database" "additional" each [
        ("name", VStr each);
        ("server_id", VStr (az_id az "azurerm_postgresql_flexible_server.main"));
        ("collation", VStr "en_US.utf8");
        ("charset", VStr "utf8") ].

Definition configuration (name value : string) : resource :=
      single "azurerm_postgresql_flexible_server_configuration" name [
        ("name", VStr name);
        ("server_id", VStr (az_id az "azurerm_postgresql_flexible_server.main"));
        ("value", VStr value) ].

Definition azurerm_virtual_network_peering_spoke_to_hub : resource :=
      single "azurerm_virtual_network_peering" "spoke_to_hub" [
        ("name", VStr "peer-database-to-hub");
        ("resource_group_name", VStr (named "rg-guiworld-database-"));
        ("virtual_network_name", VStr (named "vnet-guiworld-database-"));
        ("remote_virtual_network_id", VStr (hub_vnet_id hub));
        ("allow_virtual_network_access", VBool true);
        ("allow_forwarded_traffic", VBool true);
        ("allow_gateway_transit", VBool false);
        ("use_remote_gateways", VBool false) ].

Definition azurerm_virtual_network_peering_hub_to_spoke : resource :=
      single "azurerm_virtual_network_peering" "hub_to_spoke" [
        ("name", VStr "peer-hub-to-database");
        ("resource_group_name", VStr (hub_resource_group_name hub));
        ("virtual_network_name", VStr (hub_vnet_name hub));
        ("remote_virtual_network_id",
          VStr (az_id az "azurerm_virtual_network.database_spoke"));
        ("allow_virtual_network_access", VBool true);
        ("allow_forwarded_traffic", VBool true);
        ("allow_gateway_transit", VBool true);
        ("use_remote_gateways", VBool false) ].

    (** [data.terraform_remote_state.keyvault[0].outputs.key_vault_id] *)
Definition keyvault_0_key_vault_id : result string :=
      o ← from_option "Invalid index" (keyvault !! 0%nat);
      output_string o "key_vault_id".

Definition azurerm_key_vault_secret_db_password (i : nat) : result resource :=
      key_vault_id ← keyvault_0_key_vault_id;
      Ok (indexed "azurerm_key_vault_secret" "db_password" i [
        ("name", VStr "database-admin-password");
        ("value",
          VStr (if decide (database_admin_password var ≠ "")
                then database_admin_password var else db_admin));
        ("key_vault_id", VStr key_vault_id);
        ("tags", VMap spoke_tags) ]).

Definition azurerm_key_vault_secret_db_connection_string (i : nat) : result resource :=
      key_vault_id ← keyvault_0_key_vault_id;
      Ok (indexed "azurerm_key_vault_secret" "db_connection_string" i [
        ("name", VStr "database-connection-string");
        ("value",
          VStr ("Host=" +:+ az_fqdn az "azurerm_postgresql_flexible_server.main"
                +:+ ";Database=" +:+ database_name var
                +:+ ";Username=" +:+ database_admin_username var
                +:+ ";Password="
                +:+ (if decide (database_admin_password var ≠ "")
                     then database_admin_password var else db_admin)
                +:+ ";SSL Mode=Require"));
        ("key_vault_id", VStr key_vault_id);
        ("tags", VMap spoke_tags) ]).

Definition azurerm_monitor_diagnostic_setting_postgresql : resource :=
      single "azurerm_monitor_diagnostic_setting" "postgresql" [
        ("name", VStr (named "diag-postgresql-"));
        ("target_resource_id", VStr (az_id az "azurerm_postgresql_flexible_server.main"));
        ("log_analytics_workspace_id", VStr (log_analytics_workspace_id hub));
        ("enabled_log", VList [ VObj [("category", VStr "PostgreSQLLogs")] ]);
        ("metric", VObj [("category", VStr "AllMetrics"); ("enabled", VBool true)]) ].

    (** Every block of the configuration, with its references resolved. *)
Definition resources : result (list resource) :=
      nsg ← azurerm_network_security_group_database;
      db_password ←
        mapM id (Terraform.count (if store_password_in_keyvault var then 1 else 0)
                   azurerm_key_vault_secret_db_password);
      db_connection_string ←
        mapM id (Terraform.count (if store_password_in_keyvault var then 1 else 0)
                   azurerm_key_vault_secret_db_connection_string);
      Ok ([ random_string_suffix;
            random_password_db_admin;
            azurerm_resource_group_database_spoke;
            azurerm_virtual_network_database_spoke;
            azurerm_subnet_database;
            nsg;
            azurerm_subnet_network_security_group_association_database;
            azurerm_private_dns_zone_virtual_network_link_database_spoke;
            azurerm_postgresql_flexible_server_main;
            azurerm_postgresql_flexible_server_database_guiworld ]
          ++ (azurerm_postgresql_flexible_server_database_additional
                <$> Terraform.toset (additional_databases var))
          ++ [ configuration "timezone" (database_timezone var);
               configuration "log_connections" "on";
               configuration "log_disconnections" "on";
               azurerm_virtual_network_peering_spoke_to_hub;
               azurerm_virtual_network_peering_hub_to_spoke ]
          ++ db_password
          ++ db_connection_string
          ++ [ azurerm_monitor_diagnostic_setting_postgresql ])%list.

Definition outputs : gmap string value :=
      list_to_map [
        ("resource_group_name", VStr (named "rg-guiworld-database-"));
        ("location", VStr (spoke_location var));
        ("vnet_name", VStr (named "vnet-guiworld-database-"));
        ("vnet_id", VStr (az_id az "azurerm_virtual_network.database_spoke"));
        ("vnet_address_space", strings [spoke_vnet_address_space var]);
        ("database_subnet_id", VStr (az_id az "azurerm_subnet.database"));
        ("database_subnet_address_prefix", VStr (database_subnet_address_prefix var));
        ("postgresql_server_name", VStr (named "psql-guiworld-"));
        ("postgresql_server_id", VStr (az_id az "azurerm_postgresql_flexible_server.main"));
        ("postgresql_server_fqdn",
          VStr (az_fqdn az "azurerm_postgresql_flexible_server.main"));
        ("postgresql_version", VStr (postgresql_version var));
        ("database_name", VStr (database_name var));
        ("additional_database_names",
          strings (Terraform.toset (additional_databases var)));
        ("database_admin_username", VStr (database_admin_username var));
        ("database_connection_string",
          VStr ("Host=" +:+ az_fqdn az "azurerm_postgresql_flexible_server.main"
                +:+ ";Database=" +:+ database_name var
                +:+ ";Username=" +:+ database_admin_username var
                +:+ ";SSL Mode=Require"));
        ("nsg_id", VStr (az_id az "azurerm_network_security_group.database"));
        ("private_dns_zone_linked", VBool true);
        ("password_stored_in_keyvault", VBool (store_password_in_keyvault var));
        ("keyvault_secret_names",
          if store_password_in_keyvault var
          then strings ["database-admin-password"; "database-connection-string"]
          else strings []);
        ("hub_connection", VObj [
           ("hub_vnet_id", VStr (hub_vnet_id hub));
           ("hub_resource_group", VStr (hub_resource_group_name hub));
           ("peering_spoke_to_hub", VStr "peer-database-to-hub");
           ("peering_hub_to_spoke", VStr "peer-hub-to-database");
           ("dns_zone_linked", VStr (postgres_private_dns_zone_name hub)) ]);
        ("generated_admin_password",
          if decide (database_admin_password var ≠ "") then VNull else VStr db_admin) ].
End Resources.

  (** A run.  Variable validation comes first.  Then the data sources are
      read: both remote states take their path from a variable, so they are
      read while planning, and every reference to their outputs is resolved
      then.  Resources are created only when all of this succeeded. *)
Definition apply (states : gmap string (gmap string value))
    : result (list resource * gmap string value) :=
    _ ← validate;
    o ← read_state states (hub_state_path var);
    hub ← read_hub o;
    keyvault ←
      mapM id (Terraform.count (if store_password_in_keyvault var then 1 else 0)
                 (fun _ => read_state states (keyvault_state_path var)));
    rs ← resources hub keyvault;
    Ok (rs, outputs hub).
End Config.

End DatabaseSpoke.

(** ** The Storage spoke ([infrastructure/spokes/storage-spoke]) *)

Module StorageSpoke.

(** An element of [file_shares]: [object({ quota_gb, access_tier })]. *)
Record FileShare : Type := {
  quota_gb : Z;
  access_tier : string
}.

Record Variables : Type := {
  hub_state_path : string;
  keyvault_state_path : string;
  spoke_location : string;
  spoke_vnet_address_space : string;
  storage_subnet_address_prefix : string;
  storage_account_tier : string;
  storage_replication_type : string;
  storage_account_kind : string;
  allow_public_access : bool;
  storage_containers : list string;
  file_shares : gmap string FileShare;
  storage_tables : list string;
  storage_queues : list string;
  enable_versioning : bool;
  enable_change_feed : bool;
  enable_static_website : bool;
  static_website_index_document : string;
  static_website_error_document : string;
  store_connection_string_in_keyvault : bool;
  additional_tags : gmap string string
}.

Definition defaults : Variables := {|
  hub_state_path := "../../hub/terraform.tfstate";
  keyvault_state_path := "../keyvault-spoke/terraform.tfstate";
  spoke_location := "West US";
  spoke_vnet_address_space := "10.3.0.0/16";
  storage_subnet_address_prefix := "10.3.1.0/24";
  storage_account_tier := "Standard";
  storage_replication_type := "LRS";
  storage_account_kind := "StorageV2";
  allow_public_access := false;
  storage_containers :=
    ["webgui-data"; "application-assets"; "user-uploads"; "backup-data"];
  file_shares :=
    {[ "webgui-shared" := {| quota_gb := 100; access_tier := "Hot" |};
       "application-files" := {| quota_gb := 50; access_tier := "Hot" |} ]};
  storage_tables := [];
  storage_queues := [];
  enable_versioning := true;
  enable_change_feed := true;
  enable_static_website := false;
  static_website_index_document := "index.html";
  static_website_error_document := "error.html";
  store_connection_string_in_keyvault := true;
  additional_tags := ∅
|}.

(** The hub outputs this configuration refers to.
    [storage_private_dns_zone_id] is referred to by the blob private endpoint
    alone, whose [count] may be zero: the field holds the reference, which is
    resolved where an instance uses it. *)
Record HubOutputs : Type := {
  environment : string;
  common_tags : gmap string string;
  hub_resource_group_name : string;
  hub_vnet_name : string;
  hub_vnet_id : string;
  shared_services_subnet_id : string;
  storage_private_dns_zone_name : string;
  storage_private_dns_zone_id : result string;
  log_analytics_workspace_id : string
}.

Definition read_hub (o : gmap string value) : result HubOutputs :=
  e ← output_string o "environment";
  t ← output_map o "common_tags";
  rg ← output_string o "hub_resource_group_name";
  vn ← output_string o "hub_vnet_name";
  vi ← output_string o "hub_vnet_id";
  ss ← output_string o "shared_services_subnet_id";
  zn ← output_string o "storage_private_dns_zone_name";
  la ← output_string o "log_analytics_workspace_id";
  Ok {| environment := e; common_tags := t; hub_resource_group_name := rg;
        hub_vnet_name := vn; hub_vnet_id := vi; shared_services_subnet_id := ss;
        storage_private_dns_zone_name := zn;
        storage_private_dns_zone_id := output_string o "storage_private_dns_zone_id";
        log_analytics_workspace_id := la |}.

Section Config.
Variable var : Variables.
  (** [random_string.suffix.result] *)
Variable suffix : string.
Variable az : Azure.

  (** [spoke_vnet_address_space] and [storage_subnet_address_prefix] are
      declared without a validation block. *)
Definition address_validations : list (result unit) := [].

Definition validations : list (result unit) :=
    address_validations ++
    [ validation (Terraform.contains ["Standard"; "Premium"] (storage_account_tier var))
        "Storage account tier must be either 'Standard' or 'Premium'.";
      validation
        (Terraform.contains ["LRS"; "GRS"; "RAGRS"; "ZRS"; "GZRS"; "RAGZRS"]
           (storage_replication_type var))
        "Storage replication type must be one of: LRS, GRS, RAGRS, ZRS, GZRS, RAGZRS.";
      validation
        (Terraform.contains
           ["Storage"; "StorageV2"; "BlobStorage"; "FileStorage"; "BlockBlobStorage"]
           (storage_account_kind var))
        "Storage account kind must be one of: Storage, StorageV2, BlobStorage, FileStorage, BlockBlobStorage." ].

Definition validate : result unit := _ ← mapM id validations; Ok tt.

Section Resources.
Variable hub : HubOutputs.
    (** The instances of [data.terraform_remote_state.keyvault]. *)
Variable keyvault : list (gmap string value).

    (** [locals] *)
Definition resource_suffix : string := suffix.
Definition hub_environment : string := environment hub.
Definition hub_tags : gmap string string := common_tags hub.
Definition spoke_specific_tags : gmap string string :=
      {[ "Component" := "Storage-Spoke"; "Region" := spoke_location var ]}.
Definition spoke_tags : gmap string string :=
      Terraform.merge [hub_tags; spoke_specific_tags; additional_tags var].

Definition named (stem : string) : string :=
      stem +:+ hub_environment +:+ "-" +:+ resource_suffix.

Definition storage_account_name : string :=
      "stguiworld" +:+ hub_environment +:+ resource_suffix.

Definition random_string_suffix : resource :=
      single "random_string" "suffix" [
        ("length", VNum 8); ("special", VBool false); ("upper", VBool false);
        ("result", VStr suffix) ].

Definition azurerm_resource_group_storage_spoke : resource :=
      single "azurerm_resource_group" "storage_spoke" [
        ("name", VStr (named "rg-guiworld-storage-"));
        ("location", VStr (spoke_location var));
        ("tags", VMap spoke_tags) ].

Definition azurerm_virtual_network_storage_spoke : resource :=
      single "azurerm_virtual_network" "storage_spoke" [
        ("name", VStr (named "vnet-guiworld-storage-"));
        ("address_space", strings [spoke_vnet_address_space var]);
        ("location", VStr (spoke_location var));
        ("resource_group_name", VStr (named "rg-guiworld-storage-"));
        ("tags", VMap spoke_tags) ].

Definition azurerm_subnet_storage : resource :=
      single "azurerm_subnet" "storage" [
        ("name", VStr "snet-storage");
        ("resource_group_name", VStr (named "rg-guiworld-storage-"));
        ("virtual_network_name", VStr (named "vnet-guiworld-storage-"));
        ("address_prefixes", strings [storage_subnet_address_prefix var]);
        ("private_endpoint_network_policies_enabled", VBool false) ].

Definition azurerm_network_security_group_storage : resource :=
      single "azurerm_network_security_group" "storage" [
        ("name", VStr (named "nsg-storage-"));
        ("location", VStr (spoke_location var));
        ("resource_group_name", VStr (named "rg-guiworld-storage-"));
        ("security_rule", VList [
           security_rule "AllowStorageHTTPS" 1001 "Allow" "Tcp"
             ("destination_port_range", VStr "443") "VirtualNetwork";
           security_rule "AllowStorageServices" 1002 "Allow" "Tcp"
             ("destination_port_ranges", strings ["80"; "443"]) "Storage";
           security_rule "DenyAllInbound" 4096 "Deny" "*"
             ("destination_port_range", VStr "*") "*" ]);
        ("tags", VMap spoke_tags) ].

Definition azurerm_subnet_network_security_group_association_storage : resource :=
      single "azurerm_subnet_network_security_group_association" "storage" [
        ("subnet_id", VStr (az_id az "azurerm_subnet.storage"));
        ("network_security_group_id",
          VStr (az_id az "azurerm_network_security_group.storage")) ].

Definition azurerm_storage_account_main : resource :=
      single "azurerm_storage_account" "main" [
        ("name", VStr storage_account_name);
        ("resource_group_name", VStr (named "rg-guiworld-storage-"));
        ("location", VStr (spoke_location var));
        ("account_tier", VStr (storage_account_tier var));
        ("account_replication_type", VStr (storage_replication_type var));
        ("account_kind", VStr (storage_account_kind var));
        ("min_tls_version", VStr "TLS1_2");
        ("allow_nested_items_to_be_public", VBool (allow_public_access var));
        ("public_network_access_enabled", VBool (allow_public_access var));
        ("network_rules", VObj [
           ("default_action",
             VStr (if allow_public_access var then "Allow" else "Deny"));
           ("bypass", strings ["AzureServices"]);
           ("virtual_network_subnet_ids", strings [
              az_id az "azurerm_subnet.storage";
              shared_services_subnet_id hub ]) ]);
        ("blob_properties", VObj [
           ("versioning_enabled", VBool (enable_versioning var));
           ("change_feed_enabled", VBool (enable_change_feed var));
           ("change_feed_retention_in_days",
             if enable_change_feed var then VNum 7 else VNull);
           ("container_delete_retention_policy", VObj [("days", VNum 7)]);
           ("delete_retention_policy", VObj [("days", VNum 7)]) ]);
        ("static_website",
          VList ((fun _ : nat => VObj [
                    ("index_document", VStr (static_website_index_document var));
                    ("error_404_document", VStr (static_website_error_document var)) ])
                 <$> (if enable_static_website var then [1%nat] else [])));
        ("tags", VMap spoke_tags) ].

Definition azurerm_storage_container_containers (each : string) : resource :=
      keyed "azurerm_storage_container" "containers" each [
        ("name", VStr each);
        ("storage_account_name", VStr storage_account_name);
        ("container_access_type", VStr "private") ].

Definition azurerm_storage_share_shares (each : string * FileShare) : resource :=
      keyed "azurerm_storage_share" "shares" (each.1) [
        ("name", VStr (each.1));
        ("storage_account_name", VStr storage_account_name);
        ("quota", VNum (quota_gb (each.2)));
        ("access_tier", VStr (access_tier (each.2))) ].

Definition azurerm_storage_table_tables (each : string) : resource :=
      keyed "azurerm_storage_table" "tables" each [
        ("name", VStr each);
        ("storage_account_name", VStr storage_account_name) ].

Definition azurerm_storage_queue_queues (each : string) : resource :=
      keyed "azurerm_storage_queue" "queues" each [
        ("name", VStr each);
        ("storage_account_name", VStr storage_account_name) ].

Definition azurerm_private_endpoint_storage_blob (i : nat) : result resource :=
      zone_id ← storage_private_dns_zone_id hub;
      Ok (indexed "azurerm_private_endpoint" "storage_blob" i [
        ("name", VStr (named "pep-storage-blob-"));
        ("location", VStr (spoke_location var));
        ("resource_group_name", VStr (named "rg-guiworld-storage-"));
        ("subnet_id", VStr (az_id az "azurerm_subnet.storage"));
        ("private_service_connection", VObj [
           ("name", VStr "psc-storage-blob");
           ("private_connection_resource_id",
             VStr (az_id az "azurerm_storage_account.main"));
           ("subresource_names", strings ["blob"]);
           ("is_manual_connection", VBool false) ]);
        ("private_dns_zone_group", VObj [
           ("name", VStr "dns-zone-group");
           ("private_dns_zone_ids", strings [zone_id]) ]);
        ("tags", VMap spoke_tags) ]).

Definition azurerm_private_endpoint_storage_file (i : nat) : resource :=
      indexed "azurerm_private_endpoint" "storage_file" i [
        ("name", VStr (named "pep-storage-file-"));
        ("location", VStr (spoke_location var));
        ("resource_group_name", VStr (named "rg-guiworld-storage-"));
        ("subnet_id", VStr (az_id az "azurerm_subnet.storage"));
        ("private_service_connection", VObj [
           ("name", VStr "psc-storage-file");
           ("private_connection_resource_id",
             VStr (az_id az "azurerm_storage_account.main"));
           ("subresource_names", strings ["file"]);
           ("is_manual_connection", VBool false) ]);
        ("tags", VMap spoke_tags) ].

    (** [count] of [azurerm_private_endpoint.storage_blob] *)
Definition storage_blob_count : nat :=
      if allow_public_access var then 0 else 1.

    (** [count] of [azurerm_private_endpoint.storage_file] *)
Definition storage_file_count : nat :=
      if allow_public_access var || bool_decide (size (file_shares var) = 0%nat)
      then 0 else 1.

Definition azurerm_virtual_network_peering_spoke_to_hub : resource :=
      single "azurerm_virtual_network_peering" "spoke_to_hub" [
        ("name", VStr "peer-storage-to-hub");
        ("resource_group_name", VStr (named "rg-guiworld-storage-"));
        ("virtual_network_name", VStr (named "vnet-guiworld-storage-"));
        ("remote_virtual_network_id", VStr (hub_vnet_id hub));
        ("allow_virtual_network_access", VBool true);
        ("allow_forwarded_traffic", VBool true);
        ("allow_gateway_transit", VBool false);
        ("use_remote_gateways", VBool false) ].

Definition azurerm_virtual_network_peering_hub_to_spoke : resource :=
      single "azurerm_virtual_network_peering" "hub_to_spoke" [
        ("name", VStr "peer-hub-to-storage");
        ("resource_group_name", VStr (hub_resource_group_name hub));
        ("virtual_network_name", VStr (hub_vnet_name hub));
        ("remote_virtual_network_id",
          VStr (az_id az "azurerm_virtual_network.storage_spoke"));
        ("allow_virtual_network_access", VBool true);
        ("allow_forwarded_traffic", VBool true);
        ("allow_gateway_transit", VBool true);
        ("use_remote_gateways", VBool false) ].

Definition azurerm_private_dns_zone_virtual_network_link_storage_spoke : resource :=
      single "azurerm_private_dns_zone_virtual_network_link" "storage_spoke" [
        ("name", VStr "storage-spoke-link");
        ("resource_group_name", VStr (hub_resource_group_name hub));
        ("private_dns_zone_name", VStr (storage_private_dns_zone_name hub));
        ("virtual_network_id", VStr (az_id az "azurerm_virtual_network.storage_spoke"));
        ("registration_enabled", VBool false);
        ("tags", VMap spoke_tags) ].

    (** [data.terraform_remote_state.keyvault[0].outputs.key_vault_id] *)
Definition keyvault_0_key_vault_id : result string :=
      o ← from_option "Invalid index" (keyvault !! 0%nat);
      output_string o "key_vault_id".

Definition azurerm_key_vault_secret_storage_connection_string (i : nat)
      : result resource :=
      key_vault_id ← keyvault_0_key_vault_id;
      Ok (indexed "azurerm_key_vault_secret" "storage_connection_string" i [
        ("name", VStr "storage-connection-string");
        ("value", VStr (az_primary_connection_string az "azurerm_storage_account.main"));
        ("key_vault_id", VStr key_vault_id);
        ("tags", VMap spoke_tags) ]).

Definition azurerm_key_vault_secret_storage_access_key (i : nat) : result resource :=
      key_vault_id ← keyvault_0_key_vault_id;
      Ok (indexed "azurerm_key_vault_secret" "storage_access_key" i [
        ("name", VStr "storage-access-key");
        ("value", VStr (az_primary_access_key az "azurerm_storage_account.main"));
        ("key_vault_id", VStr key_vault_id);
        ("tags", VMap spoke_tags) ]).

Definition azurerm_monitor_diagnostic_setting_storage : resource :=
      single "azurerm_monitor_diagnostic_setting" "storage" [
        ("name", VStr (named "diag-storage-"));
        ("target_resource_id",
          VStr (az_id az "azurerm_storage_account.main" +:+ "/blobServices/default"));
        ("log_analytics_workspace_id", VStr (log_analytics_workspace_id hub));
        ("enabled_log", VList [
           VObj [("category", VStr "StorageRead")];
           VObj [("category", VStr "StorageWrite")];
           VObj [("category", VStr "StorageDelete")] ]);
        ("metric", VObj [("category", VStr "AllMetrics"); ("enabled", VBool true)]) ].

Definition resources : result (list resource) :=
      storage_blob ←
        mapM id (Terraform.count storage_blob_count azurerm_private_endpoint_storage_blob);
      storage_connection_string ←
        mapM id (Terraform.count (if store_connection_string_in_keyvault var then 1 else 0)
                   azurerm_key_vault_secret_storage_connection_string);
      storage_access_key ←
        mapM id (Terraform.count (if store_connection_string_in_keyvault var then 1 else 0)
                   azurerm_key_vault_secret_storage_access_key);
      Ok ([ random_string_suffix;
            azurerm_resource_group_storage_spoke;
            azurerm_virtual_network_storage_spoke;
            azurerm_subnet_storage;
            azurerm_network_security_group_storage;
            azurerm_subnet_network_security_group_association_storage;
            azurerm_storage_account_main ]
          ++ (azurerm_storage_container_containers
                <$> Terraform.toset (storage_containers var))
          ++ (azurerm_storage_share_shares <$> Terraform.entries (file_shares var))
          ++ (azurerm_storage_table_tables <$> Terraform.toset (storage_tables var))
          ++ (azurerm_storage_queue_queues <$> Terraform.toset (storage_queues var))
          ++ storage_blob
          ++ Terraform.count storage_file_count azurerm_private_endpoint_storage_file
          ++ [ azurerm_virtual_network_peering_spoke_to_hub;
               azurerm_virtual_network_peering_hub_to_spoke;
               azurerm_private_dns_zone_virtual_network_link_storage_spoke ]
          ++ storage_connection_string
          ++ storage_access_key
          ++ [ azurerm_monitor_diagnostic_setting_storage ])%list.

    (** [output "storage_blob_private_endpoint_id"] *)
Definition storage_blob_private_endpoint_id : value :=
      if allow_public_access var then VNull
      else VStr (az_id az "azurerm_private_endpoint.storage_blob[0]").

    (** [output "storage_file_private_endpoint_id"] *)
Definition storage_file_private_endpoint_id : value :=
      if allow_public_access var || bool_decide (size (file_shares var) = 0%nat)
      then VNull
      else VStr (az_id az "azurerm_private_endpoint.storage_file[0]").

Definition outputs : gmap string value :=
      list_to_map [
        ("resource_group_name", VStr (named "rg-guiworld-storage-"));
        ("location", VStr (spoke_location var));
        ("spoke_vnet_id", VStr (az_id az "azurerm_virtual_network.storage_spoke"));
        ("spoke_vnet_name", VStr (named "vnet-guiworld-storage-"));
        ("storage_subnet_id", VStr (az_id az "azurerm_subnet.storage"));
        ("storage_subnet_name", VStr "snet-storage");
        ("storage_account_id", VStr (az_id az "azurerm_storage_account.main"));
        ("storage_account_name", VStr storage_account_name);
        ("storage_blob_private_endpoint_id", storage_blob_private_endpoint_id);
        ("storage_file_private_endpoint_id", storage_file_private_endpoint_id);
        ("storage_containers", strings (Terraform.toset (storage_containers var)));
        ("storage_tables", strings (Terraform.toset (storage_tables var)));
        ("storage_queues", strings (Terraform.toset (storage_queues var)));
        ("keyvault_secret_names",
          if store_connection_string_in_keyvault var
          then strings ["storage-connection-string"; "storage-access-key"]
          else strings []);
        ("storage_nsg_id", VStr (az_id az "azurerm_network_security_group.storage"));
        ("common_tags", VMap spoke_tags) ].
End Resources.

Definition apply (states : gmap string (gmap string value))
    : result (list resource * gmap string value) :=
    _ ← validate;
    o ← read_state states (hub_state_path var);
    hub ← read_hub o;
    keyvault ←
      mapM id (Terraform.count (if store_connection_string_in_keyvault var then 1 else 0)
                 (fun _ => read_state states (keyvault_state_path var)));
    rs ← resources hub keyvault;
    Ok (rs, outputs hub).
End Config.

End StorageSpoke.

(** ** The three spokes, uniformly *)

Inductive Spoke : Type := KeyVault | Database | Storage.

(** The role of a spoke, as it appears in its relationship names. *)
Definition role (s : Spoke) : string :=
  match s with
  | KeyVault => "keyvault"
  | Database => "database"
  | Storage => "storage"
  end.

(** The values drawn by the [random] provider in one deployment. *)
Record RandomValues : Type := {
  random_string_suffix_result : string;
  random_password_db_admin_result : string
}.

(** A spoke with its input variables. *)
Inductive SpokeConfig : Type :=
| KeyVaultConfig (var : KeyvaultSpoke.Variables)
| DatabaseConfig (regex_can : string → string → bool) (var : DatabaseSpoke.Variables)
| StorageConfig (var : StorageSpoke.Variables).

Definition spoke_of (c : SpokeConfig) : Spoke :=
  match c with
  | KeyVaultConfig _ => KeyVault
  | DatabaseConfig _ _ => Database
  | StorageConfig _ => Storage
  end.

Definition spoke_apply (c : SpokeConfig) (rnd : RandomValues) (az : Azure)
    (states : gmap string (gmap string value))
  : result (list resource * gmap string value) :=
  match c with
  | KeyVaultConfig var =>
      KeyvaultSpoke.apply var (random_string_suffix_result rnd) az states
  | DatabaseConfig regex_can var =>
      DatabaseSpoke.apply regex_can var (random_string_suffix_result rnd)
        (random_password_db_admin_result rnd) az states
  | StorageConfig var =>
      StorageSpoke.apply var (random_string_suffix_result rnd) az states
  end.

Definition hub_state_path_of (c : SpokeConfig) : string :=
  match c with
  | KeyVaultConfig var => KeyvaultSpoke.hub_state_path var
  | DatabaseConfig _ var => DatabaseSpoke.hub_state_path var
  | StorageConfig var => StorageSpoke.hub_state_path var
  end.

Definition additional_tags_of (c : SpokeConfig) : gmap string string :=
  match c with
  | KeyVaultConfig var => KeyvaultSpoke.additional_tags var
  | DatabaseConfig _ var => DatabaseSpoke.additional_tags var
  | StorageConfig var => StorageSpoke.additional_tags var
  end.

Definition spoke_specific_tags_of (c : SpokeConfig) : gmap string string :=
  match c with
  | KeyVaultConfig var => KeyvaultSpoke.spoke_specific_tags var
  | DatabaseConfig _ var => DatabaseSpoke.spoke_specific_tags var
  | StorageConfig var => StorageSpoke.spoke_specific_tags var
  end.

(** The default of [allow_public_access], for the spokes that declare the
    variable. *)
Definition default_allow_public_access (s : Spoke) : option bool :=
  match s with
  | KeyVault => Some (KeyvaultSpoke.allow_public_access KeyvaultSpoke.defaults)
  | Database => None
  | Storage => Some (StorageSpoke.allow_public_access StorageSpoke.defaults)
  end.

(** An output of the hub, as a spoke reads it from the hub's state. *)
Definition hub_output_string (c : SpokeConfig)
    (states : gmap string (gmap string value)) (k : string) : result string :=
  o ← read_state states (hub_state_path_of c);
  output_string o k.

(** [hub_vnet_address_space[0]], as the database spoke reads it. *)
Definition hub_address_space_read (c : SpokeConfig)
    (states : gmap string (gmap string value)) : result string :=
  o ← read_state states (hub_state_path_of c);
  l ← output_strings o "hub_vnet_address_space";
  from_option "Invalid index" (l !! 0%nat).

Definition hub_tags_read (c : SpokeConfig)
    (states : gmap string (gmap string value)) : result (gmap string string) :=
  o ← read_state states (hub_state_path_of c);
  output_map o "common_tags".

(** Resource types whose [name] is built from a stem, the environment and
    the random suffix. *)
Definition suffixed_types : list string := [
  "azurerm_resource_group";
  "azurerm_virtual_network";
  "azurerm_network_security_group";
  "azurerm_key_vault";
  "azurerm_postgresql_flexible_server";
  "azurerm_storage_account";
  "azurerm_private_endpoint";
  "azurerm_monitor_diagnostic_setting"
].

Definition suffixed (r : resource) : bool := bool_decide (rtype r ∈ suffixed_types).

(** Instances of one block. *)
Definition instances (t l : string) (rs : list resource) : list resource :=
  filter (fun r => rtype r = t ∧ rlabel r = l) rs.


(** A name incorporates the environment and the suffix. *)
Definition incorporates (env suffix name : string) : bool :=
  string_contains env name && string_contains suffix name.

(** Every named resource of a plan incorporates the environment and the
    suffix. *)
Definition all_names_incorporate (env suffix : string) (rs : list resource) : bool :=
  forallb (fun r => match name_of r with
                    | Some n => incorporates env suffix n
                    | None => true
                    end) rs.

(** The resources and the outputs of a successful plan. *)
Definition planned {O} (r : result (list resource * O)) : list resource :=
  match r with
  | Ok (rs, _) => rs
  | Err _ => []
  end.

Definition planned_outputs (r : result (list resource * gmap string value))
  : gmap string value :=
  match r with
  | Ok (_, o) => o
  | Err _ => ∅
  end.

(** The blocks whose [name] is built from a stem, the hub's environment and
    the random suffix, in the order of the plan: type, label, stem and the
    separator written between the environment and the suffix. *)
Definition suffixed_stems (c : SpokeConfig)
  : list (string * string * string * string) :=
  match c with
  | KeyVaultConfig var =>
      [ ("azurerm_resource_group", "keyvault_spoke", "rg-guiworld-keyvault-", "-");
        ("azurerm_virtual_network", "keyvault_spoke", "vnet-guiworld-keyvault-", "-");
        ("azurerm_network_security_group", "keyvault", "nsg-keyvault-", "-");
        ("azurerm_key_vault", "main", "kv-guiworld-", "-") ]
      ++ (if KeyvaultSpoke.allow_public_access var then []
          else [ ("azurerm_private_endpoint", "keyvault", "pep-keyvault-", "-") ])
      ++ [ ("azurerm_monitor_diagnostic_setting", "keyvault", "diag-keyvault-", "-") ]
  | DatabaseConfig _ var =>
      [ ("azurerm_resource_group", "database_spoke", "rg-guiworld-database-", "-");
        ("azurerm_virtual_network", "database_spoke", "vnet-guiworld-database-", "-");
        ("azurerm_network_security_group", "database", "nsg-database-", "-");
        ("azurerm_postgresql_flexible_server", "main", "psql-guiworld-", "-");
        ("azurerm_monitor_diagnostic_setting", "postgresql", "diag-postgresql-", "-") ]
  | StorageConfig var =>
      [ ("azurerm_resource_group", "storage_spoke", "rg-guiworld-storage-", "-");
        ("azurerm_virtual_network", "storage_spoke", "vnet-guiworld-storage-", "-");
        ("azurerm_network_security_group", "storage", "nsg-storage-", "-");
        ("azurerm_storage_account", "main", "stguiworld", "") ]
      ++ (if StorageSpoke.allow_public_access var then []
          else [ ("azurerm_private_endpoint", "storage_blob", "pep-storage-blob-", "-") ])
      ++ (if StorageSpoke.allow_public_access var
             || bool_decide (size (StorageSpoke.file_shares var) = 0%nat)
          then []
          else [ ("azurerm_private_endpoint", "storage_file", "pep-storage-file-", "-") ])
      ++ [ ("azurerm_monitor_diagnostic_setting", "storage", "diag-storage-", "-") ]
  end%list.

(** The name built from a stem for an environment and a suffix. *)
Definition suffixed_name (env suffix : string)
    (block : string * string * string * string)
  : string * string * option string :=
  let '(t, l, stem, sep) := block in
  (t, l, Some (stem +:+ env +:+ sep +:+ suffix)).

(** ** What a run leaves behind *)

(** The state of a configuration, which records the instances it manages,
    and the secrets held by the key vaults, by vault identifier and secret
    name. *)
Record Cloud : Type := {
  deployed : list resource;
  vault_secrets : gmap (string * string) string
}.

(** The secret an [azurerm_key_vault_secret] instance holds. *)
Definition secret_written (r : resource) : option (string * string * string) :=
  if decide (rtype r = "azurerm_key_vault_secret") then
    match attr "key_vault_id" r, attr "name" r, attr "value" r with
    | Some (VStr vault), Some (VStr name), Some (VStr v) => Some (vault, name, v)
    | _, _, _ => None
    end
  else None.

(** Creating or updating an instance writes its secret; destroying it
    deletes the secret. *)
Definition write_secret (secrets : gmap (string * string) string) (r : resource)
  : gmap (string * string) string :=
  match secret_written r with
  | Some (vault, name, v) => <[(vault, name) := v]> secrets
  | None => secrets
  end.

Definition destroy_secret (secrets : gmap (string * string) string) (r : resource)
  : gmap (string * string) string :=
  match secret_written r with
  | Some (vault, name, _) => delete (vault, name) secrets
  | None => secrets
  end.

(** The secrets managed by a state: vault and name of each. *)
Definition managed_secrets (state : list resource) : list (string * string) :=
  omap (fun r => (fun s => (s.1.1, s.1.2)) <$> secret_written r) state.

(** A run of a configuration.  When planning fails nothing is changed.
    Otherwise the plan is applied against the state: an instance of the state
    that the plan no longer has is destroyed, one whose vault or name changed
    is replaced (destroyed and created anew), any other one is kept or updated
    in place, and the instances the state lacks are created.  The new state
    records the instances of the plan; the vaults end up without the secrets
    of the previous state, except where the plan writes them. *)
Definition run {O} (plan : result (list resource * O)) (c : Cloud)
  : Cloud * result O :=
  match plan with
  | Ok (rs, o) =>
      ({| deployed := rs;
          vault_secrets :=
            foldl write_secret (foldl destroy_secret (vault_secrets c) (deployed c)) rs |},
       Ok o)
  | Err e => (c, Err e)
  end.

(** ** The password policy declared for [database_admin_password] *)

Definition is_policy_special (c : ascii) : bool :=
  bool_decide (c ∈ String.list_ascii_of_string "@$!%*?&").

(** The validation of [database_admin_password] asks for 12 to 128
    characters with at least one lowercase letter, one uppercase letter, one
    digit and one special character. *)
Definition password_policy (s : string) : bool :=
  (12 <=? String.length s)%nat && (String.length s <=? 128)%nat &&
  existsb Random.is_lower (String.list_ascii_of_string s) &&
  existsb Random.is_upper (String.list_ascii_of_string s) &&
  existsb Random.is_numeric (String.list_ascii_of_string s) &&
  existsb is_policy_special (String.list_ascii_of_string s).

(** ** Canonical IPv4 CIDR notation *)

Definition render_cidr (a b c d n : Z) : string :=
  pretty a +:+ "." +:+ pretty b +:+ "." +:+ pretty c +:+ "." +:+ pretty d
  +:+ "/" +:+ pretty n.

(** A canonical block: four octets and a prefix length, in decimal. *)
Definition canonical_cidr (s : string) : Prop :=
  ∃ a b c d n : Z,
    0 ≤ a ≤ 255 ∧ 0 ≤ b ≤ 255 ∧ 0 ≤ c ≤ 255 ∧ 0 ≤ d ≤ 255 ∧ 0 ≤ n ≤ 32 ∧
    s = render_cidr a b c d n.

(** The text that follows a number does not start with a digit. *)
Definition ends_number (rest : string) : Prop :=
  match rest with
  | String c _ => Terraform.is_digit c = false
  | EmptyString => True
  end.

(** [s] is a run of digits that [dtoi_from n] scans without overflow, and
    the value it scans to. *)
Fixpoint scans (n : Z) (s : string) : bool :=
  match s with
  | EmptyString => true
  | String c s' =>
      Terraform.is_digit c &&
      (n * 10 + Terraform.digit_value c <? Terraform.big) &&
      scans (n * 10 + Terraform.digit_value c) s'
  end.

Fixpoint scanned (n : Z) (s : string) : Z :=
  match s with
  | EmptyString => n
  | String c s' => scanned (n * 10 + Terraform.digit_value c) s'
  end.

Definition no_slash (s : string) : bool :=
  forallb (fun c => negb (bool_decide (c = "/"%char))) (String.list_ascii_of_string s).

(** The decimal rendering of a number: digits only, at least one, no slash,
    and it scans back to the number. *)
Definition renders_well (v : Z) : bool :=
  scans 0 (pretty v) && (scanned 0 (pretty v) =? v) &&
  negb (bool_decide (pretty v = "")) && no_slash (pretty v).

(** ** Sample inputs *)

Definition sample_azure : Azure := {|
  az_id := fun a => "/subscriptions/0/" +:+ a;
  az_fqdn := fun a => a +:+ ".postgres.database.azure.com";
  az_primary_connection_string := fun a => "DefaultEndpointsProtocol=https;" +:+ a;
  az_primary_access_key := fun a => "key:" +:+ a;
  az_tenant_id := "tenant-0";
  az_object_id := "object-0"
|}.

Definition sample_random : RandomValues := {|
  random_string_suffix_result := "a1b2c3d4";
  random_password_db_admin_result := "Abcdefgh!jklmnop"
|}.

(** The state files after the hub, and then the Key Vault spoke, have been
    deployed with their default variables. *)
Definition hub_states : gmap string (gmap string value) :=
  {[ "../../hub/terraform.tfstate" :=
       Hub.outputs Hub.defaults "2025-01-01" "h0h0h0h0" sample_azure ]}.

Definition sample_hub_keyvault : KeyvaultSpoke.HubOutputs := {|
  KeyvaultSpoke.environment := "dev";
  KeyvaultSpoke.common_tags := Hub.common_tags Hub.defaults "2025-01-01";
  KeyvaultSpoke.hub_resource_group_name := "rg-guiworld-hub-dev-h0h0h0h0";
  KeyvaultSpoke.hub_vnet_name := "vnet-guiworld-hub-dev-h0h0h0h0";
  KeyvaultSpoke.hub_vnet_id := "/subscriptions/0/azurerm_virtual_network.hub";
  KeyvaultSpoke.shared_services_subnet_id :=
    "/subscriptions/0/azurerm_subnet.shared_services";
  KeyvaultSpoke.keyvault_private_dns_zone_name := "privatelink.vaultcore.azure.net";
  KeyvaultSpoke.keyvault_private_dns_zone_id :=
    Ok "/subscriptions/0/azurerm_private_dns_zone.keyvault";
  KeyvaultSpoke.log_analytics_workspace_id :=
    "/subscriptions/0/azurerm_log_analytics_workspace.hub"
|}.

Definition hub_keyvault_states : gmap string (gmap string value) :=
  <[ "../keyvault-spoke/terraform.tfstate" :=
       KeyvaultSpoke.outputs KeyvaultSpoke.defaults "k1k1k1k1" sample_azure
         sample_hub_keyvault ]> hub_states.

Definition accept_all : string → string → bool := fun _ _ => true.

Definition empty_cloud : Cloud := {| deployed := []; vault_secrets := ∅ |}.

Definition other_random : RandomValues := {|
  random_string_suffix_result := "z9y8x7w6";
  random_password_db_admin_result := "Zyxwvuts?rqponm1"
|}.

(** The variables of [keyvault-spoke/terraform.tfvars]. *)
Definition keyvault_tfvars : KeyvaultSpoke.Variables := {|
  KeyvaultSpoke.spoke_location := "South Central US";
  KeyvaultSpoke.hub_state_path := "../../hub/terraform.tfstate";
  KeyvaultSpoke.spoke_vnet_address_space := "10.1.0.0/16";
  KeyvaultSpoke.keyvault_subnet_address_prefix := "10.1.1.0/24";
  KeyvaultSpoke.key_vault_sku := "standard";
  KeyvaultSpoke.soft_delete_retention_days := 7;
  KeyvaultSpoke.enable_purge_protection := false;
  KeyvaultSpoke.allow_public_access := true;
  KeyvaultSpoke.additional_tags :=
    {[ "Purpose" := "SecureKeyManagement"; "Service" := "KeyVault";
       "Region" := "SouthCentralUS" ]};
  KeyvaultSpoke.cost_center := "GuiWorld-KeyVault"
|}.

(** The default variables of each module, with the given address space. *)
Definition hub_with_address_space (space : string) : Hub.Variables := {|
  Hub.environment := "dev";
  Hub.hub_location := "Central US";
  Hub.hub_vnet_address_space := space;
  Hub.gateway_subnet_address_prefix := "10.0.1.0/24";
  Hub.firewall_subnet_address_prefix := "10.0.2.0/24";
  Hub.bastion_subnet_address_prefix := "10.0.3.0/24";
  Hub.shared_services_subnet_address_prefix := "10.0.4.0/24";
  Hub.enable_azure_firewall := false;
  Hub.enable_azure_bastion := false;
  Hub.log_analytics_retention_days := 30;
  Hub.additional_tags := ∅;
  Hub.cost_center := "GuiWorld-Hub";
  Hub.owner_email := ""
|}.

Definition keyvault_with_address_space (space : string) : KeyvaultSpoke.Variables := {|
  KeyvaultSpoke.spoke_location := "South Central US";
  KeyvaultSpoke.hub_state_path := "../../hub/terraform.tfstate";
  KeyvaultSpoke.spoke_vnet_address_space := space;
  KeyvaultSpoke.keyvault_subnet_address_prefix := "10.1.1.0/24";
  KeyvaultSpoke.key_vault_sku := "standard";
  KeyvaultSpoke.soft_delete_retention_days := 7;
  KeyvaultSpoke.enable_purge_protection := false;
  KeyvaultSpoke.allow_public_access := true;
  KeyvaultSpoke.additional_tags := ∅;
  KeyvaultSpoke.cost_center := "GuiWorld-KeyVault"
|}.

(** The default variables of the database spoke, with the given address
    space and secret-storage flag. *)
Definition database_with (space : string) (store : bool) : DatabaseSpoke.Variables := {|
  DatabaseSpoke.spoke_location := "East US";
  DatabaseSpoke.hub_state_path := "../../hub/terraform.tfstate";
  DatabaseSpoke.keyvault_state_path := "../keyvault-spoke/terraform.tfstate";
  DatabaseSpoke.store_password_in_keyvault := store;
  DatabaseSpoke.spoke_vnet_address_space := space;
  DatabaseSpoke.database_subnet_address_prefix := "10.2.1.0/24";
  DatabaseSpoke.postgresql_sku := "B_Standard_B1ms";
  DatabaseSpoke.postgresql_storage_mb := 32768;
  DatabaseSpoke.postgresql_version := "15";
  DatabaseSpoke.database_admin_username := "guiworld_admin";
  DatabaseSpoke.database_admin_password := "";
  DatabaseSpoke.database_name := "guiworld";
  DatabaseSpoke.additional_databases := [];
  DatabaseSpoke.database_timezone := "UTC";
  DatabaseSpoke.backup_retention_days := 14;
  DatabaseSpoke.geo_redundant_backup_enabled := false;
  DatabaseSpoke.enable_high_availability := false;
  DatabaseSpoke.maintenance_window_day := 0;
  DatabaseSpoke.maintenance_window_hour := 3;
  DatabaseSpoke.additional_tags := ∅;
  DatabaseSpoke.cost_center := "GuiWorld-Database"
|}.

(** The default variables of the storage spoke, with the given address
    space and subnet prefix. *)
Definition storage_with_addresses (space prefix : string) : StorageSpoke.Variables := {|
  StorageSpoke.hub_state_path := "../../hub/terraform.tfstate";
  StorageSpoke.keyvault_state_path := "../keyvault-spoke/terraform.tfstate";
  StorageSpoke.spoke_location := "West US";
  StorageSpoke.spoke_vnet_address_space := space;
  StorageSpoke.storage_subnet_address_prefix := prefix;
  StorageSpoke.storage_account_tier := "Standard";
  StorageSpoke.storage_replication_type := "LRS";
  StorageSpoke.storage_account_kind := "StorageV2";
  StorageSpoke.allow_public_access := false;
  StorageSpoke.storage_containers :=
    ["webgui-data"; "application-assets"; "user-uploads"; "backup-data"];
  StorageSpoke.file_shares :=
    {[ "webgui-shared" :=
         {| StorageSpoke.quota_gb := 100; StorageSpoke.access_tier := "Hot" |};
       "application-files" :=
         {| StorageSpoke.quota_gb := 50; StorageSpoke.access_tier := "Hot" |} ]};
  StorageSpoke.storage_tables := [];
  StorageSpoke.storage_queues := [];
  StorageSpoke.enable_versioning := true;
  StorageSpoke.enable_change_feed := true;
  StorageSpoke.enable_static_website := false;
  StorageSpoke.static_website_index_document := "index.html";
  StorageSpoke.static_website_error_document := "error.html";
  StorageSpoke.store_connection_string_in_keyvault := true;
  StorageSpoke.additional_tags := ∅
|}.

(** A cloud in which a key vault already holds a secret. *)
Definition cloud_with_secret : Cloud := {|
  deployed := [];
  vault_secrets :=
    {[ ("/subscriptions/0/azurerm_key_vault.main", "api-key") := "s3cr3t" ]}
|}.

(** ** Further outputs and accessors *)

(** The prefix of the hub outputs that name the DNS zone of a spoke's
    domain: [keyvault_private_dns_zone_name], [postgres_...], [storage_...]. *)
Definition zone_key (s : Spoke) : string :=
  match s with
  | KeyVault => "keyvault"
  | Database => "postgres"
  | Storage => "storage"
  end.

(** The [security_rule] blocks of a network security group, and the fields
    of one rule. *)
Definition security_rules (r : resource) : list value :=
  match attr "security_rule" r with
  | Some (VList rules) => rules
  | _ => []
  end.

Definition rule_name (rule : value) : option string :=
  match field "name" rule with
  | Some (VStr s) => Some s
  | _ => None
  end.

Definition rule_priority (rule : value) : option Z :=
  match field "priority" rule with
  | Some (VNum n) => Some n
  | _ => None
  end.

Definition rule_access (rule : value) : option string :=
  match field "access" rule with
  | Some (VStr s) => Some s
  | _ => None
  end.


(** Lowercase letters and digits only. *)
Definition lower_alphanumeric (s : string) : bool :=
  forallb (fun c => Random.is_lower c || Random.is_numeric c)
    (String.list_ascii_of_string s).

(** *** Outputs of the hub for its optional services, and its summary *)

Module HubSummary.
Section Config.
Variable var : Hub.Variables.
Variable suffix : string.


(** [output "hub_summary"] *)
Definition hub_summary : value :=
  VObj [
    ("resource_group", VStr (Hub.named var suffix "rg-guiworld-hub-"));
    ("location", VStr (Hub.hub_location var));
    ("environment", VStr (Hub.environment var));
    ("vnet_name", VStr (Hub.named var suffix "vnet-guiworld-hub-"));
    ("vnet_address", VStr (Hub.hub_vnet_address_space var));
    ("services", VObj [
       ("firewall_enabled", VBool (Hub.enable_azure_firewall var));
       ("bastion_enabled", VBool (Hub.enable_azure_bastion var));
       ("log_analytics", VStr (Hub.named var suffix "law-guiworld-hub-")) ]);
    ("dns_zones", VObj [
       ("keyvault", VStr Hub.keyvault_zone);
       ("postgres", VStr Hub.postgres_zone);
       ("storage", VStr Hub.storage_zone) ]) ].
End Config.
End HubSummary.

(** *** [output "spoke_summary"] of the spokes *)

Module KeyvaultSummary.
Section Config.
Variable var : KeyvaultSpoke.Variables.
Variable suffix : string.
Variable hub : KeyvaultSpoke.HubOutputs.
  (** [azurerm_key_vault.main.vault_uri], computed by the provider *)
Variable vault_uri : string.

Definition spoke_summary : value :=
  VObj [
    ("resource_group", VStr (KeyvaultSpoke.named suffix hub "rg-guiworld-keyvault-"));
    ("location", VStr (KeyvaultSpoke.spoke_location var));
    ("environment", VStr (KeyvaultSpoke.hub_environment hub));
    ("vnet_name", VStr (KeyvaultSpoke.named suffix hub "vnet-guiworld-keyvault-"));
    ("vnet_address", VStr (KeyvaultSpoke.spoke_vnet_address_space var));
    ("key_vault", VObj [
       ("name", VStr (KeyvaultSpoke.named suffix hub "kv-guiworld-"));
       ("uri", VStr vault_uri);
       ("sku", VStr (KeyvaultSpoke.key_vault_sku var));
       ("public_access", VBool (KeyvaultSpoke.allow_public_access var));
       ("purge_protection", VBool (KeyvaultSpoke.enable_purge_protection var)) ]);
    ("connectivity", VObj [
       ("hub_connected", VBool true);
       ("private_endpoint", VBool (negb (KeyvaultSpoke.allow_public_access var)));
       ("dns_integration", VBool true);
       ("logging_enabled", VBool true) ]) ].
End Config.
End KeyvaultSummary.

Module DatabaseSummary.
Section Config.
Variable var : DatabaseSpoke.Variables.
Variable suffix : string.
Variable az : Azure.
Variable hub : DatabaseSpoke.HubOutputs.

(** [length(azurerm_postgresql_flexible_server_database.additional)]: the
    number of instances of the block. *)
Definition additional_dbs : Z :=
  Z.of_nat (length (Terraform.toset (DatabaseSpoke.additional_databases var))).

Definition spoke_summary : value :=
  VObj [
    ("resource_group", VStr (DatabaseSpoke.named suffix hub "rg-guiworld-database-"));
    ("location", VStr (DatabaseSpoke.spoke_location var));
    ("environment", VStr (DatabaseSpoke.hub_environment hub));
    ("vnet_name", VStr (DatabaseSpoke.named suffix hub "vnet-guiworld-database-"));
    ("vnet_address", VStr (DatabaseSpoke.spoke_vnet_address_space var));
    ("postgresql", VObj [
       ("server_name", VStr (DatabaseSpoke.named suffix hub "psql-guiworld-"));
       ("fqdn", VStr (az_fqdn az "azurerm_postgresql_flexible_server.main"));
       ("version", VStr (DatabaseSpoke.postgresql_version var));
       ("sku", VStr (DatabaseSpoke.postgresql_sku var));
       ("storage_mb", VNum (DatabaseSpoke.postgresql_storage_mb var));
       ("main_database", VStr (DatabaseSpoke.database_name var));
       ("additional_dbs", VNum additional_dbs);
       ("high_availability", VBool (DatabaseSpoke.enable_high_availability var));
       ("geo_backup", VBool (DatabaseSpoke.geo_redundant_backup_enabled var)) ]);
    ("connectivity", VObj [
       ("hub_connected", VBool true);
       ("private_network", VBool true);
       ("dns_integration", VBool true);
       ("logging_enabled", VBool true) ]);
    ("security", VObj [
       ("password_in_keyvault", VBool (DatabaseSpoke.store_password_in_keyvault var));
       ("network_restricted", VBool true);
       ("ssl_enabled", VBool true) ]) ].
End Config.
End DatabaseSummary.

Module StorageSummary.
Section Config.
Variable var : StorageSpoke.Variables.
Variable suffix : string.
Variable hub : StorageSpoke.HubOutputs.

Definition spoke_summary : value :=
  VObj [
    ("spoke_name", VStr "Storage Spoke");
    ("location", VStr (StorageSpoke.spoke_location var));
    ("resource_group_name", VStr (StorageSpoke.named suffix hub "rg-guiworld-storage-"));
    ("vnet_name", VStr (StorageSpoke.named suffix hub "vnet-guiworld-storage-"));
    ("vnet_address_space", strings [StorageSpoke.spoke_vnet_address_space var]);
    ("storage_account", VStr (StorageSpoke.storage_account_name suffix hub));
    ("private_access_only", VBool (negb (StorageSpoke.allow_public_access var)));
    ("containers_count",
      VNum (Z.of_nat (length (StorageSpoke.storage_containers var))));
    ("file_shares_count", VNum (Z.of_nat (size (StorageSpoke.file_shares var))));
    ("tables_count", VNum (Z.of_nat (length (StorageSpoke.storage_tables var))));
    ("queues_count", VNum (Z.of_nat (length (StorageSpoke.storage_queues var))));
    ("static_website", VBool (StorageSpoke.enable_static_website var));
    ("keyvault_integration",
      VBool (StorageSpoke.store_connection_string_in_keyvault var)) ].
End Config.
End StorageSummary.

(** The storage spoke with secret storage switched off and no file share. *)
Definition storage_without_keyvault : StorageSpoke.Variables := {|
  StorageSpoke.hub_state_path := "../../hub/terraform.tfstate";
  StorageSpoke.keyvault_state_path := "../keyvault-spoke/terraform.tfstate";
  StorageSpoke.spoke_location := "West US";
  StorageSpoke.spoke_vnet_address_space := "10.3.0.0/16";
  StorageSpoke.storage_subnet_address_prefix := "10.3.1.0/24";
  StorageSpoke.storage_account_tier := "Standard";
  StorageSpoke.storage_replication_type := "LRS";
  StorageSpoke.storage_account_kind := "StorageV2";
  StorageSpoke.allow_public_access := false;
  StorageSpoke.storage_containers := ["webgui-data"; "logs"; "webgui-data"];
  StorageSpoke.file_shares := ∅;
  StorageSpoke.storage_tables := ["sessiondata"];
  StorageSpoke.storage_queues := [];
  StorageSpoke.enable_versioning := true;
  StorageSpoke.enable_change_feed := false;
  StorageSpoke.enable_static_website := true;
  StorageSpoke.static_website_index_document := "index.html";
  StorageSpoke.static_website_error_document := "error.html";
  StorageSpoke.store_connection_string_in_keyvault := false;
  StorageSpoke.additional_tags := {[ "Purpose" := "Web GUI Storage" ]}
|}.

(** The Key Vault spoke with public access switched off. *)
Definition keyvault_private : KeyvaultSpoke.Variables := {|
  KeyvaultSpoke.spoke_location := "South Central US";
  KeyvaultSpoke.hub_state_path := "../../hub/terraform.tfstate";
  KeyvaultSpoke.spoke_vnet_address_space := "10.1.0.0/16";
  KeyvaultSpoke.keyvault_subnet_address_prefix := "10.1.1.0/24";
  KeyvaultSpoke.key_vault_sku := "premium";
  KeyvaultSpoke.soft_delete_retention_days := 90;
  KeyvaultSpoke.enable_purge_protection := true;
  KeyvaultSpoke.allow_public_access := false;
  KeyvaultSpoke.additional_tags := {[ "Component" := "Secrets" ]};
  KeyvaultSpoke.cost_center := "GuiWorld-KeyVault"
|}.

(** Whether a spoke stores secrets in the key vault
    ([store_password_in_keyvault], [store_connection_string_in_keyvault]). *)
Definition stores_secrets (c : SpokeConfig) : bool :=
  match c with
  | KeyVaultConfig _ => false
  | DatabaseConfig _ var => DatabaseSpoke.store_password_in_keyvault var
  | StorageConfig var => StorageSpoke.store_connection_string_in_keyvault var
  end.

(** The [Component] tag of a spoke. *)
Definition component (s : Spoke) : string :=
  match s with
  | KeyVault => "KeyVault-Spoke"
  | Database => "Database-Spoke"
  | Storage => "Storage-Spoke"
  end.

(** The instances of a block with [for_each = toset(declared)] whose [name]
    is [each.value]. *)
Definition one_per_name (declared : list string) (created : list resource) : Prop :=
  NoDup (name_of <$> created) ∧
  rkey <$> created = name_of <$> created ∧
  (∀ n, Some n ∈ name_of <$> created ↔ n ∈ declared) ∧
  (length created ≤ length declared)%nat ∧
  (length created = length declared ↔ NoDup declared).

(** The type of the domain resource of a spoke, and the sub-resource of it
    that the diagnostic setting of the spoke targets. *)
Definition domain_type (s : Spoke) : string :=
  match s with
  | KeyVault => "azurerm_key_vault"
  | Database => "azurerm_postgresql_flexible_server"
  | Storage => "azurerm_storage_account"
  end.

Definition diagnostic_target (s : Spoke) (id : string) : string :=
  match s with
  | KeyVault | Database => id
  | Storage => id +:+ "/blobServices/default"
  end.

(** The stem of the name of the domain resource. *)
Definition domain_stem (s : Spoke) : string :=
  match s with
  | KeyVault => "kv-guiworld-"
  | Database => "psql-guiworld-"
  | Storage => "stguiworld"
  end.

(** The arguments of [random_string.suffix], declared alike in the hub and
    in every spoke. *)
Definition random_suffix_args : Random.Args :=
  DatabaseSpoke.random_string_suffix_args.

(** * Properties *)

(** ** The result monad *)

Lemma bind_Ok {A B} (m : result A) (f : A → result B) (b : B) :
  m ≫= f = Ok b → ∃ a, m = Ok a ∧ f a = Ok b.
Proof. destruct m as [a|e]; simpl; [eauto | discriminate]. Qed.

Lemma ok_planned (r : result (list resource * gmap string value)) :
  is_ok r = true → r = Ok (planned r, planned_outputs r).
Proof. destruct r as [[rs o]|e]; [reflexivity|discriminate]. Qed.

(** Invert a chain of binds that ended in [Ok]. *)
Ltac inv_ok H :=
  repeat match type of H with
    | _ ≫= _ = Ok _ =>
        let a := fresh "a" in
        let E := fresh "E" in
        apply bind_Ok in H; destruct H as (a & E & H)
    end.

(** The instances of a block whose [count] is [flag ? 1 : 0]. *)
Lemma count_flag_Ok {A} (flag : bool) (block : nat → result A) (l : list A) :
  mapM id (Terraform.count (if flag then 1 else 0) block) = Ok l →
  (flag = false ∧ l = []) ∨ (flag = true ∧ ∃ x, block O = Ok x ∧ l = [x]).
Proof.
  destruct flag; cbn.
  - destruct (block O) as [x|e]; cbn; [|discriminate].
    intros [= <-]. right. eauto.
  - intros [= <-]. by left.
Qed.

(** The instances of a block whose [count] is [flag ? 0 : 1]. *)
Lemma count_unless_Ok {A} (flag : bool) (block : nat → result A) (l : list A) :
  mapM id (Terraform.count (if flag then 0 else 1) block) = Ok l →
  (flag = true ∧ l = []) ∨ (flag = false ∧ ∃ x, block O = Ok x ∧ l = [x]).
Proof.
  destruct flag; cbn.
  - intros [= <-]. by left.
  - destruct (block O) as [x|e]; cbn; [|discriminate].
    intros [= <-]. right. eauto.
Qed.

(** ** [merge] *)

Lemma merge_snoc (ms : list (gmap string string)) (m : gmap string string) (k : string) :
  Terraform.merge (ms ++ [m])%list !! k =
  match m !! k with Some v => Some v | None => Terraform.merge ms !! k end.
Proof.
  unfold Terraform.merge. rewrite foldl_app. simpl.
  rewrite lookup_union. destruct (m !! k) as [v|] eqn:E.
  - by destruct (foldl _ _ _ !! k).
  - by destruct (foldl _ _ _ !! k).
Qed.

Lemma merge3 (a b c : gmap string string) (k : string) :
  Terraform.merge [a; b; c] !! k =
  match c !! k with
  | Some v => Some v
  | None => match b !! k with Some v => Some v | None => a !! k end
  end.
Proof.
  change [a; b; c] with ([a; b] ++ [c])%list. rewrite merge_snoc.
  change [a; b] with ([a] ++ [b])%list. rewrite merge_snoc.
  change [a] with ([] ++ [a])%list. rewrite merge_snoc.
  unfold Terraform.merge. simpl. rewrite lookup_empty.
  destruct (c !! k), (b !! k), (a !! k); reflexivity.
Qed.

(** ** Reading the hub *)

Lemma keyvault_read_hub o hub :
  KeyvaultSpoke.read_hub o = Ok hub →
  output_string o "environment" = Ok (KeyvaultSpoke.environment hub) ∧
  output_map o "common_tags" = Ok (KeyvaultSpoke.common_tags hub) ∧
  output_string o "shared_services_subnet_id"
  = Ok (KeyvaultSpoke.shared_services_subnet_id hub).
Proof.
  unfold KeyvaultSpoke.read_hub. intros H. inv_ok H.
  injection H as <-. simpl. auto.
Qed.

Lemma database_read_hub o hub :
  DatabaseSpoke.read_hub o = Ok hub →
  output_string o "environment" = Ok (DatabaseSpoke.environment hub) ∧
  output_map o "common_tags" = Ok (DatabaseSpoke.common_tags hub).
Proof.
  unfold DatabaseSpoke.read_hub. intros H. inv_ok H.
  injection H as <-. simpl. auto.
Qed.

Lemma storage_read_hub o hub :
  StorageSpoke.read_hub o = Ok hub →
  output_string o "environment" = Ok (StorageSpoke.environment hub) ∧
  output_map o "common_tags" = Ok (StorageSpoke.common_tags hub) ∧
  output_string o "shared_services_subnet_id"
  = Ok (StorageSpoke.shared_services_subnet_id hub).
Proof.
  unfold StorageSpoke.read_hub. intros H. inv_ok H.
  injection H as <-. simpl. auto.
Qed.



Lemma database_read_hub_address_space o hub :
  DatabaseSpoke.read_hub o = Ok hub →
  output_strings o "hub_vnet_address_space"
  = Ok (DatabaseSpoke.hub_vnet_address_space hub).
Proof.
  unfold DatabaseSpoke.read_hub. intros H. inv_ok H.
  injection H as <-. simpl. auto.
Qed.


(** ** Filtering planned resources *)

Lemma of_type_app t (xs ys : list resource) :
  of_type t (xs ++ ys)%list = (of_type t xs ++ of_type t ys)%list.
Proof. apply filter_app. Qed.

Lemma of_type_cons t (r : resource) (rs : list resource) :
  of_type t (r :: rs) =
  ((if bool_decide (rtype r = t) then [r] else []) ++ of_type t rs)%list.
Proof.
  unfold of_type. rewrite filter_cons. case_bool_decide.
  - rewrite decide_True by done. reflexivity.
  - rewrite decide_False by done. reflexivity.
Qed.

Lemma of_type_fmap_ne {A} t (f : A → resource) (l : list A) :
  (∀ x, rtype (f x) ≠ t) → of_type t (f <$> l) = [].
Proof.
  intros Hne. induction l as [|x l IH]; [reflexivity|].
  unfold of_type in *. rewrite fmap_cons, filter_cons_False; [exact IH|apply Hne].
Qed.

Lemma filter_fmap_all {A} (P : resource → Prop) `{∀ r, Decision (P r)}
    (f : A → resource) (xs : list A) :
  (∀ x, P (f x)) → filter P (f <$> xs) = f <$> xs.
Proof.
  intros HP. induction xs as [|x xs IH]; [reflexivity|].
  rewrite fmap_cons, filter_cons_True; [by rewrite IH|apply HP].
Qed.

Lemma filter_fmap_none {A} (P : resource → Prop) `{∀ r, Decision (P r)}
    (f : A → resource) (xs : list A) :
  (∀ x, ¬ P (f x)) → filter P (f <$> xs) = [].
Proof.
  intros HP. induction xs as [|x xs IH]; [reflexivity|].
  rewrite fmap_cons, filter_cons_False; [exact IH|apply HP].
Qed.

(** Unfold a successful run of each spoke down to its list of blocks; the
    flag of the key vault secrets is split into its two cases. *)
Ltac flag_cases E :=
  apply count_flag_Ok in E;
  let Hf := fresh "Hflag" in
  let x := fresh "secret" in
  let Hx := fresh "Hsecret" in
  destruct E as [[Hf ->]|(Hf & x & Hx & ->)].

Ltac public_cases E :=
  apply count_unless_Ok in E;
  let Hf := fresh "Hpublic" in
  let x := fresh "endpoint" in
  let Hx := fresh "Hendpoint" in
  destruct E as [[Hf ->]|(Hf & x & Hx & ->)].

Ltac all_flag_cases :=
  repeat match goal with
    | E : mapM id (Terraform.count (if _ then 1%nat else 0%nat) _) = Ok _ |- _ =>
        flag_cases E
    | E : mapM id (Terraform.count (if _ then 0%nat else 1%nat) _) = Ok _ |- _ =>
        public_cases E
    end;
  try congruence.

(** The private endpoints that resolve the identifier of the hub's zone. *)
Ltac endpoint_blocks :=
  repeat match goal with
    | E : KeyvaultSpoke.azurerm_private_endpoint_keyvault _ _ _ _ _ = Ok _ |- _ =>
        unfold KeyvaultSpoke.azurerm_private_endpoint_keyvault in E;
        inv_ok E; injection E as <-
    | E : StorageSpoke.azurerm_private_endpoint_storage_blob _ _ _ _ _ = Ok _ |- _ =>
        unfold StorageSpoke.azurerm_private_endpoint_storage_blob in E;
        inv_ok E; injection E as <-
    end.

Ltac secret_blocks :=
  repeat match goal with
    | E : DatabaseSpoke.azurerm_key_vault_secret_db_password _ _ _ _ _ = Ok _ |- _ =>
        unfold DatabaseSpoke.azurerm_key_vault_secret_db_password in E;
        inv_ok E; injection E as <-
    | E : DatabaseSpoke.azurerm_key_vault_secret_db_connection_string _ _ _ _ _ _ = Ok _ |- _ =>
        unfold DatabaseSpoke.azurerm_key_vault_secret_db_connection_string in E;
        inv_ok E; injection E as <-
    | E : StorageSpoke.azurerm_key_vault_secret_storage_connection_string _ _ _ _ _ = Ok _ |- _ =>
        unfold StorageSpoke.azurerm_key_vault_secret_storage_connection_string in E;
        inv_ok E; injection E as <-
    | E : StorageSpoke.azurerm_key_vault_secret_storage_access_key _ _ _ _ _ = Ok _ |- _ =>
        unfold StorageSpoke.azurerm_key_vault_secret_storage_access_key in E;
        inv_ok E; injection E as <-
    end.

Ltac keyvault_blocks H :=
  unfold KeyvaultSpoke.apply in H; inv_ok H;
  injection H as <- <-;
  match goal with
  | E : KeyvaultSpoke.resources _ _ _ _ = Ok _ |- _ =>
      unfold KeyvaultSpoke.resources in E; inv_ok E; injection E as <-
  end;
  all_flag_cases; endpoint_blocks.

Ltac database_blocks H :=
  unfold DatabaseSpoke.apply in H; inv_ok H;
  injection H as <- <-;
  match goal with
  | E : DatabaseSpoke.resources _ _ _ _ _ _ = Ok _ |- _ =>
      unfold DatabaseSpoke.resources in E; inv_ok E; injection E as <-
  end;
  match goal with
  | E : DatabaseSpoke.azurerm_network_security_group_database _ _ _ = Ok _ |- _ =>
      unfold DatabaseSpoke.azurerm_network_security_group_database in E;
      inv_ok E; injection E as <-
  end;
  all_flag_cases; secret_blocks.

Ltac storage_blocks H :=
  unfold StorageSpoke.apply in H; inv_ok H;
  injection H as <- <-;
  match goal with
  | E : StorageSpoke.resources _ _ _ _ _ = Ok _ |- _ =>
      unfold StorageSpoke.resources, StorageSpoke.storage_blob_count in E;
      inv_ok E; injection E as <-
  end;
  all_flag_cases; secret_blocks; endpoint_blocks.

(** Split a property of every planned resource into one goal per block. *)
Ltac each_block :=
  repeat first
    [ apply Forall_nil_2
    | apply Forall_app_2
    | apply Forall_cons_2
    | match goal with
      | |- Forall _ (Terraform.count (if ?b then _ else _) _) =>
          destruct b; unfold Terraform.count; cbn [seq fmap list_fmap]
      end
    | apply Forall_fmap, Forall_forall; intros ? _; unfold compose ].

(** ** Tags (C8) *)

Ltac tags_block :=
  lazy -[KeyvaultSpoke.spoke_tags DatabaseSpoke.spoke_tags StorageSpoke.spoke_tags];
  congruence.

(** C8. For every spoke, the tags applied to its resources are the merge of
    the hub's tags, then the spoke's own tags (Component, Region), then the
    caller's additional tags; on a key collision the later one wins, so a
    caller tag overrides a spoke tag, which overrides a hub tag. *)
Theorem C8_spoke_tags_hierarchical_merge
    (c : SpokeConfig) (rnd : RandomValues) (az : Azure)
    (states : gmap string (gmap string value))
    (rs : list resource) (o : gmap string value) :
  spoke_apply c rnd az states = Ok (rs, o) →
  ∃ hub_tags spoke_tags : gmap string string,
    hub_tags_read c states = Ok hub_tags ∧
    spoke_tags = Terraform.merge [hub_tags; spoke_specific_tags_of c; additional_tags_of c] ∧
    (∀ k, spoke_tags !! k =
          match additional_tags_of c !! k with
          | Some v => Some v
          | None =>
              match spoke_specific_tags_of c !! k with
              | Some v => Some v
              | None => hub_tags !! k
              end
          end) ∧
    Forall (fun r => ∀ t, tags_of r = Some t → t = spoke_tags) rs ∧
    Exists (fun r => tags_of r = Some spoke_tags) rs.
Proof.
  intros H. destruct c as [var|regex_can var|var]; simpl in H.
  - keyvault_blocks H.
    all: match goal with E : KeyvaultSpoke.read_hub _ = Ok ?h |- _ =>
      apply keyvault_read_hub in E as (_ & Et & _);
      exists (KeyvaultSpoke.common_tags h), (KeyvaultSpoke.spoke_tags var h)
    end.
    all: (split; [unfold hub_tags_read; simpl; by rewrite E0|]).
    all: (split; [reflexivity|]; split; [intros k; apply merge3|]).
    all: split; [each_block; intros t; tags_block|].
    all: do 1 apply Exists_cons_tl; apply Exists_cons_hd; reflexivity.
  - database_blocks H.
    all: match goal with E : DatabaseSpoke.read_hub _ = Ok ?h |- _ =>
      apply database_read_hub in E as (_ & Et);
      exists (DatabaseSpoke.common_tags h), (DatabaseSpoke.spoke_tags var h)
    end.
    all: (split; [unfold hub_tags_read; simpl; by rewrite E0|]).
    all: (split; [reflexivity|]; split; [intros k; apply merge3|]).
    all: split; [each_block; intros t; tags_block|].
    all: do 2 apply Exists_cons_tl; apply Exists_cons_hd; reflexivity.
  - storage_blocks H.
    all: match goal with E : StorageSpoke.read_hub _ = Ok ?h |- _ =>
      apply storage_read_hub in E as (_ & Et & _);
      exists (StorageSpoke.common_tags h), (StorageSpoke.spoke_tags var h)
    end.
    all: (split; [unfold hub_tags_read; simpl; by rewrite E0|]).
    all: (split; [reflexivity|]; split; [intros k; apply merge3|]).
    all: split; [each_block; intros t; tags_block|].
    all: do 1 apply Exists_cons_tl; apply Exists_cons_hd; reflexivity.
Qed.

(** ** Peerings (C6) *)

Ltac other_types :=
  rewrite ?of_type_cons, ?of_type_app;
  unfold Terraform.count;
  rewrite ?of_type_fmap_ne by (intros ?; lazy; discriminate).




(** ** Names and the random suffix (C7) *)

Lemma append_nil_l (s : string) : "" +:+ s = s.
Proof. reflexivity. Qed.

Lemma append_cons (c : ascii) (a b : string) : String c a +:+ b = String c (a +:+ b).
Proof. reflexivity. Qed.

Lemma append_assoc (a b c : string) : (a +:+ b) +:+ c = a +:+ (b +:+ c).
Proof.
  induction a as [|x a IH]; [reflexivity|].
  rewrite !append_cons. by rewrite IH.
Qed.

Lemma append_empty_r (a : string) : a +:+ "" = a.
Proof.
  induction a as [|x a IH]; [reflexivity|].
  rewrite append_cons. by rewrite IH.
Qed.

Lemma prefix_app (a b : string) : String.prefix a (a +:+ b) = true.
Proof.
  induction a as [|c a IH]; [by destruct b|].
  rewrite append_cons. cbn [String.prefix].
  destruct (Ascii.ascii_dec c c); [exact IH|congruence].
Qed.

Lemma string_contains_prefix (needle hay : string) :
  String.prefix needle hay = true → string_contains needle hay = true.
Proof. destruct hay; cbn [string_contains]; intros ->; reflexivity. Qed.

Lemma string_contains_app (needle a b : string) :
  string_contains needle (a +:+ needle +:+ b) = true.
Proof.
  induction a as [|c a IH].
  - rewrite append_nil_l. apply string_contains_prefix, prefix_app.
  - rewrite append_cons. cbn [string_contains]. rewrite IH. apply orb_true_r.
Qed.

Lemma incorporates_stem (env suffix stem sep : string) :
  incorporates env suffix (stem +:+ env +:+ sep +:+ suffix) = true.
Proof.
  unfold incorporates. rewrite string_contains_app.
  rewrite <- (append_empty_r suffix) at 2.
  rewrite <- !append_assoc. rewrite (append_assoc _ suffix "").
  rewrite string_contains_app. reflexivity.
Qed.

Lemma filter_cons_split (P : resource → Prop) `{∀ r, Decision (P r)}
    (r : resource) (rs : list resource) :
  filter P (r :: rs) = ((if bool_decide (P r) then [r] else []) ++ filter P rs)%list.
Proof.
  rewrite filter_cons. case_bool_decide.
  - rewrite decide_True by done. reflexivity.
  - rewrite decide_False by done. reflexivity.
Qed.

Ltac unsuffixed_blocks :=
  rewrite ?filter_cons_split, ?filter_app;
  unfold Terraform.count;
  repeat match goal with
    | |- context [filter ?P (?f <$> ?l)] =>
        first [ rewrite (filter_fmap_all P f l) by (intros ?; reflexivity)
              | rewrite (filter_fmap_none P f l) by (intros ?; lazy; discriminate) ]
    end.

Ltac same_names :=
  rewrite ?fmap_app;
  repeat first
    [ reflexivity
    | rewrite <- !list_fmap_compose; apply list_fmap_ext; intros; reflexivity
    | apply (f_equal2 (@app (option string))) ].

Ltac suffixed_block :=
  let Hs := fresh in
  intros Hs;
  first
    [ lazy in Hs; discriminate
    | clear Hs;
      first [ do 2 eexists; reflexivity
            | exists "stguiworld", ""; reflexivity ] ].

Lemma suffixed_names_of_run c rnd az states rs o :
  spoke_apply c rnd az states = Ok (rs, o) →
  ∃ env, hub_output_string c states "environment" = Ok env ∧
    attr "result" <$> of_type "random_string" rs
      = [Some (VStr (random_string_suffix_result rnd))] ∧
    Forall (fun r => suffixed r = true →
              ∃ stem sep,
                name_of r
                = Some (stem +:+ env +:+ sep +:+ random_string_suffix_result rnd)) rs.
Proof.
  intros H. destruct c as [var|regex_can var|var]; simpl in H.
  - keyvault_blocks H.
    all: match goal with E : KeyvaultSpoke.read_hub _ = Ok ?h |- _ =>
      apply keyvault_read_hub in E as (Ee & _);
      exists (KeyvaultSpoke.environment h)
    end.
    all: (split; [unfold hub_output_string; simpl; by rewrite E0|]).
    all: (split; [other_types; reflexivity|]).
    all: each_block; suffixed_block.
  - database_blocks H.
    all: match goal with E : DatabaseSpoke.read_hub _ = Ok ?h |- _ =>
      apply database_read_hub in E as (Ee & _);
      exists (DatabaseSpoke.environment h)
    end.
    all: (split; [unfold hub_output_string; simpl; by rewrite E0|]).
    all: (split; [other_types; reflexivity|]).
    all: each_block; suffixed_block.
  - storage_blocks H.
    all: match goal with E : StorageSpoke.read_hub _ = Ok ?h |- _ =>
      apply storage_read_hub in E as (Ee & _);
      exists (StorageSpoke.environment h)
    end.
    all: (split; [unfold hub_output_string; simpl; by rewrite E0|]).
    all: (split; [other_types; reflexivity|]).
    all: each_block; suffixed_block.
Qed.

Lemma unsuffixed_names_of_runs c rnd rnd' az states rs o rs' o' :
  spoke_apply c rnd az states = Ok (rs, o) →
  spoke_apply c rnd' az states = Ok (rs', o') →
  name_of <$> filter (fun r => suffixed r = false) rs
  = name_of <$> filter (fun r => suffixed r = false) rs'.
Proof.
  intros H H'. destruct c as [var|regex_can var|var]; simpl in H, H'.
  - keyvault_blocks H; keyvault_blocks H'; try congruence.
    all: unsuffixed_blocks; same_names.
  - database_blocks H; database_blocks H'; try congruence.
    all: unsuffixed_blocks; same_names.
  - storage_blocks H; storage_blocks H'; try congruence.
    all: unsuffixed_blocks; same_names.
Qed.

(** The suffixed names of a plan, block by block. *)
Lemma suffixed_stems_of_run c rnd az states rs o env :
  spoke_apply c rnd az states = Ok (rs, o) →
  hub_output_string c states "environment" = Ok env →
  (fun r => (rtype r, rlabel r, name_of r)) <$> filter (fun r => suffixed r = true) rs
  = suffixed_name env (random_string_suffix_result rnd) <$> suffixed_stems c.
Proof.
  intros H Henv. destruct c as [var|regex_can var|var]; simpl in H.
  - keyvault_blocks H.
    all: match goal with E : KeyvaultSpoke.read_hub _ = Ok ?h |- _ =>
      apply keyvault_read_hub in E as (Ee & _);
      assert (env = KeyvaultSpoke.environment h) as ->
        by (unfold hub_output_string in Henv; simpl in Henv; rewrite E0 in Henv;
            simpl in Henv; congruence)
    end.
    all: unsuffixed_blocks; cbn [suffixed_stems]; rewrite Hpublic; reflexivity.
  - database_blocks H.
    all: match goal with E : DatabaseSpoke.read_hub _ = Ok ?h |- _ =>
      apply database_read_hub in E as (Ee & _);
      assert (env = DatabaseSpoke.environment h) as ->
        by (unfold hub_output_string in Henv; simpl in Henv; rewrite E0 in Henv;
            simpl in Henv; congruence)
    end.
    all: unsuffixed_blocks; reflexivity.
  - storage_blocks H.
    all: match goal with E : StorageSpoke.read_hub _ = Ok ?h |- _ =>
      apply storage_read_hub in E as (Ee & _);
      assert (env = StorageSpoke.environment h) as ->
        by (unfold hub_output_string in Henv; simpl in Henv; rewrite E0 in Henv;
            simpl in Henv; congruence)
    end.
    all: unsuffixed_blocks; cbn [suffixed_stems];
      unfold StorageSpoke.storage_file_count; rewrite Hpublic; cbn [orb];
      try destruct (bool_decide (size (StorageSpoke.file_shares var) = 0%nat));
      reflexivity.
Qed.

(** What [random_string.suffix] guarantees: eight characters, each a
    lowercase letter or a digit. *)
Lemma generated_suffix_alphanumeric (s : string) :
  Random.generated DatabaseSpoke.random_string_suffix_args s = true →
  String.length s = 8%nat ∧
  Forall (fun c => Random.is_lower c || Random.is_numeric c = true)
    (String.list_ascii_of_string s).
Proof.
  unfold Random.generated. intros H.
  do 4 (apply andb_prop in H as [H _]).
  apply andb_prop in H as [Hlen Hall]. split.
  - by apply bool_decide_eq_true in Hlen.
  - apply Forall_forall. intros c Hc.
    rewrite forallb_forall in Hall. apply list_elem_of_In, Hall in Hc.
    unfold Random.allowed in Hc. cbn in Hc.
    by rewrite !orb_false_r in Hc.
Qed.

(** C7 (amended). Within one spoke deployment exactly one random suffix is
    generated, and that one value is reused in every suffixed name: the name
    of the resource group, the virtual network, the network security group,
    the domain resource, the private endpoints and the diagnostic setting is
    a fixed stem followed by the hub's environment name and the suffix; the
    stem of each block is the same in every run, whatever value is drawn.
    The names of the other resources (subnets, peerings, DNS links, secrets,
    databases, configurations, containers, shares, tables, queues) do not
    depend on the suffix: they are the same whatever value is drawn.  Each of
    the three spokes does plan its suffixed names so, against the hub's state
    in the environment [dev]. *)
Theorem C7_suffix_reused_in_suffixed_names
    (c : SpokeConfig) (rnd rnd' : RandomValues) (az : Azure)
    (states : gmap string (gmap string value))
    (rs rs' : list resource) (o o' : gmap string value) :
  spoke_apply c rnd az states = Ok (rs, o) →
  spoke_apply c rnd' az states = Ok (rs', o') →
  (∃ env, hub_output_string c states "environment" = Ok env ∧
    attr "result" <$> of_type "random_string" rs
      = [Some (VStr (random_string_suffix_result rnd))] ∧
    Forall (fun r => suffixed r = true →
              ∃ stem sep n,
                name_of r = Some n ∧
                n = stem +:+ env +:+ sep +:+ random_string_suffix_result rnd ∧
                incorporates env (random_string_suffix_result rnd) n = true) rs ∧
    name_of <$> filter (fun r => suffixed r = false) rs
    = name_of <$> filter (fun r => suffixed r = false) rs' ∧
    (fun r => (rtype r, rlabel r, name_of r)) <$> filter (fun r => suffixed r = true) rs
    = suffixed_name env (random_string_suffix_result rnd) <$> suffixed_stems c ∧
    (fun r => (rtype r, rlabel r, name_of r)) <$> filter (fun r => suffixed r = true) rs'
    = suffixed_name env (random_string_suffix_result rnd') <$> suffixed_stems c) ∧
  ∀ s : Spoke, ∃ c' states',
    spoke_of c' = s ∧
    is_ok (spoke_apply c' sample_random sample_azure states') = true ∧
    (fun r => (rtype r, rlabel r, name_of r))
      <$> filter (fun r => suffixed r = true)
            (planned (spoke_apply c' sample_random sample_azure states'))
    = suffixed_name "dev" (random_string_suffix_result sample_random)
        <$> suffixed_stems c'.
Proof.
  intros H H'. split.
  - destruct (suffixed_names_of_run _ _ _ _ _ _ H) as (env & Henv & Hone & Hnames).
    exists env. split; [exact Henv|]. split; [exact Hone|]. split; [|split; [|split]].
    + eapply Forall_impl; [exact Hnames|]. intros r Hr Hs.
      destruct (Hr Hs) as (stem & sep & Hn).
      exists stem, sep, (stem +:+ env +:+ sep +:+ random_string_suffix_result rnd).
      split; [exact Hn|]. split; [reflexivity|]. apply incorporates_stem.
    + eapply unsuffixed_names_of_runs; eassumption.
    + eapply suffixed_stems_of_run; eassumption.
    + eapply suffixed_stems_of_run; eassumption.
  - intros [| |].
    + exists (KeyVaultConfig keyvault_private), hub_states.
      repeat split; vm_compute; reflexivity.
    + exists (DatabaseConfig accept_all DatabaseSpoke.defaults), hub_states.
      repeat split; vm_compute; reflexivity.
    + exists (StorageConfig StorageSpoke.defaults), hub_keyvault_states.
      repeat split; vm_compute; reflexivity.
Qed.

Lemma all_names_incorporate_Forall env suffix rs :
  Forall (fun r => ∀ n, name_of r = Some n → incorporates env suffix n = true) rs →
  all_names_incorporate env suffix rs = true.
Proof.
  unfold all_names_incorporate. intros HF. apply forallb_forall.
  intros r Hr. apply list_elem_of_In in Hr.
  rewrite Forall_forall in HF. specialize (HF r Hr).
  destruct (name_of r) as [n|]; [by apply HF|reflexivity].
Qed.

(** C7 as the specification words it, "every resource name of the spoke
    incorporates the environment tag and that suffix", does not hold: in the
    plan of the database spoke with its default variables the subnet is named
    [snet-database], which contains neither. *)
Lemma C7_counterexample_subnet_name :
  let r := spoke_apply (DatabaseConfig accept_all DatabaseSpoke.defaults)
             sample_random sample_azure hub_states in
  is_ok r = true ∧
  hub_output_string (DatabaseConfig accept_all DatabaseSpoke.defaults)
    hub_states "environment" = Ok "dev" ∧
  Some "snet-database" ∈ name_of <$> planned r ∧
  incorporates "dev" (random_string_suffix_result sample_random) "snet-database" = false ∧
  ¬ Forall (fun r => ∀ n, name_of r = Some n →
              incorporates "dev" (random_string_suffix_result sample_random) n = true)
      (planned r).
Proof.
  intros r.
  split; [vm_compute; reflexivity|].
  split; [vm_compute; reflexivity|].
  split; [vm_compute; do 4 apply list_elem_of_further; apply list_elem_of_here|].
  split; [vm_compute; reflexivity|].
  intros HF. apply all_names_incorporate_Forall in HF.
  assert (Hc : all_names_incorporate "dev" (random_string_suffix_result sample_random)
                 (planned r) = false) by (vm_compute; reflexivity).
  congruence.
Qed.

(** ** Network access of the domain resource (C1) *)

(** C1 (amended). The key vault and the storage account list exactly the
    spoke's own subnet and the hub's shared-services subnet in their network
    rules; public network access is enabled exactly when
    [allow_public_access] is set, and the default action is [Deny] exactly
    when it is not.  The flag defaults to [false] in the Storage spoke and to
    [true] in the Key Vault spoke.  The Database spoke declares no such flag:
    its server sets no public-access argument and is attached to the spoke's
    delegated database subnet, whose security group admits PostgreSQL traffic
    from the virtual network and from the hub's address space and denies any
    other inbound traffic. *)
Theorem C1_network_access_by_flag
    (c : SpokeConfig) (rnd : RandomValues) (az : Azure)
    (states : gmap string (gmap string value))
    (rs : list resource) (o : gmap string value) :
  spoke_apply c rnd az states = Ok (rs, o) →
  match c with
  | KeyVaultConfig var =>
      ∃ vault hub_subnet,
        of_type "azurerm_key_vault" rs = [vault] ∧
        address <$> of_type "azurerm_subnet" rs = ["azurerm_subnet.keyvault"] ∧
        hub_output_string c states "shared_services_subnet_id" = Ok hub_subnet ∧
        attr "public_network_access_enabled" vault
          = Some (VBool (KeyvaultSpoke.allow_public_access var)) ∧
        attr "network_acls" vault ≫= field "default_action"
          = Some (VStr (if KeyvaultSpoke.allow_public_access var
                        then "Allow" else "Deny")) ∧
        attr "network_acls" vault ≫= field "virtual_network_subnet_ids"
          = Some (strings [az_id az "azurerm_subnet.keyvault"; hub_subnet])
  | StorageConfig var =>
      ∃ account hub_subnet,
        of_type "azurerm_storage_account" rs = [account] ∧
        address <$> of_type "azurerm_subnet" rs = ["azurerm_subnet.storage"] ∧
        hub_output_string c states "shared_services_subnet_id" = Ok hub_subnet ∧
        attr "public_network_access_enabled" account
          = Some (VBool (StorageSpoke.allow_public_access var)) ∧
        attr "network_rules" account ≫= field "default_action"
          = Some (VStr (if StorageSpoke.allow_public_access var
                        then "Allow" else "Deny")) ∧
        attr "network_rules" account ≫= field "virtual_network_subnet_ids"
          = Some (strings [az_id az "azurerm_subnet.storage"; hub_subnet])
  | DatabaseConfig _ var =>
      ∃ server hub_space,
        of_type "azurerm_postgresql_flexible_server" rs = [server] ∧
        address <$> of_type "azurerm_subnet" rs = ["azurerm_subnet.database"] ∧
        hub_address_space_read c states = Ok hub_space ∧
        attr "public_network_access_enabled" server = None ∧
        attr "delegated_subnet_id" server
          = Some (VStr (az_id az "azurerm_subnet.database")) ∧
        attr "security_rule" <$> of_type "azurerm_network_security_group" rs
          = [ Some (VList [
                security_rule "AllowPostgreSQL" 1001 "Allow" "Tcp"
                  ("destination_port_range", VStr "5432") "VirtualNetwork";
                security_rule "AllowPostgreSQLFromHub" 1002 "Allow" "Tcp"
                  ("destination_port_range", VStr "5432") hub_space;
                security_rule "DenyAllInbound" 4096 "Deny" "*"
                  ("destination_port_range", VStr "*") "*" ]) ]
  end ∧
  default_allow_public_access KeyVault = Some true ∧
  default_allow_public_access Storage = Some false ∧
  default_allow_public_access Database = None.
Proof.
  intros H. split; [|by repeat split].
  destruct c as [var|regex_can var|var]; simpl in H.
  - keyvault_blocks H.
    all: match goal with E : KeyvaultSpoke.read_hub _ = Ok ?h |- _ =>
      apply keyvault_read_hub in E as (_ & _ & Es);
      eexists _, (KeyvaultSpoke.shared_services_subnet_id h)
    end.
    all: (split; [other_types; reflexivity|]).
    all: (split; [other_types; reflexivity|]).
    all: (split; [unfold hub_output_string; simpl; by rewrite E0|]).
    all: repeat split; reflexivity.
  - database_blocks H.
    all: match goal with
         | E : DatabaseSpoke.read_hub _ = Ok _,
           Es : DatabaseSpoke.hub_vnet_address_space_0 _ = Ok ?sp |- _ =>
             apply database_read_hub_address_space in E;
             unfold DatabaseSpoke.hub_vnet_address_space_0 in Es;
             eexists _, sp
         end.
    all: (split; [other_types; reflexivity|]).
    all: (split; [other_types; reflexivity|]).
    all: (split; [unfold hub_address_space_read; simpl; rewrite E0; simpl;
                  rewrite E1; exact E3|]).
    all: (split; [reflexivity|]).
    all: (split; [reflexivity|]).
    all: other_types; reflexivity.
  - storage_blocks H.
    all: match goal with E : StorageSpoke.read_hub _ = Ok ?h |- _ =>
      apply storage_read_hub in E as (_ & _ & Es);
      eexists _, (StorageSpoke.shared_services_subnet_id h)
    end.
    all: (split; [other_types; reflexivity|]).
    all: (split; [other_types; reflexivity|]).
    all: (split; [unfold hub_output_string; simpl; by rewrite E0|]).
    all: repeat split; reflexivity.
Qed.

(** C1 as the specification words it, "default: deny-by-default" for every
    spoke, does not hold: [allow_public_access] of the Key Vault spoke defaults
    to [true] (its declaration notes "Set to false for production
    environments"), so deployed with its default variables the key vault has
    public network access enabled and its default action is [Allow]. *)
Lemma C1_counterexample_keyvault_default :
  let r := spoke_apply (KeyVaultConfig KeyvaultSpoke.defaults)
             sample_random sample_azure hub_states in
  is_ok r = true ∧
  (attr "public_network_access_enabled" <$> of_type "azurerm_key_vault" (planned r))
    = [Some (VBool true)] ∧
  ((fun v => attr "network_acls" v ≫= field "default_action")
     <$> of_type "azurerm_key_vault" (planned r)) = [Some (VStr "Allow")] ∧
  ¬ (∀ s : Spoke, default_allow_public_access s = Some false).
Proof.
  intros r.
  split; [vm_compute; reflexivity|].
  split; [vm_compute; reflexivity|].
  split; [vm_compute; reflexivity|].
  intros H. specialize (H KeyVault). discriminate H.
Qed.

(** ** Private endpoints of the storage spoke (C10) *)

Lemma instances_cons t l (r : resource) (rs : list resource) :
  instances t l (r :: rs) =
  ((if bool_decide (rtype r = t ∧ rlabel r = l) then [r] else [])
   ++ instances t l rs)%list.
Proof. apply filter_cons_split. Qed.

Lemma instances_app t l (xs ys : list resource) :
  instances t l (xs ++ ys)%list = (instances t l xs ++ instances t l ys)%list.
Proof. apply filter_app. Qed.

Lemma instances_fmap_all {A} t l (f : A → resource) (xs : list A) :
  (∀ x, rtype (f x) = t ∧ rlabel (f x) = l) → instances t l (f <$> xs) = f <$> xs.
Proof. intros Hall. by apply filter_fmap_all. Qed.

Lemma instances_fmap_none {A} t l (f : A → resource) (xs : list A) :
  (∀ x, ¬ (rtype (f x) = t ∧ rlabel (f x) = l)) → instances t l (f <$> xs) = [].
Proof. intros Hnone. by apply filter_fmap_none. Qed.

Ltac block_instances :=
  rewrite ?instances_cons, ?instances_app;
  unfold Terraform.count;
  repeat match goal with
    | |- context [instances ?t ?l (?f <$> ?xs)] =>
        first [ rewrite (instances_fmap_all t l f xs) by (intros ?; split; reflexivity)
              | rewrite (instances_fmap_none t l f xs)
                  by (intros ? [? ?]; discriminate) ]
    end.

(** C10. In the storage spoke the blob private endpoint exists exactly when
    [allow_public_access] is false (one instance, none otherwise); the file
    private endpoint exists exactly when [allow_public_access] is false and
    [file_shares] is not empty.  With no file share there is no file private
    endpoint, even with public access disabled, and the output
    [storage_file_private_endpoint_id] is null. *)
Theorem C10_storage_private_endpoints
    (var : StorageSpoke.Variables) (rnd : RandomValues) (az : Azure)
    (states : gmap string (gmap string value))
    (rs : list resource) (o : gmap string value) :
  spoke_apply (StorageConfig var) rnd az states = Ok (rs, o) →
  let blob := instances "azurerm_private_endpoint" "storage_blob" rs in
  let file := instances "azurerm_private_endpoint" "storage_file" rs in
  let public := StorageSpoke.allow_public_access var in
  let no_share := bool_decide (StorageSpoke.file_shares var = ∅) in
  length blob = (if public then 0 else 1)%nat ∧
  length file = (if public || no_share then 0 else 1)%nat ∧
  (length file = 1%nat ↔ public = false ∧ StorageSpoke.file_shares var ≠ ∅) ∧
  o !! "storage_blob_private_endpoint_id"
    = Some (if public then VNull
            else VStr (az_id az "azurerm_private_endpoint.storage_blob[0]")) ∧
  o !! "storage_file_private_endpoint_id"
    = Some (if public || no_share then VNull
            else VStr (az_id az "azurerm_private_endpoint.storage_file[0]")) ∧
  (StorageSpoke.file_shares var = ∅ →
   file = [] ∧ o !! "storage_file_private_endpoint_id" = Some VNull).
Proof.
  intros H blob file public no_share.
  assert (Hsize : bool_decide (size (StorageSpoke.file_shares var) = 0%nat) = no_share).
  { subst no_share. apply bool_decide_ext, map_size_empty_iff. }
  assert (Hblob : length blob = (if public then 0 else 1)%nat).
  { subst blob public. simpl in H. storage_blocks H.
    all: block_instances.
    all: rewrite Hpublic; reflexivity. }
  assert (Hfile : length file = (if public || no_share then 0 else 1)%nat).
  { subst file public. rewrite <- Hsize. simpl in H. storage_blocks H.
    all: block_instances.
    all: unfold StorageSpoke.storage_file_count.
    all: rewrite Hpublic.
    all: destruct (bool_decide (size (StorageSpoke.file_shares var) = 0%nat));
      reflexivity. }
  assert (Hout : o !! "storage_file_private_endpoint_id"
                 = Some (if public || no_share then VNull
                         else VStr (az_id az "azurerm_private_endpoint.storage_file[0]"))).
  { subst public. rewrite <- Hsize. simpl in H.
    unfold StorageSpoke.apply in H. inv_ok H. injection H as _ <-.
    reflexivity. }
  split; [exact Hblob|]. split; [exact Hfile|]. split.
  { rewrite Hfile. subst no_share. destruct public; simpl.
    - split; [discriminate|intros [? _]; discriminate].
    - case_bool_decide; split; try discriminate; try tauto. }
  split.
  { subst public. simpl in H.
    unfold StorageSpoke.apply in H. inv_ok H. injection H as _ <-.
    reflexivity. }
  split; [exact Hout|].
  intros Hempty. split.
  - apply length_zero_iff_nil. rewrite Hfile. subst no_share.
    rewrite bool_decide_true by done. by rewrite orb_true_r.
  - rewrite Hout. subst no_share.
    rewrite bool_decide_true by done. by rewrite orb_true_r.
Qed.

(** ** The administrator password of the database spoke (C9) *)

(** C9. In the database spoke, the password set on the PostgreSQL server,
    the value of the secret [database-admin-password] and the password
    embedded in the secret [database-connection-string] (the secrets exist
    when [store_password_in_keyvault] is set) are one value: the password
    supplied by the caller when it is not empty, and otherwise the result of
    the single [random_password] of the deployment. *)
Theorem C9_one_admin_password
    (regex_can : string → string → bool) (var : DatabaseSpoke.Variables)
    (rnd : RandomValues) (az : Azure)
    (states : gmap string (gmap string value))
    (rs : list resource) (o : gmap string value) :
  spoke_apply (DatabaseConfig regex_can var) rnd az states = Ok (rs, o) →
  let password :=
    if decide (DatabaseSpoke.database_admin_password var ≠ "")
    then DatabaseSpoke.database_admin_password var
    else random_password_db_admin_result rnd in
  attr "result" <$> of_type "random_password" rs
    = [Some (VStr (random_password_db_admin_result rnd))] ∧
  attr "administrator_password" <$> of_type "azurerm_postgresql_flexible_server" rs
    = [Some (VStr password)] ∧
  (fun r => (name_of r, attr "value" r)) <$> of_type "azurerm_key_vault_secret" rs
    = if DatabaseSpoke.store_password_in_keyvault var then
        [ (Some "database-admin-password", Some (VStr password));
          (Some "database-connection-string",
           Some (VStr ("Host=" +:+ az_fqdn az "azurerm_postgresql_flexible_server.main"
                       +:+ ";Database=" +:+ DatabaseSpoke.database_name var
                       +:+ ";Username=" +:+ DatabaseSpoke.database_admin_username var
                       +:+ ";Password=" +:+ password
                       +:+ ";SSL Mode=Require"))) ]
      else [].
Proof.
  intros H password. subst password. simpl in H. database_blocks H.
  all: rewrite Hflag.
  all: (split; [other_types; reflexivity|]).
  all: (split; [other_types; reflexivity|]).
  all: other_types; reflexivity.
Qed.

(** ** Secrets and the key vault (C4, C5) *)

Lemma secret_written_other (r : resource) :
  rtype r ≠ "azurerm_key_vault_secret" → secret_written r = None.
Proof. intros Hr. unfold secret_written. by rewrite decide_False. Qed.

(** Instances that are no secret write nothing. *)
Lemma write_other (secrets : gmap (string * string) string) (rs : list resource) :
  Forall (fun r => rtype r ≠ "azurerm_key_vault_secret") rs →
  foldl write_secret secrets rs = secrets.
Proof.
  intros HF. induction HF as [|r rs Hr _ IH]; [done|].
  cbn [foldl]. unfold write_secret at 2.
  rewrite secret_written_other by exact Hr. exact IH.
Qed.

Lemma of_type_other t (rs : list resource) :
  Forall (fun r => rtype r ≠ t) rs → of_type t rs = [].
Proof.
  intros HF. induction HF as [|r rs Hr _ IH]; [reflexivity|].
  rewrite of_type_cons, bool_decide_false by exact Hr. exact IH.
Qed.

Lemma managed_secrets_cons (r : resource) (state : list resource) :
  managed_secrets (r :: state)
  = match secret_written r with
    | Some (vault, name, _) => (vault, name) :: managed_secrets state
    | None => managed_secrets state
    end.
Proof.
  unfold managed_secrets. cbn [omap list_omap].
  by destruct (secret_written r) as [[[vault name] v]|].
Qed.

(** Destroying the instances of a state deletes the secrets it manages and
    no other. *)
Lemma lookup_destroyed (secrets : gmap (string * string) string)
    (state : list resource) (k : string * string) :
  foldl destroy_secret secrets state !! k
  = if bool_decide (k ∈ managed_secrets state) then None else secrets !! k.
Proof.
  revert secrets. induction state as [|r state IH]; intros secrets.
  - cbn [foldl managed_secrets omap list_omap].
    by rewrite bool_decide_false by apply not_elem_of_nil.
  - cbn [foldl]. rewrite IH, managed_secrets_cons. unfold destroy_secret.
    destruct (secret_written r) as [[[vault name] v]|]; [|reflexivity].
    destruct (decide (k = (vault, name))) as [->|Hne].
    + rewrite lookup_delete_eq.
      rewrite (bool_decide_true (_ ∈ _ :: _)) by (apply elem_of_cons; by left).
      by case_bool_decide.
    + rewrite lookup_delete_ne by congruence.
      apply (f_equal (fun b : bool => if b then None else secrets !! k)).
      apply bool_decide_ext. rewrite elem_of_cons. tauto.
Qed.

(** A state that manages no secret has none to destroy. *)
Lemma destroyed_unmanaged (secrets : gmap (string * string) string)
    (state : list resource) :
  managed_secrets state = [] → foldl destroy_secret secrets state = secrets.
Proof.
  intros Hnone. apply map_eq. intros k. rewrite lookup_destroyed, Hnone.
  by rewrite bool_decide_false by apply not_elem_of_nil.
Qed.

(** What a run whose plan holds no secret does to the vaults: it destroys
    the secrets recorded in the state and writes none. *)
Lemma run_without_secret {O} (rs : list resource) (o : O) (cloud : Cloud) :
  Forall (fun r => rtype r ≠ "azurerm_key_vault_secret") rs →
  let cloud' := (run (Ok (rs, o)) cloud).1 in
  deployed cloud' = rs ∧
  (∀ k v, vault_secrets cloud' !! k = Some v → vault_secrets cloud !! k = Some v) ∧
  (∀ k, k ∉ managed_secrets (deployed cloud) →
        vault_secrets cloud' !! k = vault_secrets cloud !! k) ∧
  (managed_secrets (deployed cloud) = [] → vault_secrets cloud' = vault_secrets cloud) ∧
  (∀ k, k ∈ managed_secrets (deployed cloud) → vault_secrets cloud' !! k = None).
Proof.
  intros HF cloud'. subst cloud'. cbn [run fst deployed vault_secrets].
  rewrite write_other by exact HF.
  split; [reflexivity|]. split; [|split; [|split]].
  - intros k v. rewrite lookup_destroyed. by case_bool_decide.
  - intros k Hk. rewrite lookup_destroyed. by rewrite bool_decide_false.
  - apply destroyed_unmanaged.
  - intros k Hk. rewrite lookup_destroyed. by rewrite bool_decide_true.
Qed.


(** C4. A run of the database spoke with [store_password_in_keyvault = true]
    fails when the state of the Key Vault spoke cannot be read (no state at
    [keyvault_state_path], or a state without the output [key_vault_id]), and
    it fails before anything is created: the cloud is left as it was, so no
    PostgreSQL server has been created. *)
Theorem C4_unreadable_keyvault_state_fails
    (regex_can : string → string → bool) (var : DatabaseSpoke.Variables)
    (rnd : RandomValues) (az : Azure)
    (states : gmap string (gmap string value)) (cloud : Cloud) :
  DatabaseSpoke.store_password_in_keyvault var = true →
  (states !! DatabaseSpoke.keyvault_state_path var = None ∨
   ∃ kv, states !! DatabaseSpoke.keyvault_state_path var = Some kv ∧
         kv !! "key_vault_id" = None) →
  ∃ msg,
    run (spoke_apply (DatabaseConfig regex_can var) rnd az states) cloud
      = (cloud, Err msg) ∧
    planned (spoke_apply (DatabaseConfig regex_can var) rnd az states) = [].
Proof.
  intros Hon Hkv.
  destruct (spoke_apply _ _ _ _) as [[rs o]|e] eqn:H; cbn [run planned];
    [exfalso|eauto].
  simpl in H. database_blocks H.
  match goal with
  | Hread : read_state states (DatabaseSpoke.keyvault_state_path var) = Ok ?x,
    Hid : DatabaseSpoke.keyvault_0_key_vault_id [?x] = Ok _ |- _ =>
      unfold read_state in Hread;
      unfold DatabaseSpoke.keyvault_0_key_vault_id, output_string, output in Hid;
      cbn [lookup list_lookup from_option mbind result_bind] in Hid;
      destruct Hkv as [Hnone|(kv & Hsome & Hnoid)];
      [ rewrite Hnone in Hread; discriminate Hread
      | rewrite Hsome in Hread; injection Hread as <-;
        rewrite Hnoid in Hid; discriminate Hid ]
  end.
Qed.

(** ** Address validation (C2) *)

Example cidrhost_hub : Terraform.cidrhost "10.0.0.0/16" 0 = Some "10.0.0.0".
Proof. vm_compute. reflexivity. Qed.

Example cidrhost_subnet : Terraform.cidrhost "10.2.1.77/24" 5 = Some "10.2.1.5".
Proof. vm_compute. reflexivity. Qed.

Example cidrhost_bad_octet : Terraform.cidrhost "10.0.256.0/16" 0 = None.
Proof. vm_compute. reflexivity. Qed.

Example cidrhost_bad_len : Terraform.cidrhost "10.0.0.0/33" 0 = None.
Proof. vm_compute. reflexivity. Qed.

Example cidrhost_no_slash : Terraform.cidrhost "10.0.0.0" 0 = None.
Proof. vm_compute. reflexivity. Qed.

Lemma dtoi_from_scans (s rest : string) (n : Z) :
  scans n s = true → ends_number rest →
  Terraform.dtoi_from n (s +:+ rest)
  = Some (scanned n s, String.length s, rest).
Proof.
  revert n. induction s as [|c s IH]; intros n Hs Hrest.
  - rewrite append_nil_l. destruct rest as [|c rest]; [reflexivity|].
    cbn in *. by rewrite Hrest.
  - rewrite append_cons. cbn in Hs.
    apply andb_prop in Hs as [Hs Hs3]. apply andb_prop in Hs as [Hs1 Hs2].
    cbn [Terraform.dtoi_from]. rewrite Hs1.
    destruct (Z.leb_spec Terraform.big (n * 10 + Terraform.digit_value c));
      [apply Z.ltb_lt in Hs2; lia|].
    rewrite (IH _ Hs3 Hrest). reflexivity.
Qed.

Lemma renders_well_small : forallb renders_well (seqZ 0 256) = true.
Proof. vm_compute. reflexivity. Qed.

Lemma renders_well_le (v : Z) : 0 ≤ v ≤ 255 → renders_well v = true.
Proof.
  intros Hv. assert (H := renders_well_small).
  rewrite forallb_forall in H. apply H.
  apply list_elem_of_In, elem_of_seqZ. lia.
Qed.

Lemma dtoi_pretty (v : Z) (rest : string) :
  0 ≤ v ≤ 255 → ends_number rest →
  Terraform.dtoi (pretty v +:+ rest) = Some (v, rest).
Proof.
  intros Hv Hrest. apply renders_well_le in Hv. unfold renders_well in Hv.
  apply andb_prop in Hv as [Hv _]. apply andb_prop in Hv as [Hv Hne].
  apply andb_prop in Hv as [Hs Hval].
  unfold Terraform.dtoi. rewrite (dtoi_from_scans _ _ _ Hs Hrest).
  cbn [mbind option_bind]. apply Z.eqb_eq in Hval. rewrite Hval.
  destruct (pretty v) as [|c s]; [discriminate Hne|]. reflexivity.
Qed.

Lemma parse_octet_pretty (v : Z) (rest : string) :
  0 ≤ v ≤ 255 → ends_number rest →
  Terraform.parse_octet (pretty v +:+ rest) = Some (v, rest).
Proof.
  intros Hv Hrest. unfold Terraform.parse_octet.
  rewrite dtoi_pretty by done. cbn [mbind option_bind].
  destruct (Z.ltb_spec 255 v); [lia|reflexivity].
Qed.

Lemma parseIPv4_render (a b c d : Z) :
  0 ≤ a ≤ 255 → 0 ≤ b ≤ 255 → 0 ≤ c ≤ 255 → 0 ≤ d ≤ 255 →
  Terraform.parseIPv4 (pretty a +:+ "." +:+ pretty b +:+ "." +:+ pretty c +:+ "." +:+ pretty d)
  = Some (((a * 256 + b) * 256 + c) * 256 + d).
Proof.
  intros Ha Hb Hc Hd. unfold Terraform.parseIPv4.
  rewrite parse_octet_pretty by done. cbn [mbind option_bind Terraform.expect_dot].
  rewrite append_cons, append_nil_l. cbn [mbind option_bind Terraform.expect_dot].
  rewrite parse_octet_pretty by done. cbn [mbind option_bind Terraform.expect_dot].
  rewrite append_cons, append_nil_l. cbn [mbind option_bind Terraform.expect_dot].
  rewrite parse_octet_pretty by done. cbn [mbind option_bind Terraform.expect_dot].
  rewrite append_cons, append_nil_l. cbn [mbind option_bind Terraform.expect_dot].
  rewrite <- (append_empty_r (pretty d)).
  rewrite parse_octet_pretty by done. reflexivity.
Qed.

Lemma no_slash_app (a b : string) :
  no_slash a = true → no_slash b = true → no_slash (a +:+ b) = true.
Proof.
  intros Ha Hb. induction a as [|x a IH]; [exact Hb|].
  rewrite append_cons. unfold no_slash in *. cbn in *.
  apply andb_prop in Ha as [-> Ha]. by apply IH.
Qed.

Lemma split_slash_app (a m : string) :
  no_slash a = true → Terraform.split_slash (a +:+ "/" +:+ m) = Some (a, m).
Proof.
  intros Ha. induction a as [|x a IH].
  - reflexivity.
  - rewrite append_cons. unfold no_slash in Ha. cbn in Ha.
    apply andb_prop in Ha as [Hx Ha]. cbn [Terraform.split_slash].
    apply negb_true_iff, bool_decide_eq_false in Hx.
    rewrite decide_False by exact Hx. rewrite (IH Ha). reflexivity.
Qed.

Lemma no_slash_pretty (v : Z) : 0 ≤ v ≤ 255 → no_slash (pretty v) = true.
Proof.
  intros Hv. apply renders_well_le in Hv. unfold renders_well in Hv.
  by apply andb_prop in Hv as [_ ->].
Qed.

(** Every canonical IPv4 CIDR block parses, to its network address and its
    prefix length. *)
Lemma ParseCIDR_render (a b c d n : Z) :
  0 ≤ a ≤ 255 → 0 ≤ b ≤ 255 → 0 ≤ c ≤ 255 → 0 ≤ d ≤ 255 → 0 ≤ n ≤ 32 →
  Terraform.ParseCIDR (render_cidr a b c d n)
  = Some (Z.shiftl (Z.shiftr (((a * 256 + b) * 256 + c) * 256 + d) (32 - n)) (32 - n), n).
Proof.
  intros Ha Hb Hc Hd Hn. unfold render_cidr, Terraform.ParseCIDR.
  replace (pretty a +:+ "." +:+ pretty b +:+ "." +:+ pretty c +:+ "." +:+ pretty d
           +:+ "/" +:+ pretty n)
    with ((pretty a +:+ "." +:+ pretty b +:+ "." +:+ pretty c +:+ "." +:+ pretty d)
          +:+ "/" +:+ pretty n)
    by (by rewrite !append_assoc).
  rewrite split_slash_app
    by (repeat first [apply no_slash_app | apply no_slash_pretty | reflexivity]; lia).
  cbn [mbind option_bind]. rewrite parseIPv4_render by done.
  cbn [mbind option_bind].
  rewrite <- (append_empty_r (pretty n)).
  rewrite dtoi_pretty by (done || lia). cbn [mbind option_bind].
  rewrite decide_True by done.
  destruct (Z.ltb_spec 32 n); [lia|]. reflexivity.
Qed.

(** For every variable with a CIDR validation, a canonical IPv4 CIDR block
    passes. *)
Lemma cidrhost_accepts (a b c d n : Z) :
  0 ≤ a ≤ 255 → 0 ≤ b ≤ 255 → 0 ≤ c ≤ 255 → 0 ≤ d ≤ 255 → 0 ≤ n ≤ 32 →
  Terraform.can (Terraform.cidrhost (render_cidr a b c d n) 0) = true.
Proof.
  intros Ha Hb Hc Hd Hn.
  unfold Terraform.can, Terraform.cidrhost.
  rewrite ParseCIDR_render by done. cbn [mbind option_bind].
  assert (0 < 2 ^ (32 - n)) by (apply Z.pow_pos_nonneg; lia).
  destruct (Z.ltb_spec 0 (2 ^ (32 - n))); [|lia].
  apply bool_decide_eq_true. cbn. eauto.
Qed.

Lemma canonical_cidr_accepted (s : string) :
  canonical_cidr s → Terraform.can (Terraform.cidrhost s 0) = true.
Proof.
  intros (a & b & c & d & n & Ha & Hb & Hc & Hd & Hn & ->).
  by apply cidrhost_accepts.
Qed.

(** In the hub, the Key Vault spoke and the Database spoke every address
    variable has a validation: canonical blocks pass ... *)
Lemma validated_addresses_accept_canonical
    (hub : Hub.Variables) (kv : KeyvaultSpoke.Variables) (db : DatabaseSpoke.Variables) :
  canonical_cidr (Hub.hub_vnet_address_space hub) →
  canonical_cidr (Hub.gateway_subnet_address_prefix hub) →
  canonical_cidr (Hub.firewall_subnet_address_prefix hub) →
  canonical_cidr (Hub.bastion_subnet_address_prefix hub) →
  canonical_cidr (Hub.shared_services_subnet_address_prefix hub) →
  canonical_cidr (KeyvaultSpoke.spoke_vnet_address_space kv) →
  canonical_cidr (KeyvaultSpoke.keyvault_subnet_address_prefix kv) →
  canonical_cidr (DatabaseSpoke.spoke_vnet_address_space db) →
  canonical_cidr (DatabaseSpoke.database_subnet_address_prefix db) →
  Forall (fun r => r = Ok tt)
    (Hub.address_validations hub ++ KeyvaultSpoke.address_validations kv
     ++ DatabaseSpoke.address_validations db).
Proof.
  intros H1 H2 H3 H4 H5 H6 H7 H8 H9.
  unfold Hub.address_validations, KeyvaultSpoke.address_validations,
    DatabaseSpoke.address_validations, validation.
  repeat first [apply Forall_app_2 | apply Forall_cons_2 | apply Forall_nil_2].
  all: by rewrite canonical_cidr_accepted.
Qed.

(** ... and a string that [cidrhost] cannot parse fails the validation of
    the variable, with the error message of that variable. *)
Lemma validated_addresses_reject (s msg : string) :
  Terraform.cidrhost s 0 = None →
  validation (Terraform.can (Terraform.cidrhost s 0)) msg = Err msg.
Proof. intros ->. reflexivity. Qed.

(** The storage spoke declares its two address variables without a
    validation block: whatever they hold, its validation passes. *)
Lemma storage_addresses_unvalidated (space prefix : string) :
  StorageSpoke.address_validations = [] ∧
  StorageSpoke.validate (storage_with_addresses space prefix) = Ok tt.
Proof. split; reflexivity. Qed.

(** C2. A malformed address is to be rejected by a validation rule in the
    hub and in every spoke.  The hub, the Key Vault spoke and the Database
    spoke reject [not-a-cidr]; the Storage spoke accepts it, and its plan
    goes on to create a virtual network with that address space. *)
Theorem C2_storage_accepts_malformed_prefix :
  let bad := "not-a-cidr" in
  let r := spoke_apply (StorageConfig (storage_with_addresses bad "10.3.1.0/24"))
             sample_random sample_azure hub_keyvault_states in
  Terraform.cidrhost bad 0 = None ∧
  Hub.validate accept_all (hub_with_address_space bad)
    = Err "Hub VNet address space must be a valid CIDR block." ∧
  KeyvaultSpoke.validate (keyvault_with_address_space bad)
    = Err "Spoke VNet address space must be a valid CIDR block." ∧
  DatabaseSpoke.validate accept_all (database_with bad false)
    = Err "Spoke VNet address space must be a valid CIDR block." ∧
  StorageSpoke.validate (storage_with_addresses bad "10.3.1.0/24") = Ok tt ∧
  is_ok r = true ∧
  attr "address_space" <$> of_type "azurerm_virtual_network" (planned r)
    = [Some (strings [bad])].
Proof. repeat split; vm_compute; reflexivity. Qed.

(** ** The generated administrator password (C3) *)

(** What [random_password.db_admin] does guarantee: sixteen characters, which
    is within the length bounds of the policy. *)
Lemma generated_password_length (s : string) :
  Random.generated DatabaseSpoke.random_password_db_admin_args s = true →
  String.length s = 16%nat.
Proof.
  unfold Random.generated. intros H.
  repeat (apply andb_prop in H as [H _]).
  by apply bool_decide_eq_true in H.
Qed.

(** C3. Every generated password is to have a character of each class.
    [random_password.db_admin] sets no minimum per class: the string below is
    one it can draw (sixteen characters from its alphabet); it has no digit
    and so fails the policy, and it is the password the server gets when the
    caller supplies none. *)
Theorem C3_generated_password_can_miss_a_class :
  let generated := random_password_db_admin_result sample_random in
  let r := spoke_apply (DatabaseConfig accept_all DatabaseSpoke.defaults)
             sample_random sample_azure hub_states in
  generated = "Abcdefgh!jklmnop" ∧
  DatabaseSpoke.database_admin_password DatabaseSpoke.defaults = "" ∧
  Random.generated DatabaseSpoke.random_password_db_admin_args generated = true ∧
  existsb Random.is_numeric (String.list_ascii_of_string generated) = false ∧
  password_policy generated = false ∧
  is_ok r = true ∧
  attr "administrator_password"
    <$> of_type "azurerm_postgresql_flexible_server" (planned r)
    = [Some (VStr generated)].
Proof. repeat split; vm_compute; reflexivity. Qed.

(** ** The theorems at concrete deployments *)

(** C8 at the Key Vault spoke with the variables of its [terraform.tfvars];
    there the caller's [Region] tag overrides the spoke's. *)
Lemma C8_witness_keyvault_tfvars :
  let c := KeyVaultConfig keyvault_tfvars in
  let r := spoke_apply c sample_random sample_azure hub_states in
  r = Ok (planned r, planned_outputs r) ∧
  ∃ hub_tags spoke_tags : gmap string string,
    hub_tags_read c hub_states = Ok hub_tags ∧
    spoke_tags = Terraform.merge [hub_tags; spoke_specific_tags_of c; additional_tags_of c] ∧
    (∀ k, spoke_tags !! k =
          match additional_tags_of c !! k with
          | Some v => Some v
          | None =>
              match spoke_specific_tags_of c !! k with
              | Some v => Some v
              | None => hub_tags !! k
              end
          end) ∧
    Forall (fun r => ∀ t, tags_of r = Some t → t = spoke_tags) (planned r) ∧
    Exists (fun r => tags_of r = Some spoke_tags) (planned r).
Proof.
  intros c r.
  assert (Hr : r = Ok (planned r, planned_outputs r))
    by (apply ok_planned; vm_compute; reflexivity).
  split; [exact Hr|].
  exact (C8_spoke_tags_hierarchical_merge c sample_random sample_azure hub_states
           (planned r) (planned_outputs r) Hr).
Defined.


(** C7 at each of the three spokes, for two different draws of the random
    provider, against the hub's state in the environment [dev]. *)
Lemma C7_witness_all_spokes :
  Forall (fun '(c, states) =>
    let r := spoke_apply c sample_random sample_azure states in
    let r' := spoke_apply c other_random sample_azure states in
    r = Ok (planned r, planned_outputs r) ∧
    r' = Ok (planned r', planned_outputs r') ∧
    hub_output_string c states "environment" = Ok "dev" ∧
    attr "result" <$> of_type "random_string" (planned r)
      = [Some (VStr (random_string_suffix_result sample_random))] ∧
    name_of <$> filter (fun r => suffixed r = false) (planned r)
    = name_of <$> filter (fun r => suffixed r = false) (planned r') ∧
    (fun r => (rtype r, rlabel r, name_of r))
      <$> filter (fun r => suffixed r = true) (planned r)
    = suffixed_name "dev" (random_string_suffix_result sample_random)
        <$> suffixed_stems c ∧
    (fun r => (rtype r, rlabel r, name_of r))
      <$> filter (fun r => suffixed r = true) (planned r')
    = suffixed_name "dev" (random_string_suffix_result other_random)
        <$> suffixed_stems c)
  [ (KeyVaultConfig keyvault_private, hub_states);
    (DatabaseConfig accept_all (database_with "10.2.0.0/16" true), hub_keyvault_states);
    (StorageConfig StorageSpoke.defaults, hub_keyvault_states) ].
Proof.
  repeat apply Forall_cons_2; [| | |apply Forall_nil_2].
  all: intros r r'.
  all: assert (H : r = Ok (planned r, planned_outputs r))
         by (apply ok_planned; vm_compute; reflexivity).
  all: assert (H' : r' = Ok (planned r', planned_outputs r'))
         by (apply ok_planned; vm_compute; reflexivity).
  all: (split; [exact H|]); (split; [exact H'|]).
  1: destruct (C7_suffix_reused_in_suffixed_names (KeyVaultConfig keyvault_private)
                 sample_random other_random sample_azure hub_states _ _ _ _ H H')
       as ((env & Henv & Hone & _ & Hfixed & Hnames & Hnames') & _).
  2: destruct (C7_suffix_reused_in_suffixed_names
                 (DatabaseConfig accept_all (database_with "10.2.0.0/16" true))
                 sample_random other_random sample_azure hub_keyvault_states
                 _ _ _ _ H H')
       as ((env & Henv & Hone & _ & Hfixed & Hnames & Hnames') & _).
  3: destruct (C7_suffix_reused_in_suffixed_names (StorageConfig StorageSpoke.defaults)
                 sample_random other_random sample_azure hub_keyvault_states
                 _ _ _ _ H H')
       as ((env & Henv & Hone & _ & Hfixed & Hnames & Hnames') & _).
  all: assert (env = "dev") as -> by (vm_compute in Henv; congruence).
  all: (split; [exact Henv|]); (split; [exact Hone|]); (split; [exact Hfixed|]).
  all: split; [exact Hnames|exact Hnames'].
Defined.

(** C1 at the Storage spoke with its default variables. *)
Lemma C1_witness_storage :
  let var := StorageSpoke.defaults in
  let c := StorageConfig var in
  let r := spoke_apply c sample_random sample_azure hub_keyvault_states in
  r = Ok (planned r, planned_outputs r) ∧
  (∃ account hub_subnet,
     of_type "azurerm_storage_account" (planned r) = [account] ∧
     address <$> of_type "azurerm_subnet" (planned r) = ["azurerm_subnet.storage"] ∧
     hub_output_string c hub_keyvault_states "shared_services_subnet_id"
       = Ok hub_subnet ∧
     attr "public_network_access_enabled" account
       = Some (VBool (StorageSpoke.allow_public_access var)) ∧
     attr "network_rules" account ≫= field "default_action"
       = Some (VStr (if StorageSpoke.allow_public_access var
                     then "Allow" else "Deny")) ∧
     attr "network_rules" account ≫= field "virtual_network_subnet_ids"
       = Some (strings [az_id sample_azure "azurerm_subnet.storage"; hub_subnet])) ∧
  default_allow_public_access KeyVault = Some true ∧
  default_allow_public_access Storage = Some false ∧
  default_allow_public_access Database = None.
Proof.
  intros var c r.
  assert (H : r = Ok (planned r, planned_outputs r))
    by (apply ok_planned; vm_compute; reflexivity).
  split; [exact H|].
  exact (C1_network_access_by_flag c sample_random sample_azure hub_keyvault_states
           _ _ H).
Defined.

(** C10 at the Storage spoke with its default variables (two file shares,
    public access off): one blob and one file private endpoint. *)
Lemma C10_witness_storage_defaults :
  let var := StorageSpoke.defaults in
  let r := spoke_apply (StorageConfig var) sample_random sample_azure
             hub_keyvault_states in
  r = Ok (planned r, planned_outputs r) ∧
  let blob := instances "azurerm_private_endpoint" "storage_blob" (planned r) in
  let file := instances "azurerm_private_endpoint" "storage_file" (planned r) in
  let public := StorageSpoke.allow_public_access var in
  let no_share := bool_decide (StorageSpoke.file_shares var = ∅) in
  length blob = (if public then 0 else 1)%nat ∧
  length file = (if public || no_share then 0 else 1)%nat ∧
  (length file = 1%nat ↔ public = false ∧ StorageSpoke.file_shares var ≠ ∅) ∧
  planned_outputs r !! "storage_blob_private_endpoint_id"
    = Some (if public then VNull
            else VStr (az_id sample_azure "azurerm_private_endpoint.storage_blob[0]")) ∧
  planned_outputs r !! "storage_file_private_endpoint_id"
    = Some (if public || no_share then VNull
            else VStr (az_id sample_azure "azurerm_private_endpoint.storage_file[0]")) ∧
  (StorageSpoke.file_shares var = ∅ →
   file = [] ∧ planned_outputs r !! "storage_file_private_endpoint_id" = Some VNull).
Proof.
  intros var r.
  assert (H : r = Ok (planned r, planned_outputs r))
    by (apply ok_planned; vm_compute; reflexivity).
  split; [exact H|].
  exact (C10_storage_private_endpoints var sample_random sample_azure
           hub_keyvault_states _ _ H).
Defined.

(** C9 at the Database spoke storing its password in the key vault, with no
    password supplied. *)
Lemma C9_witness_database :
  let var := database_with "10.2.0.0/16" true in
  let r := spoke_apply (DatabaseConfig accept_all var) sample_random sample_azure
             hub_keyvault_states in
  r = Ok (planned r, planned_outputs r) ∧
  let password :=
    if decide (DatabaseSpoke.database_admin_password var ≠ "")
    then DatabaseSpoke.database_admin_password var
    else random_password_db_admin_result sample_random in
  attr "result" <$> of_type "random_password" (planned r)
    = [Some (VStr (random_password_db_admin_result sample_random))] ∧
  attr "administrator_password"
    <$> of_type "azurerm_postgresql_flexible_server" (planned r)
    = [Some (VStr password)] ∧
  (fun r => (name_of r, attr "value" r)) <$> of_type "azurerm_key_vault_secret" (planned r)
    = if DatabaseSpoke.store_password_in_keyvault var then
        [ (Some "database-admin-password", Some (VStr password));
          (Some "database-connection-string",
           Some (VStr ("Host="
                       +:+ az_fqdn sample_azure "azurerm_postgresql_flexible_server.main"
                       +:+ ";Database=" +:+ DatabaseSpoke.database_name var
                       +:+ ";Username=" +:+ DatabaseSpoke.database_admin_username var
                       +:+ ";Password=" +:+ password
                       +:+ ";SSL Mode=Require"))) ]
      else [].
Proof.
  intros var r.
  assert (H : r = Ok (planned r, planned_outputs r))
    by (apply ok_planned; vm_compute; reflexivity).
  split; [exact H|].
  exact (C9_one_admin_password accept_all var sample_random sample_azure
           hub_keyvault_states _ _ H).
Defined.



(** C4 at the Database spoke asked to store its password while only the hub
    has been deployed: there is no state of the Key Vault spoke to read. *)
Lemma C4_witness_no_keyvault_state :
  let var := database_with "10.2.0.0/16" true in
  DatabaseSpoke.store_password_in_keyvault var = true ∧
  hub_states !! DatabaseSpoke.keyvault_state_path var = None ∧
  ∃ msg,
    run (spoke_apply (DatabaseConfig accept_all var) sample_random sample_azure
           hub_states) cloud_with_secret
      = (cloud_with_secret, Err msg) ∧
    planned (spoke_apply (DatabaseConfig accept_all var) sample_random sample_azure
               hub_states) = [].
Proof.
  intros var.
  assert (Hnone : hub_states !! DatabaseSpoke.keyvault_state_path var = None)
    by (vm_compute; reflexivity).
  split; [reflexivity|]. split; [exact Hnone|].
  exact (C4_unreadable_keyvault_state_fails accept_all var sample_random sample_azure
           hub_states cloud_with_secret eq_refl (or_introl Hnone)).
Defined.

(** The tags of the key vault deployed from [terraform.tfvars]: the caller's
    [Region] wins over the spoke's, the spoke's [Component] over the hub's,
    and the hub's [Project] is inherited. *)
Example keyvault_tfvars_tags :
  let tags := KeyvaultSpoke.spoke_tags keyvault_tfvars sample_hub_keyvault in
  tags !! "Region" = Some "SouthCentralUS" ∧
  tags !! "Component" = Some "KeyVault-Spoke" ∧
  tags !! "Project" = Some "GuiWorld" ∧
  Hub.common_tags Hub.defaults "2025-01-01" !! "Component" = Some "Hub".
Proof. repeat split; vm_compute; reflexivity. Qed.

(** The hub's outputs, read back by the Key Vault spoke. *)
Example keyvault_reads_hub :
  KeyvaultSpoke.read_hub (Hub.outputs Hub.defaults "2025-01-01" "h0h0h0h0" sample_azure)
  = Ok sample_hub_keyvault.
Proof. vm_compute. reflexivity. Qed.

(** With secret storage requested by default, the Storage spoke fails when
    the Key Vault spoke has not been deployed. *)
Example storage_needs_keyvault :
  is_ok (spoke_apply (StorageConfig StorageSpoke.defaults) sample_random sample_azure
           hub_states) = false.
Proof. vm_compute. reflexivity. Qed.

(** * Further properties *)

(** ** The hub's outputs and the spokes' reads *)

(** X1. Whatever the hub's variables, the outputs it stores are all the
    outputs each spoke refers to: the read of the hub's state by the Key
    Vault, Database and Storage spokes succeeds, and yields the hub's
    environment, tags, network and zone names and identifiers. *)
Theorem X1_hub_outputs_satisfy_spokes
    (var : Hub.Variables) (today suffix : string) (az : Azure) :
  let o := Hub.outputs var today suffix az in
  KeyvaultSpoke.read_hub o = Ok {|
    KeyvaultSpoke.environment := Hub.environment var;
    KeyvaultSpoke.common_tags := Hub.common_tags var today;
    KeyvaultSpoke.hub_resource_group_name := Hub.named var suffix "rg-guiworld-hub-";
    KeyvaultSpoke.hub_vnet_name := Hub.named var suffix "vnet-guiworld-hub-";
    KeyvaultSpoke.hub_vnet_id := az_id az "azurerm_virtual_network.hub";
    KeyvaultSpoke.shared_services_subnet_id := az_id az "azurerm_subnet.shared_services";
    KeyvaultSpoke.keyvault_private_dns_zone_name := "privatelink.vaultcore.azure.net";
    KeyvaultSpoke.keyvault_private_dns_zone_id :=
      Ok (az_id az "azurerm_private_dns_zone.keyvault");
    KeyvaultSpoke.log_analytics_workspace_id :=
      az_id az "azurerm_log_analytics_workspace.hub" |} ∧
  DatabaseSpoke.read_hub o = Ok {|
    DatabaseSpoke.environment := Hub.environment var;
    DatabaseSpoke.common_tags := Hub.common_tags var today;
    DatabaseSpoke.hub_resource_group_name := Hub.named var suffix "rg-guiworld-hub-";
    DatabaseSpoke.hub_vnet_name := Hub.named var suffix "vnet-guiworld-hub-";
    DatabaseSpoke.hub_vnet_id := az_id az "azurerm_virtual_network.hub";
    DatabaseSpoke.hub_vnet_address_space := [Hub.hub_vnet_address_space var];
    DatabaseSpoke.postgres_private_dns_zone_name :=
      "privatelink.postgres.database.azure.com";
    DatabaseSpoke.postgres_private_dns_zone_id :=
      az_id az "azurerm_private_dns_zone.postgres";
    DatabaseSpoke.log_analytics_workspace_id :=
      az_id az "azurerm_log_analytics_workspace.hub" |} ∧
  StorageSpoke.read_hub o = Ok {|
    StorageSpoke.environment := Hub.environment var;
    StorageSpoke.common_tags := Hub.common_tags var today;
    StorageSpoke.hub_resource_group_name := Hub.named var suffix "rg-guiworld-hub-";
    StorageSpoke.hub_vnet_name := Hub.named var suffix "vnet-guiworld-hub-";
    StorageSpoke.hub_vnet_id := az_id az "azurerm_virtual_network.hub";
    StorageSpoke.shared_services_subnet_id := az_id az "azurerm_subnet.shared_services";
    StorageSpoke.storage_private_dns_zone_name := "privatelink.blob.core.windows.net";
    StorageSpoke.storage_private_dns_zone_id :=
      Ok (az_id az "azurerm_private_dns_zone.storage");
    StorageSpoke.log_analytics_workspace_id :=
      az_id az "azurerm_log_analytics_workspace.hub" |}.
Proof. intros o. subst o. repeat split; reflexivity. Qed.

Lemma output_string_lookup (o : gmap string value) (k s : string) :
  output_string o k = Ok s → o !! k = Some (VStr s).
Proof.
  unfold output_string, output. destruct (o !! k) as [[]|]; cbn; congruence.
Qed.

Lemma output_map_lookup (o : gmap string value) (k : string) (m : gmap string string) :
  output_map o k = Ok m → o !! k = Some (VMap m).
Proof.
  unfold output_map, output. destruct (o !! k) as [[]|]; cbn; congruence.
Qed.

(** The outputs every spoke reads from the hub. *)
Lemma read_hub_needs (c : SpokeConfig) (rnd : RandomValues) (az : Azure)
    (states : gmap string (gmap string value))
    (rs : list resource) (o : gmap string value) :
  spoke_apply c rnd az states = Ok (rs, o) →
  ∃ ho, states !! hub_state_path_of c = Some ho ∧
    Forall (fun k => is_Some (ho !! k))
      [ "environment"; "common_tags"; "hub_resource_group_name"; "hub_vnet_name";
        "hub_vnet_id"; "log_analytics_workspace_id" ].
Proof.
  intros H. destruct c as [var|regex_can var|var]; simpl in H.
  - unfold KeyvaultSpoke.apply in H. inv_ok H.
    unfold read_state in E0.
    destruct (states !! KeyvaultSpoke.hub_state_path var) as [ho|] eqn:Ho;
      [|discriminate]. injection E0 as <-.
    exists ho. split; [exact Ho|].
    unfold KeyvaultSpoke.read_hub in E1. inv_ok E1.
    repeat match goal with
      | E : output_string _ _ = Ok _ |- _ => apply output_string_lookup in E
      | E : output_map _ _ = Ok _ |- _ => apply output_map_lookup in E
      end.
    repeat (apply Forall_cons_2; [eauto|]). apply Forall_nil_2.
  - unfold DatabaseSpoke.apply in H. inv_ok H.
    unfold read_state in E0.
    destruct (states !! DatabaseSpoke.hub_state_path var) as [ho|] eqn:Ho;
      [|discriminate]. injection E0 as <-.
    exists ho. split; [exact Ho|].
    unfold DatabaseSpoke.read_hub in E1. inv_ok E1.
    repeat match goal with
      | E : output_string _ _ = Ok _ |- _ => apply output_string_lookup in E
      | E : output_map _ _ = Ok _ |- _ => apply output_map_lookup in E
      end.
    repeat (apply Forall_cons_2; [eauto|]). apply Forall_nil_2.
  - unfold StorageSpoke.apply in H. inv_ok H.
    unfold read_state in E0.
    destruct (states !! StorageSpoke.hub_state_path var) as [ho|] eqn:Ho;
      [|discriminate]. injection E0 as <-.
    exists ho. split; [exact Ho|].
    unfold StorageSpoke.read_hub in E1. inv_ok E1.
    repeat match goal with
      | E : output_string _ _ = Ok _ |- _ => apply output_string_lookup in E
      | E : output_map _ _ = Ok _ |- _ => apply output_map_lookup in E
      end.
    repeat (apply Forall_cons_2; [eauto|]). apply Forall_nil_2.
Qed.

(** X2. Every spoke depends on the hub: when there is no state at
    [hub_state_path], or the state lacks one of the outputs all spokes refer
    to, the run of the spoke fails and creates nothing. *)
Theorem X2_spoke_requires_hub_state
    (c : SpokeConfig) (rnd : RandomValues) (az : Azure)
    (states : gmap string (gmap string value)) (cloud : Cloud) :
  (states !! hub_state_path_of c = None ∨
   ∃ ho k, states !! hub_state_path_of c = Some ho ∧
           k ∈ [ "environment"; "common_tags"; "hub_resource_group_name";
                 "hub_vnet_name"; "hub_vnet_id"; "log_analytics_workspace_id" ] ∧
           ho !! k = None) →
  ∃ msg,
    run (spoke_apply c rnd az states) cloud = (cloud, Err msg) ∧
    planned (spoke_apply c rnd az states) = [].
Proof.
  intros Hhub.
  destruct (spoke_apply c rnd az states) as [[rs o]|e] eqn:H; cbn [run planned];
    [exfalso|eauto].
  apply read_hub_needs in H as (ho & Hho & Hall).
  destruct Hhub as [Hnone|(ho' & k & Hsome & Hk & Hmissing)]; [congruence|].
  assert (ho' = ho) as -> by congruence.
  rewrite Forall_forall in Hall. specialize (Hall k Hk).
  rewrite Hmissing in Hall. by destruct Hall.
Qed.

Lemma X2_witness_no_hub :
  let c := StorageConfig StorageSpoke.defaults in
  (∅ : gmap string (gmap string value)) !! hub_state_path_of c = None ∧
  ∃ msg,
    run (spoke_apply c sample_random sample_azure ∅) cloud_with_secret
      = (cloud_with_secret, Err msg) ∧
    planned (spoke_apply c sample_random sample_azure ∅) = [].
Proof.
  intros c.
  assert (Hnone : (∅ : gmap string (gmap string value)) !! hub_state_path_of c = None)
    by apply lookup_empty.
  split; [exact Hnone|].
  exact (X2_spoke_requires_hub_state c sample_random sample_azure ∅ cloud_with_secret
           (or_introl Hnone)).
Defined.

(** ** The storage spoke and the key vault *)

(** X3. A run of the storage spoke with [store_connection_string_in_keyvault
    = true] (its default) fails when the state of the Key Vault spoke cannot
    be read, before anything is created. *)
Theorem X3_storage_unreadable_keyvault_state_fails
    (var : StorageSpoke.Variables) (rnd : RandomValues) (az : Azure)
    (states : gmap string (gmap string value)) (cloud : Cloud) :
  StorageSpoke.store_connection_string_in_keyvault var = true →
  (states !! StorageSpoke.keyvault_state_path var = None ∨
   ∃ kv, states !! StorageSpoke.keyvault_state_path var = Some kv ∧
         kv !! "key_vault_id" = None) →
  ∃ msg,
    run (spoke_apply (StorageConfig var) rnd az states) cloud = (cloud, Err msg) ∧
    planned (spoke_apply (StorageConfig var) rnd az states) = [].
Proof.
  intros Hon Hkv.
  destruct (spoke_apply _ _ _ _) as [[rs o]|e] eqn:H; cbn [run planned];
    [exfalso|eauto].
  simpl in H. storage_blocks H.
  all: match goal with
  | Hread : read_state _ (StorageSpoke.keyvault_state_path _) = Ok ?x,
    Hid : StorageSpoke.keyvault_0_key_vault_id [?x] = Ok _ |- _ =>
      unfold read_state in Hread;
      unfold StorageSpoke.keyvault_0_key_vault_id, output_string, output in Hid;
      cbn [lookup list_lookup from_option mbind result_bind] in Hid;
      destruct Hkv as [Hnone|(kv & Hsome & Hnoid)];
      [ rewrite Hnone in Hread; discriminate Hread
      | rewrite Hsome in Hread; injection Hread as <-;
        rewrite Hnoid in Hid; discriminate Hid ]
  end.
Qed.

Lemma X3_witness_defaults_without_keyvault :
  let var := StorageSpoke.defaults in
  StorageSpoke.store_connection_string_in_keyvault var = true ∧
  hub_states !! StorageSpoke.keyvault_state_path var = None ∧
  ∃ msg,
    run (spoke_apply (StorageConfig var) sample_random sample_azure hub_states)
      empty_cloud = (empty_cloud, Err msg) ∧
    planned (spoke_apply (StorageConfig var) sample_random sample_azure hub_states) = [].
Proof.
  intros var.
  assert (Hnone : hub_states !! StorageSpoke.keyvault_state_path var = None)
    by (vm_compute; reflexivity).
  split; [reflexivity|]. split; [exact Hnone|].
  exact (X3_storage_unreadable_keyvault_state_fails var sample_random sample_azure
           hub_states empty_cloud eq_refl (or_introl Hnone)).
Defined.

(** X4. A run of the storage spoke with [store_connection_string_in_keyvault
    = false] plans no key vault secret and reads no Key Vault state (it
    succeeds or fails alike whether one exists).  It writes no secret: every
    secret found after the run was there before, with the same value, and the
    secrets that the spoke's own state does not manage are left as they were.
    The secrets that the state does manage (those an earlier run with the
    flag set created) are destroyed by a run that succeeds. *)
Theorem X4_storage_no_secret_when_flag_off
    (var : StorageSpoke.Variables) (rnd : RandomValues) (az : Azure)
    (states : gmap string (gmap string value))
    (kv_state : option (gmap string value)) (cloud : Cloud) :
  StorageSpoke.store_connection_string_in_keyvault var = false →
  StorageSpoke.keyvault_state_path var ≠ StorageSpoke.hub_state_path var →
  let plan := spoke_apply (StorageConfig var) rnd az states in
  let cloud' := (run plan cloud).1 in
  of_type "azurerm_key_vault_secret" (planned plan) = [] ∧
  (∀ k v, vault_secrets cloud' !! k = Some v → vault_secrets cloud !! k = Some v) ∧
  (∀ k, k ∉ managed_secrets (deployed cloud) →
        vault_secrets cloud' !! k = vault_secrets cloud !! k) ∧
  (managed_secrets (deployed cloud) = [] → vault_secrets cloud' = vault_secrets cloud) ∧
  (is_ok plan = true →
   of_type "azurerm_key_vault_secret" (deployed cloud') = [] ∧
   ∀ k, k ∈ managed_secrets (deployed cloud) → vault_secrets cloud' !! k = None) ∧
  spoke_apply (StorageConfig var) rnd az
    (partial_alter (fun _ => kv_state) (StorageSpoke.keyvault_state_path var) states)
  = plan.
Proof.
  intros Hoff Hpath plan cloud'. subst plan cloud'.
  assert (Hsame : spoke_apply (StorageConfig var) rnd az
            (partial_alter (fun _ => kv_state)
               (StorageSpoke.keyvault_state_path var) states)
          = spoke_apply (StorageConfig var) rnd az states).
  { simpl. unfold StorageSpoke.apply. rewrite Hoff.
    unfold Terraform.count. cbn [seq fmap list_fmap mapM].
    unfold read_state. rewrite lookup_partial_alter_ne by exact Hpath.
    reflexivity. }
  destruct (spoke_apply _ _ _ states) as [[rs o]|e] eqn:H; cbn [planned is_ok];
    [|cbn [run fst]; by repeat split].
  assert (HF : Forall (fun r => rtype r ≠ "azurerm_key_vault_secret") rs).
  { simpl in H. storage_blocks H.
    all: each_block; lazy; discriminate. }
  destruct (run_without_secret rs o cloud HF) as (Hd & Hin & Hout & Hnone & Hgone).
  split; [by apply of_type_other|].
  split; [exact Hin|]. split; [exact Hout|]. split; [exact Hnone|].
  split; [|exact Hsame].
  intros _. split; [|exact Hgone].
  rewrite Hd. by apply of_type_other.
Qed.

Lemma X4_witness_storage_flag_off :
  let var := storage_without_keyvault in
  let plan := spoke_apply (StorageConfig var) sample_random sample_azure
                hub_keyvault_states in
  StorageSpoke.store_connection_string_in_keyvault var = false ∧
  StorageSpoke.keyvault_state_path var ≠ StorageSpoke.hub_state_path var ∧
  plan = Ok (planned plan, planned_outputs plan) ∧
  let cloud' := (run plan cloud_with_secret).1 in
  of_type "azurerm_key_vault_secret" (planned plan) = [] ∧
  vault_secrets cloud' = vault_secrets cloud_with_secret ∧
  of_type "azurerm_key_vault_secret" (deployed cloud') = [] ∧
  spoke_apply (StorageConfig var) sample_random sample_azure
    (partial_alter (fun _ => None) (StorageSpoke.keyvault_state_path var)
       hub_keyvault_states)
  = plan.
Proof.
  intros var plan.
  assert (Hpath : StorageSpoke.keyvault_state_path var ≠ StorageSpoke.hub_state_path var)
    by (vm_compute; discriminate).
  assert (Hok : is_ok plan = true) by (vm_compute; reflexivity).
  split; [reflexivity|]. split; [exact Hpath|]. split; [by apply ok_planned|].
  destruct (X4_storage_no_secret_when_flag_off var sample_random sample_azure
              hub_keyvault_states None cloud_with_secret eq_refl Hpath)
    as (Hplan & _ & _ & Hsame & Hrun & Hstate).
  split; [exact Hplan|]. split; [apply Hsame; reflexivity|].
  split; [apply Hrun; exact Hok|exact Hstate].
Defined.

(** ** Secrets written to the key vault *)









(** ** Private endpoint of the key vault *)

(** Invert the read of the hub's outputs into one equation per output. *)
Ltac read_hub_fields :=
  match goal with
  | E : KeyvaultSpoke.read_hub _ = Ok _ |- _ =>
      unfold KeyvaultSpoke.read_hub in E; inv_ok E; injection E as <-
  | E : DatabaseSpoke.read_hub _ = Ok _ |- _ =>
      unfold DatabaseSpoke.read_hub in E; inv_ok E; injection E as <-
  | E : StorageSpoke.read_hub _ = Ok _ |- _ =>
      unfold StorageSpoke.read_hub in E; inv_ok E; injection E as <-
  end.

(** An output of the hub, given the state that was read. *)
Ltac hub_output :=
  unfold hub_output_string; cbn [hub_state_path_of];
  match goal with
  | E : read_state _ _ = Ok _ |- _ => rewrite E; cbn [mbind result_bind]; eassumption
  end.

Lemma output_string_alter_ne (o : gmap string value) (v : option value) (k k' : string) :
  k ≠ k' → output_string (partial_alter (fun _ => v) k o) k' = output_string o k'.
Proof.
  intros Hne. unfold output_string, output. by rewrite lookup_partial_alter_ne.
Qed.

Lemma output_map_alter_ne (o : gmap string value) (v : option value) (k k' : string) :
  k ≠ k' → output_map (partial_alter (fun _ => v) k o) k' = output_map o k'.
Proof.
  intros Hne. unfold output_map, output. by rewrite lookup_partial_alter_ne.
Qed.

(** The outputs of the hub other than [keyvault_private_dns_zone_id] are
    read alike whatever the state holds under that name. *)
Lemma keyvault_read_hub_without_zone_id
    (ho : gmap string value) (v : option value) (hub : KeyvaultSpoke.HubOutputs) :
  KeyvaultSpoke.read_hub ho = Ok hub →
  KeyvaultSpoke.read_hub
    (partial_alter (fun _ => v) "keyvault_private_dns_zone_id" ho)
  = Ok {|
      KeyvaultSpoke.environment := KeyvaultSpoke.environment hub;
      KeyvaultSpoke.common_tags := KeyvaultSpoke.common_tags hub;
      KeyvaultSpoke.hub_resource_group_name := KeyvaultSpoke.hub_resource_group_name hub;
      KeyvaultSpoke.hub_vnet_name := KeyvaultSpoke.hub_vnet_name hub;
      KeyvaultSpoke.hub_vnet_id := KeyvaultSpoke.hub_vnet_id hub;
      KeyvaultSpoke.shared_services_subnet_id :=
        KeyvaultSpoke.shared_services_subnet_id hub;
      KeyvaultSpoke.keyvault_private_dns_zone_name :=
        KeyvaultSpoke.keyvault_private_dns_zone_name hub;
      KeyvaultSpoke.keyvault_private_dns_zone_id :=
        output_string (partial_alter (fun _ => v) "keyvault_private_dns_zone_id" ho)
          "keyvault_private_dns_zone_id";
      KeyvaultSpoke.log_analytics_workspace_id :=
        KeyvaultSpoke.log_analytics_workspace_id hub |}.
Proof.
  intros H. unfold KeyvaultSpoke.read_hub in *.
  rewrite (output_string_alter_ne _ _ _ "environment"),
    (output_map_alter_ne _ _ _ "common_tags"),
    (output_string_alter_ne _ _ _ "hub_resource_group_name"),
    (output_string_alter_ne _ _ _ "hub_vnet_name"),
    (output_string_alter_ne _ _ _ "hub_vnet_id"),
    (output_string_alter_ne _ _ _ "shared_services_subnet_id"),
    (output_string_alter_ne _ _ _ "keyvault_private_dns_zone_name"),
    (output_string_alter_ne _ _ _ "log_analytics_workspace_id") by discriminate.
  inv_ok H. injection H as <-.
  repeat match goal with E : _ = Ok _ |- _ => rewrite E; clear E end.
  reflexivity.
Qed.

(** X7. The Key Vault spoke plans a private endpoint exactly when
    [allow_public_access] is false (one instance, none otherwise).  The
    endpoint sits in the spoke's own subnet, connects to the [vault]
    sub-resource of the spoke's key vault, both of which are planned, and
    registers in the DNS zone whose identifier is read from the hub.  That
    identifier is referred to by the endpoint alone: with public access
    allowed the plan is the same whatever the hub's state holds as
    [keyvault_private_dns_zone_id], or if it lacks that output.  The
    [private_endpoint] entry of the spoke's summary tells whether the
    endpoint exists. *)
Theorem X7_keyvault_private_endpoint
    (var : KeyvaultSpoke.Variables) (rnd : RandomValues) (az : Azure)
    (states : gmap string (gmap string value))
    (rs : list resource) (o : gmap string value) :
  spoke_apply (KeyVaultConfig var) rnd az states = Ok (rs, o) →
  let endpoints := of_type "azurerm_private_endpoint" rs in
  length endpoints
    = (if KeyvaultSpoke.allow_public_access var then 0 else 1)%nat ∧
  (endpoints ≠ [] ↔ KeyvaultSpoke.allow_public_access var = false) ∧
  (KeyvaultSpoke.allow_public_access var = false →
   ∃ zone_id,
     hub_output_string (KeyVaultConfig var) states "keyvault_private_dns_zone_id"
       = Ok zone_id ∧
     Forall (fun e =>
         address e = "azurerm_private_endpoint.keyvault[0]" ∧
         attr "subnet_id" e = Some (VStr (az_id az "azurerm_subnet.keyvault")) ∧
         attr "private_service_connection" e ≫= field "private_connection_resource_id"
           = Some (VStr (az_id az "azurerm_key_vault.main")) ∧
         attr "private_service_connection" e ≫= field "subresource_names"
           = Some (strings ["vault"]) ∧
         attr "private_dns_zone_group" e ≫= field "private_dns_zone_ids"
           = Some (strings [zone_id])) endpoints) ∧
  (KeyvaultSpoke.allow_public_access var = true →
   ∀ (ho : gmap string value) (v : option value),
     states !! KeyvaultSpoke.hub_state_path var = Some ho →
     spoke_apply (KeyVaultConfig var) rnd az
       (<[KeyvaultSpoke.hub_state_path var :=
            partial_alter (fun _ => v) "keyvault_private_dns_zone_id" ho]> states)
     = Ok (rs, o)) ∧
  address <$> of_type "azurerm_key_vault" rs = ["azurerm_key_vault.main"] ∧
  address <$> of_type "azurerm_subnet" rs = ["azurerm_subnet.keyvault"] ∧
  ∀ suffix hub vault_uri,
    field "connectivity" (KeyvaultSummary.spoke_summary var suffix hub vault_uri)
      ≫= field "private_endpoint"
    = Some (VBool (bool_decide (endpoints ≠ []))).
Proof.
  intros H endpoints. subst endpoints. pose proof H as Hrun.
  simpl in H. keyvault_blocks H.
  all: match goal with
  | |- context [of_type "azurerm_private_endpoint" ?l] =>
      match l with
      | context [(?c ++ _)%list] =>
          assert (He : of_type "azurerm_private_endpoint" l = c)
            by (other_types; reflexivity);
          rewrite He; clear He
      end
  end.
  all: rewrite Hpublic.
  all: (split; [reflexivity|]).
  all: (split; [split; [intros Hne|intros Heq]; try done; discriminate|]).
  all: split; [intros Hprivate; try discriminate Hprivate|].
  2: { unfold KeyvaultSpoke.keyvault_private_dns_zone_id in *.
       read_hub_fields. eexists. split; [hub_output|].
       apply Forall_cons_2; [repeat split; reflexivity|apply Forall_nil_2]. }
  all: split; [intros Hallowed; try discriminate Hallowed|].
  1: { intros ho v Hho. simpl. unfold KeyvaultSpoke.apply.
       unfold read_state in *. rewrite lookup_insert_eq.
       rewrite E, Hho in *. cbn [from_option mbind result_bind] in *.
       injection E0 as <-.
       rewrite (keyvault_read_hub_without_zone_id _ v _ E1).
       cbn [mbind result_bind]. unfold KeyvaultSpoke.resources.
       rewrite Hpublic. reflexivity. }
  all: (split; [other_types; reflexivity|]).
  all: (split; [other_types; reflexivity|]).
  all: intros suffix hub vault_uri.
  all: change (field "connectivity" (KeyvaultSummary.spoke_summary var suffix hub vault_uri)
          ≫= field "private_endpoint")
    with (Some (VBool (negb (KeyvaultSpoke.allow_public_access var)))).
  all: rewrite Hpublic.
  - rewrite bool_decide_false by (intros Hne; by apply Hne). reflexivity.
  - rewrite bool_decide_true by discriminate. reflexivity.
Qed.

(** X7 with public access switched off, where the endpoint registers in
    the hub's zone, and with the default variables, where the plan is the
    same for a hub state without [keyvault_private_dns_zone_id]. *)
Lemma X7_witness_keyvault_private :
  let var := keyvault_private in
  let plan := spoke_apply (KeyVaultConfig var) sample_random sample_azure hub_states in
  let public := spoke_apply (KeyVaultConfig KeyvaultSpoke.defaults) sample_random
                  sample_azure hub_states in
  plan = Ok (planned plan, planned_outputs plan) ∧
  public = Ok (planned public, planned_outputs public) ∧
  address <$> of_type "azurerm_private_endpoint" (planned plan)
    = ["azurerm_private_endpoint.keyvault[0]"] ∧
  (∃ zone_id,
    hub_output_string (KeyVaultConfig var) hub_states "keyvault_private_dns_zone_id"
      = Ok zone_id ∧
    Forall (fun e =>
        attr "private_dns_zone_group" e ≫= field "private_dns_zone_ids"
          = Some (strings [zone_id]))
      (of_type "azurerm_private_endpoint" (planned plan))) ∧
  spoke_apply (KeyVaultConfig KeyvaultSpoke.defaults) sample_random sample_azure
    (<[KeyvaultSpoke.hub_state_path KeyvaultSpoke.defaults :=
         partial_alter (fun _ => None) "keyvault_private_dns_zone_id"
           (Hub.outputs Hub.defaults "2025-01-01" "h0h0h0h0" sample_azure)]> hub_states)
  = public.
Proof.
  intros var plan public.
  assert (Hplan : plan = Ok (planned plan, planned_outputs plan))
    by (apply ok_planned; vm_compute; reflexivity).
  assert (Hpublic : public = Ok (planned public, planned_outputs public))
    by (apply ok_planned; vm_compute; reflexivity).
  split; [exact Hplan|]. split; [exact Hpublic|]. split; [vm_compute; reflexivity|].
  destruct (X7_keyvault_private_endpoint var sample_random sample_azure hub_states
              _ _ Hplan) as (_ & _ & Hprivate & _).
  destruct (X7_keyvault_private_endpoint KeyvaultSpoke.defaults sample_random
              sample_azure hub_states _ _ Hpublic) as (_ & _ & _ & Hlazy & _).
  split.
  - destruct (Hprivate eq_refl) as (zone_id & Hzone & Hall).
    exists zone_id. split; [exact Hzone|].
    eapply Forall_impl; [exact Hall|]. intros e (_ & _ & _ & _ & He). exact He.
  - exact (eq_trans (Hlazy eq_refl _ None eq_refl) (eq_sym Hpublic)).
Defined.

(** ** A spoke deployed against the hub *)

Lemma keyvault_reads_hub_outputs
    (var : Hub.Variables) (today suffix : string) (az : Azure) :
  KeyvaultSpoke.read_hub (Hub.outputs var today suffix az) = Ok {|
    KeyvaultSpoke.environment := Hub.environment var;
    KeyvaultSpoke.common_tags := Hub.common_tags var today;
    KeyvaultSpoke.hub_resource_group_name := Hub.named var suffix "rg-guiworld-hub-";
    KeyvaultSpoke.hub_vnet_name := Hub.named var suffix "vnet-guiworld-hub-";
    KeyvaultSpoke.hub_vnet_id := az_id az "azurerm_virtual_network.hub";
    KeyvaultSpoke.shared_services_subnet_id := az_id az "azurerm_subnet.shared_services";
    KeyvaultSpoke.keyvault_private_dns_zone_name := Hub.keyvault_zone;
    KeyvaultSpoke.keyvault_private_dns_zone_id :=
      Ok (az_id az "azurerm_private_dns_zone.keyvault");
    KeyvaultSpoke.log_analytics_workspace_id :=
      az_id az "azurerm_log_analytics_workspace.hub" |}.
Proof. reflexivity. Qed.

Lemma database_reads_hub_outputs
    (var : Hub.Variables) (today suffix : string) (az : Azure) :
  DatabaseSpoke.read_hub (Hub.outputs var today suffix az) = Ok {|
    DatabaseSpoke.environment := Hub.environment var;
    DatabaseSpoke.common_tags := Hub.common_tags var today;
    DatabaseSpoke.hub_resource_group_name := Hub.named var suffix "rg-guiworld-hub-";
    DatabaseSpoke.hub_vnet_name := Hub.named var suffix "vnet-guiworld-hub-";
    DatabaseSpoke.hub_vnet_id := az_id az "azurerm_virtual_network.hub";
    DatabaseSpoke.hub_vnet_address_space := [Hub.hub_vnet_address_space var];
    DatabaseSpoke.postgres_private_dns_zone_name := Hub.postgres_zone;
    DatabaseSpoke.postgres_private_dns_zone_id :=
      az_id az "azurerm_private_dns_zone.postgres";
    DatabaseSpoke.log_analytics_workspace_id :=
      az_id az "azurerm_log_analytics_workspace.hub" |}.
Proof. reflexivity. Qed.

Lemma storage_reads_hub_outputs
    (var : Hub.Variables) (today suffix : string) (az : Azure) :
  StorageSpoke.read_hub (Hub.outputs var today suffix az) = Ok {|
    StorageSpoke.environment := Hub.environment var;
    StorageSpoke.common_tags := Hub.common_tags var today;
    StorageSpoke.hub_resource_group_name := Hub.named var suffix "rg-guiworld-hub-";
    StorageSpoke.hub_vnet_name := Hub.named var suffix "vnet-guiworld-hub-";
    StorageSpoke.hub_vnet_id := az_id az "azurerm_virtual_network.hub";
    StorageSpoke.shared_services_subnet_id := az_id az "azurerm_subnet.shared_services";
    StorageSpoke.storage_private_dns_zone_name := Hub.storage_zone;
    StorageSpoke.storage_private_dns_zone_id :=
      Ok (az_id az "azurerm_private_dns_zone.storage");
    StorageSpoke.log_analytics_workspace_id :=
      az_id az "azurerm_log_analytics_workspace.hub" |}.
Proof. reflexivity. Qed.

(** The hub outputs read from the hub's own state. *)
Ltac read_hub_state Hstate :=
  match goal with
  | E : read_state _ _ = Ok _ |- _ =>
      unfold read_state in E; cbn [hub_state_path_of] in Hstate;
      rewrite Hstate in E; injection E as <-
  end;
  match goal with
  | E : KeyvaultSpoke.read_hub _ = Ok _ |- _ =>
      rewrite keyvault_reads_hub_outputs in E; injection E as <-
  | E : DatabaseSpoke.read_hub _ = Ok _ |- _ =>
      rewrite database_reads_hub_outputs in E; injection E as <-
  | E : StorageSpoke.read_hub _ = Ok _ |- _ =>
      rewrite storage_reads_hub_outputs in E; injection E as <-
  end;
  repeat match goal with
    | E : KeyvaultSpoke.keyvault_private_dns_zone_id _ = Ok _ |- _ =>
        cbn [KeyvaultSpoke.keyvault_private_dns_zone_id] in E; injection E as <-
    | E : StorageSpoke.storage_private_dns_zone_id _ = Ok _ |- _ =>
        cbn [StorageSpoke.storage_private_dns_zone_id] in E; injection E as <-
    end.

(** X8. Every spoke links its virtual network to one private DNS zone of the
    hub: it plans exactly one link, named after its role, created in the hub's
    resource group for the zone whose name the hub outputs for the spoke's
    domain, pointing at the spoke's own virtual network, with automatic
    registration switched off. *)
Theorem X8_spoke_dns_zone_link
    (c : SpokeConfig) (rnd : RandomValues) (az : Azure)
    (states : gmap string (gmap string value))
    (rs : list resource) (o : gmap string value) :
  spoke_apply c rnd az states = Ok (rs, o) →
  ∃ zone group,
    hub_output_string c states (zone_key (spoke_of c) +:+ "_private_dns_zone_name")
      = Ok zone ∧
    hub_output_string c states "hub_resource_group_name" = Ok group ∧
    (fun r => (address r, name_of r)) <$>
      of_type "azurerm_private_dns_zone_virtual_network_link" rs
    = [ ("azurerm_private_dns_zone_virtual_network_link."
           +:+ role (spoke_of c) +:+ "_spoke",
         Some (role (spoke_of c) +:+ "-spoke-link")) ] ∧
    Forall (fun r =>
        attr "private_dns_zone_name" r = Some (VStr zone) ∧
        attr "resource_group_name" r = Some (VStr group) ∧
        attr "virtual_network_id" r
          = Some (VStr (az_id az ("azurerm_virtual_network."
                                   +:+ role (spoke_of c) +:+ "_spoke"))) ∧
        attr "registration_enabled" r = Some (VBool false))
      (of_type "azurerm_private_dns_zone_virtual_network_link" rs) ∧
    address <$> of_type "azurerm_virtual_network" rs
      = ["azurerm_virtual_network." +:+ role (spoke_of c) +:+ "_spoke"].
Proof.
  intros H. destruct c as [var|regex_can var|var]; simpl in H.
  - keyvault_blocks H.
    all: read_hub_fields.
    all: eexists _, _; (split; [hub_output|]); (split; [hub_output|]).
    all: other_types; (split; [reflexivity|]); (split; [|reflexivity]).
    all: apply Forall_cons_2; [repeat split; reflexivity|apply Forall_nil_2].
  - database_blocks H.
    all: read_hub_fields.
    all: eexists _, _; (split; [hub_output|]); (split; [hub_output|]).
    all: other_types; (split; [reflexivity|]); (split; [|reflexivity]).
    all: apply Forall_cons_2; [repeat split; reflexivity|apply Forall_nil_2].
  - storage_blocks H.
    all: read_hub_fields.
    all: eexists _, _; (split; [hub_output|]); (split; [hub_output|]).
    all: other_types; (split; [reflexivity|]); (split; [|reflexivity]).
    all: apply Forall_cons_2; [repeat split; reflexivity|apply Forall_nil_2].
Qed.

(** X9. The hub plans exactly three private DNS zones, for the domains of
    the three spokes, with distinct names; each is linked once to the hub's
    virtual network, without automatic registration; and for every spoke the
    hub outputs the name and the identifier of the zone of its domain, and
    lists the name in its summary. *)
Theorem X9_hub_dns_zones
    (var : Hub.Variables) (today suffix : string) (az : Azure) :
  let rs := Hub.resources var today suffix az in
  let o := Hub.outputs var today suffix az in
  let zones := of_type "azurerm_private_dns_zone" rs in
  let links := of_type "azurerm_private_dns_zone_virtual_network_link" rs in
  rlabel <$> zones = zone_key <$> [KeyVault; Database; Storage] ∧
  NoDup (name_of <$> zones) ∧
  attr "private_dns_zone_name" <$> links = (fun z => VStr <$> name_of z) <$> zones ∧
  Forall (fun l =>
      attr "virtual_network_id" l = Some (VStr (az_id az "azurerm_virtual_network.hub")) ∧
      attr "registration_enabled" l = Some (VBool false)) links ∧
  address <$> of_type "azurerm_virtual_network" rs = ["azurerm_virtual_network.hub"] ∧
  ∀ s : Spoke, ∃ z,
    instances "azurerm_private_dns_zone" (zone_key s) rs = [z] ∧
    o !! (zone_key s +:+ "_private_dns_zone_name") = VStr <$> name_of z ∧
    o !! (zone_key s +:+ "_private_dns_zone_id") = Some (VStr (az_id az (address z))) ∧
    field "dns_zones" (HubSummary.hub_summary var suffix) ≫= field (zone_key s)
    = VStr <$> name_of z.
Proof.
  intros rs o zones links. subst rs o zones links. unfold Hub.resources.
  assert (Hzones : of_type "azurerm_private_dns_zone" (Hub.resources var today suffix az)
            = [ Hub.private_dns_zone var today suffix "keyvault" Hub.keyvault_zone;
                Hub.private_dns_zone var today suffix "postgres" Hub.postgres_zone;
                Hub.private_dns_zone var today suffix "storage" Hub.storage_zone ])
    by (unfold Hub.resources; other_types; reflexivity).
  unfold Hub.resources in Hzones. rewrite Hzones.
  split; [reflexivity|].
  split; [apply (bool_decide_unpack _); vm_compute; reflexivity|].
  split; [other_types; reflexivity|].
  split.
  { other_types. cbn [app].
    repeat (apply Forall_cons_2; [split; reflexivity|]). apply Forall_nil_2. }
  split; [other_types; reflexivity|].
  intros s.
  destruct s; eexists; (split; [block_instances; reflexivity|]); repeat split;
    reflexivity.
Qed.

(** X10. A spoke deployed against the state stored by the hub refers to the
    resources the hub planned: its DNS link and its hub-to-spoke peering are
    created in the hub's resource group, the link for the hub's zone of the
    spoke's domain and the peering on the hub's virtual network; the
    spoke-to-hub peering points at the hub's virtual network; the diagnostic
    setting sends to the hub's Log Analytics workspace; and the private
    endpoint of the key vault, the PostgreSQL server and the blob private
    endpoint of the storage account register in the hub's zone of their
    domain. *)
Theorem X10_spoke_refers_to_hub_resources
    (hvar : Hub.Variables) (today hsuffix : string) (haz : Azure)
    (c : SpokeConfig) (rnd : RandomValues) (az : Azure)
    (states : gmap string (gmap string value))
    (rs : list resource) (o : gmap string value) :
  states !! hub_state_path_of c = Some (Hub.outputs hvar today hsuffix haz) →
  spoke_apply c rnd az states = Ok (rs, o) →
  let hub_rs := Hub.resources hvar today hsuffix haz in
  ∃ group network workspace zone,
    of_type "azurerm_resource_group" hub_rs = [group] ∧
    of_type "azurerm_virtual_network" hub_rs = [network] ∧
    of_type "azurerm_log_analytics_workspace" hub_rs = [workspace] ∧
    instances "azurerm_private_dns_zone" (zone_key (spoke_of c)) hub_rs = [zone] ∧
    (fun r => (attr "resource_group_name" r, attr "private_dns_zone_name" r)) <$>
      of_type "azurerm_private_dns_zone_virtual_network_link" rs
    = [(VStr <$> name_of group, VStr <$> name_of zone)] ∧
    (fun r => (attr "resource_group_name" r, attr "virtual_network_name" r)) <$>
      instances "azurerm_virtual_network_peering" "hub_to_spoke" rs
    = [(VStr <$> name_of group, VStr <$> name_of network)] ∧
    attr "remote_virtual_network_id" <$>
      instances "azurerm_virtual_network_peering" "spoke_to_hub" rs
    = [Some (VStr (az_id haz (address network)))] ∧
    attr "log_analytics_workspace_id" <$>
      of_type "azurerm_monitor_diagnostic_setting" rs
    = [Some (VStr (az_id haz (address workspace)))] ∧
    match c with
    | KeyVaultConfig _ =>
        Forall (fun e =>
            attr "private_dns_zone_group" e ≫= field "private_dns_zone_ids"
            = Some (strings [az_id haz (address zone)]))
          (of_type "azurerm_private_endpoint" rs)
    | DatabaseConfig _ _ =>
        attr "private_dns_zone_id" <$> of_type "azurerm_postgresql_flexible_server" rs
        = [Some (VStr (az_id haz (address zone)))]
    | StorageConfig _ =>
        Forall (fun e =>
            attr "private_dns_zone_group" e ≫= field "private_dns_zone_ids"
            = Some (strings [az_id haz (address zone)]))
          (instances "azurerm_private_endpoint" "storage_blob" rs) ∧
        Forall (fun e => attr "private_dns_zone_group" e = None)
          (instances "azurerm_private_endpoint" "storage_file" rs)
    end.
Proof.
  intros Hstate H hub_rs. subst hub_rs.
  destruct c as [var|regex_can var|var]; simpl in H.
  all: eexists _, _, _, _.
  all: (split; [unfold Hub.resources; other_types; reflexivity|]).
  all: (split; [unfold Hub.resources; other_types; reflexivity|]).
  all: (split; [unfold Hub.resources; other_types; reflexivity|]).
  all: (split; [unfold Hub.resources; block_instances; reflexivity|]).
  - keyvault_blocks H.
    all: read_hub_state Hstate.
    all: (split; [other_types; reflexivity|]).
    all: (split; [block_instances; reflexivity|]).
    all: (split; [block_instances; reflexivity|]).
    all: (split; [other_types; reflexivity|]).
    all: other_types; cbn [app].
    all: first [apply Forall_nil_2
               |apply Forall_cons_2; [reflexivity|apply Forall_nil_2]].
  - database_blocks H.
    all: read_hub_state Hstate.
    all: (split; [other_types; reflexivity|]).
    all: (split; [block_instances; reflexivity|]).
    all: (split; [block_instances; reflexivity|]).
    all: (split; [other_types; reflexivity|]).
    all: other_types; reflexivity.
  - storage_blocks H.
    all: read_hub_state Hstate.
    all: (split; [other_types; reflexivity|]).
    all: (split; [block_instances; reflexivity|]).
    all: (split; [block_instances; reflexivity|]).
    all: (split; [other_types; reflexivity|]).
    all: split; block_instances.
    all: unfold StorageSpoke.storage_file_count; rewrite ?Hpublic.
    all: try destruct (bool_decide (size (StorageSpoke.file_shares var) = 0%nat));
      cbn [orb seq fmap list_fmap app].
    all: repeat apply Forall_app_2.
    all: first [apply Forall_nil_2
               |apply Forall_cons_2; [reflexivity|apply Forall_nil_2]].
Qed.

Lemma X8_witness_database_link :
  let c := DatabaseConfig accept_all DatabaseSpoke.defaults in
  let plan := spoke_apply c sample_random sample_azure hub_states in
  plan = Ok (planned plan, planned_outputs plan) ∧
  hub_output_string c hub_states "postgres_private_dns_zone_name"
    = Ok "privatelink.postgres.database.azure.com" ∧
  (fun r => (address r, name_of r)) <$>
    of_type "azurerm_private_dns_zone_virtual_network_link" (planned plan)
  = [ ("azurerm_private_dns_zone_virtual_network_link.database_spoke",
       Some "database-spoke-link") ] ∧
  Forall (fun r =>
      attr "private_dns_zone_name" r
        = Some (VStr "privatelink.postgres.database.azure.com"))
    (of_type "azurerm_private_dns_zone_virtual_network_link" (planned plan)).
Proof.
  intros c plan.
  assert (Hplan : plan = Ok (planned plan, planned_outputs plan))
    by (apply ok_planned; vm_compute; reflexivity).
  assert (Hzone : hub_output_string c hub_states "postgres_private_dns_zone_name"
            = Ok "privatelink.postgres.database.azure.com")
    by (vm_compute; reflexivity).
  split; [exact Hplan|]. split; [exact Hzone|].
  destruct (X8_spoke_dns_zone_link c sample_random sample_azure hub_states _ _ Hplan)
    as (zone & group & Hz & _ & Hnames & Hall & _).
  split; [exact Hnames|].
  assert (zone = "privatelink.postgres.database.azure.com") as ->
    by (change (hub_output_string c hub_states "postgres_private_dns_zone_name"
                = Ok zone) in Hz; congruence).
  eapply Forall_impl; [exact Hall|]. intros r (Hr & _). exact Hr.
Defined.

Lemma X10_witness_storage_against_hub :
  let c := StorageConfig storage_without_keyvault in
  let plan := spoke_apply c sample_random sample_azure hub_states in
  let hub_rs := Hub.resources Hub.defaults "2025-01-01" "h0h0h0h0" sample_azure in
  hub_states !! hub_state_path_of c
    = Some (Hub.outputs Hub.defaults "2025-01-01" "h0h0h0h0" sample_azure) ∧
  plan = Ok (planned plan, planned_outputs plan) ∧
  ∃ group network workspace zone,
    of_type "azurerm_resource_group" hub_rs = [group] ∧
    of_type "azurerm_virtual_network" hub_rs = [network] ∧
    of_type "azurerm_log_analytics_workspace" hub_rs = [workspace] ∧
    instances "azurerm_private_dns_zone" "storage" hub_rs = [zone] ∧
    (fun r => (attr "resource_group_name" r, attr "private_dns_zone_name" r)) <$>
      of_type "azurerm_private_dns_zone_virtual_network_link" (planned plan)
    = [(VStr <$> name_of group, VStr <$> name_of zone)] ∧
    attr "log_analytics_workspace_id" <$>
      of_type "azurerm_monitor_diagnostic_setting" (planned plan)
    = [Some (VStr (az_id sample_azure (address workspace)))].
Proof.
  intros c plan hub_rs.
  assert (Hstate : hub_states !! hub_state_path_of c
            = Some (Hub.outputs Hub.defaults "2025-01-01" "h0h0h0h0" sample_azure))
    by reflexivity.
  assert (Hplan : plan = Ok (planned plan, planned_outputs plan))
    by (apply ok_planned; vm_compute; reflexivity).
  split; [exact Hstate|]. split; [exact Hplan|].
  destruct (X10_spoke_refers_to_hub_resources Hub.defaults "2025-01-01" "h0h0h0h0"
              sample_azure c sample_random sample_azure hub_states _ _ Hstate Hplan)
    as (group & network & workspace & zone & Hg & Hn & Hw & Hz & Hlink & _ & _ & Hd & _).
  exists group, network, workspace, zone. auto 10.
Defined.

(** ** The hub: optional services, names and tags *)

Ltac in_list := repeat first [ apply list_elem_of_here | apply list_elem_of_further ].


Lemma merge2 (a b : gmap string string) (k : string) :
  Terraform.merge [a; b] !! k =
  match b !! k with Some v => Some v | None => a !! k end.
Proof.
  change [a; b] with ([a] ++ [b])%list. rewrite merge_snoc.
  change [a] with ([] ++ [a])%list. rewrite merge_snoc.
  unfold Terraform.merge. simpl. rewrite lookup_empty.
  destruct (b !! k), (a !! k); reflexivity.
Qed.

(** X13. Every tagged resource of the hub carries the hub's common tags,
    which are also what the hub outputs for the spokes: the six fixed tags
    (Environment, Project, ManagedBy, Architecture, Component, CreatedDate)
    overridden by the caller's additional tags.  One random suffix is drawn,
    it is the one the hub outputs, and the name of every hub resource other
    than the subnets, the DNS zones and their links is a stem followed by the
    environment, a dash and that suffix. *)
Theorem X13_hub_names_and_tags
    (var : Hub.Variables) (today suffix : string) (az : Azure) :
  let rs := Hub.resources var today suffix az in
  let o := Hub.outputs var today suffix az in
  let fixed : gmap string string :=
    {[ "Environment" := Hub.environment var;
       "Project" := "GuiWorld";
       "ManagedBy" := "Terraform";
       "Architecture" := "HubAndSpoke";
       "Component" := "Hub";
       "CreatedDate" := today ]} in
  (∀ k, Hub.common_tags var today !! k
        = match Hub.additional_tags var !! k with
          | Some v => Some v
          | None => fixed !! k
          end) ∧
  Forall (fun r => ∀ t, tags_of r = Some t → t = Hub.common_tags var today) rs ∧
  o !! "common_tags" = Some (VMap (Hub.common_tags var today)) ∧
  attr "result" <$> of_type "random_string" rs = [Some (VStr suffix)] ∧
  o !! "resource_suffix" = Some (VStr suffix) ∧
  o !! "environment" = Some (VStr (Hub.environment var)) ∧
  Forall (fun r => ∀ n, name_of r = Some n →
      (∃ stem, n = stem +:+ Hub.environment var +:+ "-" +:+ suffix) ∨
      rtype r ∈ [ "azurerm_subnet"; "azurerm_private_dns_zone";
                  "azurerm_private_dns_zone_virtual_network_link" ]) rs.
Proof.
  intros rs o fixed. subst rs o fixed.
  split; [intros k; apply merge2|].
  split.
  { unfold Hub.resources. each_block; intros t; lazy -[Hub.common_tags]; congruence. }
  split; [reflexivity|].
  split; [unfold Hub.resources; other_types; reflexivity|].
  split; [reflexivity|]. split; [reflexivity|].
  unfold Hub.resources. each_block; intros n Hn.
  all: first
    [ discriminate Hn
    | right; cbn [rtype Hub.subnet Hub.private_dns_zone Hub.dns_zone_link single
                  Hub.azurerm_subnet_gateway Hub.azurerm_subnet_firewall
                  Hub.azurerm_subnet_bastion Hub.azurerm_subnet_shared_services];
      in_list; fail
    | left; injection Hn as <-; eexists; reflexivity ].
Qed.

(** ** Tags of a spoke deployed against the hub *)

Lemma tags_of_run c rnd az states rs o :
  spoke_apply c rnd az states = Ok (rs, o) →
  ∃ hub_tags,
    hub_tags_read c states = Ok hub_tags ∧
    Forall (fun r => ∀ t, tags_of r = Some t →
              t = Terraform.merge
                    [hub_tags; spoke_specific_tags_of c; additional_tags_of c]) rs.
Proof.
  intros H. destruct c as [var|regex_can var|var]; simpl in H.
  - keyvault_blocks H.
    all: match goal with E : KeyvaultSpoke.read_hub _ = Ok ?h |- _ =>
      apply keyvault_read_hub in E as (_ & Et & _);
      exists (KeyvaultSpoke.common_tags h)
    end.
    all: (split; [unfold hub_tags_read; simpl; by rewrite E0|]).
    all: match goal with |- Forall (fun r => ∀ t, _ → t = ?m) _ =>
      change m with (KeyvaultSpoke.spoke_tags var a1)
    end.
    all: each_block; intros t; tags_block.
  - database_blocks H.
    all: match goal with E : DatabaseSpoke.read_hub _ = Ok ?h |- _ =>
      apply database_read_hub in E as (_ & Et);
      exists (DatabaseSpoke.common_tags h)
    end.
    all: (split; [unfold hub_tags_read; simpl; by rewrite E0|]).
    all: match goal with |- Forall (fun r => ∀ t, _ → t = ?m) _ =>
      change m with (DatabaseSpoke.spoke_tags var a1)
    end.
    all: each_block; intros t; tags_block.
  - storage_blocks H.
    all: match goal with E : StorageSpoke.read_hub _ = Ok ?h |- _ =>
      apply storage_read_hub in E as (_ & Et & _);
      exists (StorageSpoke.common_tags h)
    end.
    all: (split; [unfold hub_tags_read; simpl; by rewrite E0|]).
    all: match goal with |- Forall (fun r => ∀ t, _ → t = ?m) _ =>
      change m with (StorageSpoke.spoke_tags var a1)
    end.
    all: each_block; intros t; tags_block.
Qed.

Lemma component_of_spoke (c : SpokeConfig) :
  spoke_specific_tags_of c !! "Component" = Some (component (spoke_of c)) ∧
  spoke_specific_tags_of c !! "CreatedDate" = None.
Proof. destruct c; split; reflexivity. Qed.

(** X14. The tags of a spoke deployed against the state stored by the hub
    are resolved through four levels: the caller's additional tags of the
    spoke, then the spoke's own Component and Region, then the additional
    tags given to the hub, then the hub's fixed tags.  So, unless the
    caller overrides them, a spoke's resources carry the spoke's Component,
    never the hub's, and the CreatedDate of the hub's run. *)
Theorem X14_spoke_tags_against_hub
    (hvar : Hub.Variables) (today hsuffix : string) (haz : Azure)
    (c : SpokeConfig) (rnd : RandomValues) (az : Azure)
    (states : gmap string (gmap string value))
    (rs : list resource) (o : gmap string value) :
  states !! hub_state_path_of c = Some (Hub.outputs hvar today hsuffix haz) →
  spoke_apply c rnd az states = Ok (rs, o) →
  let fixed : gmap string string :=
    {[ "Environment" := Hub.environment hvar;
       "Project" := "GuiWorld";
       "ManagedBy" := "Terraform";
       "Architecture" := "HubAndSpoke";
       "Component" := "Hub";
       "CreatedDate" := today ]} in
  Forall (fun r => ∀ t, tags_of r = Some t →
      (∀ k, t !! k =
            match additional_tags_of c !! k with
            | Some v => Some v
            | None =>
                match spoke_specific_tags_of c !! k with
                | Some v => Some v
                | None =>
                    match Hub.additional_tags hvar !! k with
                    | Some v => Some v
                    | None => fixed !! k
                    end
                end
            end) ∧
      (additional_tags_of c !! "Component" = None →
       t !! "Component" = Some (component (spoke_of c)) ∧
       t !! "Component" ≠ Some "Hub") ∧
      (additional_tags_of c !! "CreatedDate" = None →
       Hub.additional_tags hvar !! "CreatedDate" = None →
       t !! "CreatedDate" = Some today)) rs.
Proof.
  intros Hstate H fixed.
  apply tags_of_run in H as (hub_tags & Hread & Hall).
  assert (hub_tags = Hub.common_tags hvar today) as ->.
  { unfold hub_tags_read, read_state in Hread. rewrite Hstate in Hread.
    change (Ok (Hub.common_tags hvar today) = Ok hub_tags) in Hread.
    congruence. }
  eapply Forall_impl; [exact Hall|]. intros r Hr t Ht.
  rewrite (Hr t Ht).
  assert (Hk : ∀ k,
    Terraform.merge [Hub.common_tags hvar today; spoke_specific_tags_of c;
                     additional_tags_of c] !! k =
    match additional_tags_of c !! k with
    | Some v => Some v
    | None =>
        match spoke_specific_tags_of c !! k with
        | Some v => Some v
        | None =>
            match Hub.additional_tags hvar !! k with
            | Some v => Some v
            | None => fixed !! k
            end
        end
    end).
  { intros k. rewrite merge3. unfold Hub.common_tags. rewrite merge2. reflexivity. }
  destruct (component_of_spoke c) as [Hcomponent Hdate].
  split; [exact Hk|]. split.
  - intros Hnone. rewrite Hk, Hnone, Hcomponent.
    split; [reflexivity|]. destruct c; discriminate.
  - intros Hnone Hnone'. rewrite Hk, Hnone, Hdate, Hnone'. reflexivity.
Qed.

Lemma X14_witness_keyvault_tfvars :
  let c := KeyVaultConfig keyvault_tfvars in
  let plan := spoke_apply c sample_random sample_azure hub_states in
  hub_states !! hub_state_path_of c
    = Some (Hub.outputs Hub.defaults "2025-01-01" "h0h0h0h0" sample_azure) ∧
  plan = Ok (planned plan, planned_outputs plan) ∧
  Forall (fun r => ∀ t, tags_of r = Some t →
      t !! "Component" = Some "KeyVault-Spoke" ∧
      t !! "CreatedDate" = Some "2025-01-01" ∧
      t !! "Region" = Some "SouthCentralUS") (planned plan).
Proof.
  intros c plan.
  assert (Hstate : hub_states !! hub_state_path_of c
            = Some (Hub.outputs Hub.defaults "2025-01-01" "h0h0h0h0" sample_azure))
    by reflexivity.
  assert (Hplan : plan = Ok (planned plan, planned_outputs plan))
    by (apply ok_planned; vm_compute; reflexivity).
  split; [exact Hstate|]. split; [exact Hplan|].
  eapply Forall_impl;
    [exact (X14_spoke_tags_against_hub Hub.defaults "2025-01-01" "h0h0h0h0"
              sample_azure c sample_random sample_azure hub_states _ _ Hstate Hplan)|].
  intros r Hr t Ht. destruct (Hr t Ht) as (Hk & Hcomponent & Hdate).
  split; [apply Hcomponent; reflexivity|].
  split; [apply Hdate; reflexivity|].
  rewrite Hk. reflexivity.
Defined.

(** ** Validation of the variables *)

Lemma validations_Ok_iff (l : list (result unit)) :
  (mapM id l ≫= λ _, Ok tt) = Ok tt ↔ Forall (fun r => r = Ok tt) l.
Proof.
  induction l as [|r l IH]; [split; [intros _; apply Forall_nil_2|reflexivity]|].
  rewrite Forall_cons, <- IH.
  destruct r as [[]|e]; cbn; destruct (mapM id l); cbn.
  all: split; [intros H; split; congruence|intros [H1 H2]; congruence].
Qed.

Lemma validation_Ok_iff (condition : bool) (msg : string) :
  validation condition msg = Ok tt ↔ condition = true.
Proof. destruct condition; cbn; split; done. Qed.

(** ** Blocks with [for_each] *)

Lemma remove_dups_length_le (l : list string) :
  (length (remove_dups l) ≤ length l)%nat.
Proof.
  induction l as [|x l IH]; [reflexivity|]. cbn [remove_dups].
  destruct (decide_rel elem_of x l); cbn [length]; lia.
Qed.

Lemma remove_dups_length_eq (l : list string) :
  length (remove_dups l) = length l ↔ NoDup l.
Proof.
  induction l as [|x l IH]; [split; [intros _; apply NoDup_nil_2|reflexivity]|].
  cbn [remove_dups]. pose proof (remove_dups_length_le l) as Hle.
  rewrite NoDup_cons. destruct (decide_rel elem_of x l) as [Hin|Hnin]; cbn [length].
  - split; [lia|]. intros [Hnin _]. by destruct Hnin.
  - rewrite <- IH. split; [intros [= ?]; by split|intros [_ ->]; reflexivity].
Qed.

(** [toset] keeps each declared name once. *)
Lemma toset_Permutation (l : list string) : Terraform.toset l ≡ₚ remove_dups l.
Proof. apply merge_sort_Permutation. Qed.

Lemma entries_Permutation {A} (m : gmap string A) : Terraform.entries m ≡ₚ map_to_list m.
Proof. apply merge_sort_Permutation. Qed.

(** Both come out in lexical order. *)
Lemma toset_sorted (l : list string) : Sorted Terraform.string_le (Terraform.toset l).
Proof. apply Sorted_merge_sort. intros a b. apply String.leb_total. Qed.

Lemma entries_sorted {A} (m : gmap string A) :
  Sorted Terraform.key_le (Terraform.entries m).
Proof. apply Sorted_merge_sort. intros a b. apply String.leb_total. Qed.

Example toset_storage_containers :
  Terraform.toset ["webgui-data"; "logs"; "webgui-data"; "backups"]
  = ["backups"; "logs"; "webgui-data"].
Proof. vm_compute. reflexivity. Qed.

Lemma for_each_toset (block : string → resource) (declared : list string) :
  (∀ each, name_of (block each) = Some each ∧ rkey (block each) = Some each) →
  one_per_name declared (block <$> Terraform.toset declared).
Proof.
  intros Hblock. unfold one_per_name.
  assert (Hnames : name_of <$> (block <$> Terraform.toset declared)
                   = Some <$> Terraform.toset declared).
  { rewrite <- list_fmap_compose. apply list_fmap_ext. intros _ x _. apply Hblock. }
  assert (Hkeys : rkey <$> (block <$> Terraform.toset declared)
                  = Some <$> Terraform.toset declared).
  { rewrite <- list_fmap_compose. apply list_fmap_ext. intros _ x _. apply Hblock. }
  rewrite Hnames, Hkeys, length_fmap.
  rewrite (Permutation_length (toset_Permutation declared)).
  split.
  { apply NoDup_fmap_2; [intros ?? [= ?]; done|].
    rewrite toset_Permutation. apply NoDup_remove_dups. }
  split; [reflexivity|].
  split.
  { intros n. rewrite list_elem_of_fmap. setoid_rewrite toset_Permutation.
    setoid_rewrite elem_of_remove_dups.
    split; [intros (x & [= <-] & Hx); exact Hx|intros Hn; eauto]. }
  split; [apply remove_dups_length_le|apply remove_dups_length_eq].
Qed.

(** The instances of one block of a plan, when the block is the only one of
    its type and label. *)
Ltac the_block :=
  block_instances;
  match goal with
  | |- _ = ?x => transitivity (x ++ [])%list; [reflexivity|apply app_nil_r]
  end.

(** X18. The storage spoke creates one container, table and queue per
    distinct name declared in [storage_containers], [storage_tables] and
    [storage_queues], keyed and named by it, and one share per key of
    [file_shares] with its quota and access tier; all of them in the one
    storage account of the spoke, the containers with private access.  The
    outputs list the names of what was created; the counts of the summary
    are the lengths of the declared lists, so [containers_count] is the
    number of containers created exactly when no name is declared twice. *)
Theorem X18_storage_data_services
    (var : StorageSpoke.Variables) (rnd : RandomValues) (az : Azure)
    (states : gmap string (gmap string value))
    (rs : list resource) (o : gmap string value) :
  spoke_apply (StorageConfig var) rnd az states = Ok (rs, o) →
  let containers := instances "azurerm_storage_container" "containers" rs in
  let tables := instances "azurerm_storage_table" "tables" rs in
  let queues := instances "azurerm_storage_queue" "queues" rs in
  let shares := instances "azurerm_storage_share" "shares" rs in
  one_per_name (StorageSpoke.storage_containers var) containers ∧
  one_per_name (StorageSpoke.storage_tables var) tables ∧
  one_per_name (StorageSpoke.storage_queues var) queues ∧
  NoDup (name_of <$> shares) ∧
  length shares = size (StorageSpoke.file_shares var) ∧
  (∀ n q t,
     StorageSpoke.file_shares var !! n
       = Some {| StorageSpoke.quota_gb := q; StorageSpoke.access_tier := t |} ↔
     ∃ s, s ∈ shares ∧ name_of s = Some n ∧ rkey s = Some n ∧
          attr "quota" s = Some (VNum q) ∧ attr "access_tier" s = Some (VStr t)) ∧
  (∃ account, name_of <$> of_type "azurerm_storage_account" rs = [Some account] ∧
     Forall (fun r => attr "storage_account_name" r = Some (VStr account))
       (containers ++ tables ++ queues ++ shares)) ∧
  Forall (fun r => attr "container_access_type" r = Some (VStr "private")) containers ∧
  o !! "storage_containers" = Some (strings (omap name_of containers)) ∧
  o !! "storage_tables" = Some (strings (omap name_of tables)) ∧
  o !! "storage_queues" = Some (strings (omap name_of queues)) ∧
  ∀ suffix hub,
    let summary := StorageSummary.spoke_summary var suffix hub in
    (field "containers_count" summary = Some (VNum (Z.of_nat (length containers)))
     ↔ NoDup (StorageSpoke.storage_containers var)) ∧
    field "file_shares_count" summary = Some (VNum (Z.of_nat (length shares))).
Proof.
  intros H containers tables queues shares.
  assert (∃ hub,
    containers = StorageSpoke.azurerm_storage_container_containers
                   (random_string_suffix_result rnd) hub
                 <$> Terraform.toset (StorageSpoke.storage_containers var) ∧
    tables = StorageSpoke.azurerm_storage_table_tables
               (random_string_suffix_result rnd) hub
             <$> Terraform.toset (StorageSpoke.storage_tables var) ∧
    queues = StorageSpoke.azurerm_storage_queue_queues
               (random_string_suffix_result rnd) hub
             <$> Terraform.toset (StorageSpoke.storage_queues var) ∧
    shares = StorageSpoke.azurerm_storage_share_shares
               (random_string_suffix_result rnd) hub
             <$> Terraform.entries (StorageSpoke.file_shares var) ∧
    name_of <$> of_type "azurerm_storage_account" rs
      = [Some (StorageSpoke.storage_account_name (random_string_suffix_result rnd) hub)] ∧
    o = StorageSpoke.outputs var (random_string_suffix_result rnd) az hub)
    as (hub & Hc & Ht & Hq & Hs & Ha & Ho).
  { subst containers tables queues shares. simpl in H. storage_blocks H.
    all: eexists; repeat split; [the_block..|other_types; reflexivity]. }
  clearbody containers tables queues shares. subst containers tables queues shares o.
  clear H.
  split; [apply for_each_toset; intros each; split; reflexivity|].
  split; [apply for_each_toset; intros each; split; reflexivity|].
  split; [apply for_each_toset; intros each; split; reflexivity|].
  assert (Hnames : name_of <$> (StorageSpoke.azurerm_storage_share_shares
                     (random_string_suffix_result rnd) hub
                   <$> Terraform.entries (StorageSpoke.file_shares var))
                   = Some <$> (Terraform.entries (StorageSpoke.file_shares var)).*1).
  { rewrite <- !list_fmap_compose. apply list_fmap_ext. by intros _ [k v] _. }
  split.
  { rewrite Hnames. apply NoDup_fmap_2; [intros ?? [= ?]; done|].
    rewrite entries_Permutation. apply NoDup_fst_map_to_list. }
  split.
  { rewrite length_fmap, (Permutation_length (entries_Permutation _)).
    apply length_map_to_list. }
  split.
  { intros n q t. rewrite <- elem_of_map_to_list, <- entries_Permutation. split.
    - intros Hin. eexists. split; [apply list_elem_of_fmap_2, Hin|].
      repeat split; reflexivity.
    - intros (s & Hin & Hn & _ & Hq & Ht).
      apply list_elem_of_fmap in Hin as ([k [q' t']] & -> & Hin).
      injection Hn as ->. injection Hq as ->. injection Ht as ->. exact Hin. }
  split.
  { eexists. split; [exact Ha|].
    repeat apply Forall_app_2.
    all: apply Forall_fmap, Forall_forall; intros ? _; reflexivity. }
  split; [apply Forall_fmap, Forall_forall; intros ? _; reflexivity|].
  assert (Homap : ∀ (block : string → resource) (l : list string),
            (∀ each, name_of (block each) = Some each) →
            omap name_of (block <$> l) = l).
  { intros block l Hblock. induction l as [|x l IH]; [reflexivity|].
    cbn [fmap list_fmap omap list_omap]. rewrite Hblock.
    cbn. f_equal. exact IH. }
  rewrite !Homap by reflexivity.
  do 3 (split; [reflexivity|]).
  intros suffix hub' summary. subst summary. split.
  - change (field "containers_count" (StorageSummary.spoke_summary var suffix hub'))
      with (Some (VNum (Z.of_nat (length (StorageSpoke.storage_containers var))))).
    rewrite length_fmap, (Permutation_length (toset_Permutation _)).
    rewrite <- remove_dups_length_eq. split; [intros [= Hlen]; lia|by intros ->].
  - rewrite length_fmap, (Permutation_length (entries_Permutation _)),
      length_map_to_list. reflexivity.
Qed.

Lemma X18_witness_repeated_container :
  let var := storage_without_keyvault in
  let plan := spoke_apply (StorageConfig var) sample_random sample_azure hub_states in
  let containers := instances "azurerm_storage_container" "containers" (planned plan) in
  plan = Ok (planned plan, planned_outputs plan) ∧
  one_per_name (StorageSpoke.storage_containers var) containers ∧
  length (StorageSpoke.storage_containers var) = 3%nat ∧
  length containers = 2%nat ∧
  ∀ suffix hub,
    field "containers_count" (StorageSummary.spoke_summary var suffix hub)
    ≠ Some (VNum (Z.of_nat (length containers))).
Proof.
  intros var plan containers.
  assert (Hplan : plan = Ok (planned plan, planned_outputs plan))
    by (apply ok_planned; vm_compute; reflexivity).
  destruct (X18_storage_data_services var sample_random sample_azure hub_states
              _ _ Hplan) as (Hc & _ & _ & _ & _ & _ & _ & _ & _ & _ & _ & Hsummary).
  split; [exact Hplan|]. split; [exact Hc|]. split; [reflexivity|].
  split; [vm_compute; reflexivity|].
  intros suffix hub Heq. apply (Hsummary suffix hub) in Heq.
  apply (proj1 (NoDup_cons _ _)) in Heq as [Hnin _].
  apply Hnin. in_list.
Defined.

(** X19. The database spoke creates the main database, named
    [database_name], one more per distinct name of [additional_databases],
    and the three server configurations [timezone], [log_connections] and
    [log_disconnections]; all on the one PostgreSQL server of the plan, the
    databases with the UTF-8 character set.  The output
    [additional_database_names] lists the additional databases created and
    the summary counts them. *)
Theorem X19_database_databases
    (regex_can : string → string → bool) (var : DatabaseSpoke.Variables)
    (rnd : RandomValues) (az : Azure)
    (states : gmap string (gmap string value))
    (rs : list resource) (o : gmap string value) :
  spoke_apply (DatabaseConfig regex_can var) rnd az states = Ok (rs, o) →
  let main := instances "azurerm_postgresql_flexible_server_database" "guiworld" rs in
  let additional :=
    instances "azurerm_postgresql_flexible_server_database" "additional" rs in
  name_of <$> main = [Some (DatabaseSpoke.database_name var)] ∧
  one_per_name (DatabaseSpoke.additional_databases var) additional ∧
  of_type "azurerm_postgresql_flexible_server_database" rs = (main ++ additional)%list ∧
  address <$> of_type "azurerm_postgresql_flexible_server" rs
    = ["azurerm_postgresql_flexible_server.main"] ∧
  Forall (fun d =>
      attr "server_id" d
        = Some (VStr (az_id az "azurerm_postgresql_flexible_server.main")) ∧
      attr "charset" d = Some (VStr "utf8") ∧
      attr "collation" d = Some (VStr "en_US.utf8")) (main ++ additional) ∧
  (fun r => (name_of r, attr "value" r, attr "server_id" r)) <$>
    of_type "azurerm_postgresql_flexible_server_configuration" rs
  = (fun '(n, v) =>
       (Some n, Some (VStr v),
        Some (VStr (az_id az "azurerm_postgresql_flexible_server.main")))) <$>
    [ ("timezone", DatabaseSpoke.database_timezone var);
      ("log_connections", "on"); ("log_disconnections", "on") ] ∧
  o !! "additional_database_names" = Some (strings (omap name_of additional)) ∧
  o !! "database_name" = Some (VStr (DatabaseSpoke.database_name var)) ∧
  ∀ suffix az' hub,
    field "postgresql" (DatabaseSummary.spoke_summary var suffix az' hub)
      ≫= field "additional_dbs"
    = Some (VNum (Z.of_nat (length additional))).
Proof.
  intros H main additional.
  assert (∃ hub,
    main = [DatabaseSpoke.azurerm_postgresql_flexible_server_database_guiworld var az] ∧
    additional = DatabaseSpoke.azurerm_postgresql_flexible_server_database_additional az
                 <$> Terraform.toset (DatabaseSpoke.additional_databases var) ∧
    of_type "azurerm_postgresql_flexible_server_database" rs
      = ([DatabaseSpoke.azurerm_postgresql_flexible_server_database_guiworld var az]
         ++ (DatabaseSpoke.azurerm_postgresql_flexible_server_database_additional az
             <$> Terraform.toset (DatabaseSpoke.additional_databases var)))%list ∧
    address <$> of_type "azurerm_postgresql_flexible_server" rs
      = ["azurerm_postgresql_flexible_server.main"] ∧
    of_type "azurerm_postgresql_flexible_server_configuration" rs
      = [ DatabaseSpoke.configuration az "timezone" (DatabaseSpoke.database_timezone var);
          DatabaseSpoke.configuration az "log_connections" "on";
          DatabaseSpoke.configuration az "log_disconnections" "on" ] ∧
    o = DatabaseSpoke.outputs var (random_string_suffix_result rnd)
          (random_password_db_admin_result rnd) az hub)
    as (hub & Hm & Ha & Hall & Hserver & Hconf & Ho).
  { subst main additional. simpl in H. database_blocks H.
    all: eexists; split; [block_instances; reflexivity|].
    all: split; [the_block|].
    all: split;
      [ other_types; unfold of_type;
        rewrite filter_fmap_all by (intros ?; reflexivity);
        match goal with
        | |- _ = (?a ++ ?x)%list =>
            transitivity (a ++ x ++ [])%list; [reflexivity|by rewrite app_nil_r]
        end |].
    all: split; [other_types; reflexivity|].
    all: split; [other_types; reflexivity|reflexivity]. }
  rewrite Hall, Hserver, Hconf.
  clearbody main additional. subst main additional o. clear H Hall Hserver Hconf.
  cbn [app].
  split; [reflexivity|].
  split; [apply for_each_toset; intros each; split; reflexivity|].
  do 2 (split; [reflexivity|]).
  split.
  { apply Forall_cons_2; [repeat split; reflexivity|].
    apply Forall_fmap, Forall_forall. intros ? _. repeat split; reflexivity. }
  split; [reflexivity|].
  assert (Homap : ∀ l : list string,
            omap name_of
              (DatabaseSpoke.azurerm_postgresql_flexible_server_database_additional az
               <$> l) = l).
  { induction l as [|x l IH]; [reflexivity|].
    cbn [fmap list_fmap omap list_omap]. cbn. f_equal. exact IH. }
  rewrite Homap. do 2 (split; [reflexivity|]).
  intros suffix az' hub'. rewrite length_fmap. reflexivity.
Qed.

Lemma X19_witness_database_defaults :
  let plan := spoke_apply (DatabaseConfig accept_all DatabaseSpoke.defaults)
                sample_random sample_azure hub_states in
  plan = Ok (planned plan, planned_outputs plan) ∧
  name_of <$> instances "azurerm_postgresql_flexible_server_database" "guiworld"
                (planned plan) = [Some "guiworld"] ∧
  one_per_name []
    (instances "azurerm_postgresql_flexible_server_database" "additional"
       (planned plan)).
Proof.
  intros plan.
  assert (Hplan : plan = Ok (planned plan, planned_outputs plan))
    by (apply ok_planned; vm_compute; reflexivity).
  destruct (X19_database_databases accept_all DatabaseSpoke.defaults sample_random
              sample_azure hub_states _ _ Hplan) as (Hmain & Hadditional & _).
  split; [exact Hplan|]. split; [exact Hmain|exact Hadditional].
Defined.

(** ** Outputs about secrets *)

(** X20. The key vault secrets of a plan are two when the spoke stores its
    secrets and none otherwise, with distinct names, and the output
    [keyvault_secret_names] of the Database and Storage spokes lists the
    names of exactly the secrets planned.  The Key Vault spoke itself plans
    no secret. *)
Theorem X20_secret_names_output
    (c : SpokeConfig) (rnd : RandomValues) (az : Azure)
    (states : gmap string (gmap string value))
    (rs : list resource) (o : gmap string value) :
  spoke_apply c rnd az states = Ok (rs, o) →
  let secrets := of_type "azurerm_key_vault_secret" rs in
  length secrets = (if stores_secrets c then 2 else 0)%nat ∧
  NoDup (name_of <$> secrets) ∧
  address <$> secrets
  = match c with
    | KeyVaultConfig _ => []
    | DatabaseConfig _ var =>
        if DatabaseSpoke.store_password_in_keyvault var
        then [ "azurerm_key_vault_secret.db_password[0]";
               "azurerm_key_vault_secret.db_connection_string[0]" ]
        else []
    | StorageConfig var =>
        if StorageSpoke.store_connection_string_in_keyvault var
        then [ "azurerm_key_vault_secret.storage_connection_string[0]";
               "azurerm_key_vault_secret.storage_access_key[0]" ]
        else []
    end ∧
  (spoke_of c ≠ KeyVault →
   o !! "keyvault_secret_names" = Some (strings (omap name_of secrets))).
Proof.
  intros H secrets. subst secrets.
  destruct c as [var|regex_can var|var]; simpl in H; cbn [stores_secrets spoke_of].
  - keyvault_blocks H.
    all: other_types; cbn [seq fmap list_fmap app].
    all: split; [reflexivity|]; split; [apply NoDup_nil_2|]; split; [reflexivity|done].
  - database_blocks H.
    all: rewrite Hflag; other_types.
    all: split; [reflexivity|].
    all: split; [apply (bool_decide_unpack _); vm_compute; reflexivity|].
    all: split; [reflexivity|]; intros _; cbn [planned_outputs].
    all: unfold DatabaseSpoke.outputs; rewrite Hflag; reflexivity.
  - storage_blocks H.
    all: rewrite Hflag; other_types.
    all: split; [reflexivity|].
    all: split; [apply (bool_decide_unpack _); vm_compute; reflexivity|].
    all: split; [reflexivity|]; intros _.
    all: unfold StorageSpoke.outputs; rewrite Hflag; reflexivity.
Qed.

Lemma X20_witness_storage_defaults :
  let c := StorageConfig StorageSpoke.defaults in
  let plan := spoke_apply c sample_random sample_azure hub_keyvault_states in
  plan = Ok (planned plan, planned_outputs plan) ∧
  spoke_of c ≠ KeyVault ∧
  length (of_type "azurerm_key_vault_secret" (planned plan)) = 2%nat ∧
  planned_outputs plan !! "keyvault_secret_names"
  = Some (strings (omap name_of (of_type "azurerm_key_vault_secret" (planned plan)))).
Proof.
  intros c plan.
  assert (Hplan : plan = Ok (planned plan, planned_outputs plan))
    by (apply ok_planned; vm_compute; reflexivity).
  assert (Hspoke : spoke_of c ≠ KeyVault) by discriminate.
  destruct (X20_secret_names_output c sample_random sample_azure hub_keyvault_states
              _ _ Hplan) as (Hlen & _ & _ & Hnames).
  split; [exact Hplan|]. split; [exact Hspoke|]. split; [exact Hlen|].
  exact (Hnames Hspoke).
Defined.

(** X21. The database spoke outputs a connection string without the
    password: it is the connection string stored in the key vault with the
    [Password] entry left out.  The output [generated_admin_password] holds
    the generated password exactly when the caller supplied none, and is
    null otherwise; [password_stored_in_keyvault] tells whether the secrets
    are planned. *)
Theorem X21_database_connection_outputs
    (regex_can : string → string → bool) (var : DatabaseSpoke.Variables)
    (rnd : RandomValues) (az : Azure)
    (states : gmap string (gmap string value))
    (rs : list resource) (o : gmap string value) :
  spoke_apply (DatabaseConfig regex_can var) rnd az states = Ok (rs, o) →
  let password :=
    if decide (DatabaseSpoke.database_admin_password var ≠ "")
    then DatabaseSpoke.database_admin_password var
    else random_password_db_admin_result rnd in
  let prefix :=
    "Host=" +:+ az_fqdn az "azurerm_postgresql_flexible_server.main"
    +:+ ";Database=" +:+ DatabaseSpoke.database_name var
    +:+ ";Username=" +:+ DatabaseSpoke.database_admin_username var in
  o !! "database_connection_string" = Some (VStr (prefix +:+ ";SSL Mode=Require")) ∧
  attr "value" <$> instances "azurerm_key_vault_secret" "db_connection_string" rs
  = (if DatabaseSpoke.store_password_in_keyvault var
     then [Some (VStr (prefix +:+ ";Password=" +:+ password +:+ ";SSL Mode=Require"))]
     else []) ∧
  attr "administrator_login" <$> of_type "azurerm_postgresql_flexible_server" rs
  = [Some (VStr (DatabaseSpoke.database_admin_username var))] ∧
  o !! "postgresql_server_fqdn"
  = Some (VStr (az_fqdn az "azurerm_postgresql_flexible_server.main")) ∧
  o !! "generated_admin_password"
  = Some (if decide (DatabaseSpoke.database_admin_password var = "")
          then VStr (random_password_db_admin_result rnd) else VNull) ∧
  (DatabaseSpoke.database_admin_password var = "" →
   o !! "generated_admin_password" = Some (VStr password)) ∧
  o !! "password_stored_in_keyvault"
  = Some (VBool (bool_decide (of_type "azurerm_key_vault_secret" rs ≠ []))).
Proof.
  intros H password prefix. subst password prefix.
  rewrite !append_assoc. simpl in H. database_blocks H.
  all: rewrite ?Hflag.
  all: split; [reflexivity|].
  all: split; [block_instances; reflexivity|].
  all: split; [other_types; reflexivity|].
  all: split; [reflexivity|].
  all: unfold DatabaseSpoke.outputs; rewrite ?Hflag.
  all: split;
    [ change (?m !! "generated_admin_password") with
        (Some (if decide (DatabaseSpoke.database_admin_password var ≠ "")
               then VNull
               else VStr (random_password_db_admin_result rnd)));
      destruct (decide (DatabaseSpoke.database_admin_password var = ""));
      [rewrite decide_False by tauto|rewrite decide_True by done]; reflexivity |].
  all: split;
    [ intros Hempty;
      change (?m !! "generated_admin_password") with
        (Some (if decide (DatabaseSpoke.database_admin_password var ≠ "")
               then VNull
               else VStr (random_password_db_admin_result rnd)));
      rewrite !decide_False by tauto; reflexivity |].
  all: other_types.
  - rewrite bool_decide_false by (intros Hne; by apply Hne). reflexivity.
  - rewrite bool_decide_true by discriminate. reflexivity.
Qed.

Lemma X21_witness_database_stores_password :
  let var := database_with "10.2.0.0/16" true in
  let plan := spoke_apply (DatabaseConfig accept_all var) sample_random sample_azure
                hub_keyvault_states in
  plan = Ok (planned plan, planned_outputs plan) ∧
  DatabaseSpoke.database_admin_password var = "" ∧
  planned_outputs plan !! "generated_admin_password" = Some (VStr "Abcdefgh!jklmnop") ∧
  planned_outputs plan !! "password_stored_in_keyvault"
  = Some (VBool (bool_decide
                   (of_type "azurerm_key_vault_secret" (planned plan) ≠ []))).
Proof.
  intros var plan.
  assert (Hplan : plan = Ok (planned plan, planned_outputs plan))
    by (apply ok_planned; vm_compute; reflexivity).
  assert (Hempty : DatabaseSpoke.database_admin_password var = "") by reflexivity.
  destruct (X21_database_connection_outputs accept_all var sample_random sample_azure
              hub_keyvault_states _ _ Hplan) as (_ & _ & _ & _ & _ & Hgen & Hstored).
  split; [exact Hplan|]. split; [exact Hempty|].
  split; [exact (Hgen Hempty)|exact Hstored].
Defined.

(** ** The subnet of a spoke and its security group *)

(** X22. Every spoke plans one virtual network with the declared address
    space, one subnet in it with the declared prefix, one network security
    group and one association of that group with that subnet.  The rules of
    the group are all inbound, their priorities increase strictly, every
    rule but the last allows, and the last one, [DenyAllInbound] at priority
    4096, denies.  The subnets of the Key Vault and Storage spokes switch the
    network policies for private endpoints off; the subnet of the Database
    spoke is delegated to PostgreSQL flexible servers. *)
Theorem X22_spoke_subnet_security
    (c : SpokeConfig) (rnd : RandomValues) (az : Azure)
    (states : gmap string (gmap string value))
    (rs : list resource) (o : gmap string value) :
  spoke_apply c rnd az states = Ok (rs, o) →
  ∃ (vnet subnet nsg : resource) (priorities : list Z),
    of_type "azurerm_virtual_network" rs = [vnet] ∧
    of_type "azurerm_subnet" rs = [subnet] ∧
    of_type "azurerm_network_security_group" rs = [nsg] ∧
    attr "virtual_network_name" subnet = VStr <$> name_of vnet ∧
    attr "resource_group_name" subnet = attr "resource_group_name" vnet ∧
    attr "resource_group_name" nsg = attr "resource_group_name" vnet ∧
    (fun a => (attr "subnet_id" a, attr "network_security_group_id" a)) <$>
      of_type "azurerm_subnet_network_security_group_association" rs
    = [ (Some (VStr (az_id az (address subnet))),
         Some (VStr (az_id az (address nsg)))) ] ∧
    rule_priority <$> security_rules nsg = Some <$> priorities ∧
    StronglySorted Z.lt priorities ∧
    Forall (fun rule => field "direction" rule = Some (VStr "Inbound"))
      (security_rules nsg) ∧
    Forall (fun rule => rule_access rule = Some "Allow")
      (removelast (security_rules nsg)) ∧
    (fun rule => (rule_name rule, rule_priority rule, rule_access rule)) <$>
      last (security_rules nsg)
    = Some (Some "DenyAllInbound", Some 4096, Some "Deny") ∧
    match c with
    | KeyVaultConfig var =>
        attr "address_space" vnet
          = Some (strings [KeyvaultSpoke.spoke_vnet_address_space var]) ∧
        attr "address_prefixes" subnet
          = Some (strings [KeyvaultSpoke.keyvault_subnet_address_prefix var]) ∧
        attr "private_endpoint_network_policies_enabled" subnet = Some (VBool false)
    | DatabaseConfig _ var =>
        attr "address_space" vnet
          = Some (strings [DatabaseSpoke.spoke_vnet_address_space var]) ∧
        attr "address_prefixes" subnet
          = Some (strings [DatabaseSpoke.database_subnet_address_prefix var]) ∧
        (attr "delegation" subnet ≫= field "service_delegation") ≫= field "name"
          = Some (VStr "Microsoft.DBforPostgreSQL/flexibleServers")
    | StorageConfig var =>
        attr "address_space" vnet
          = Some (strings [StorageSpoke.spoke_vnet_address_space var]) ∧
        attr "address_prefixes" subnet
          = Some (strings [StorageSpoke.storage_subnet_address_prefix var]) ∧
        attr "private_endpoint_network_policies_enabled" subnet = Some (VBool false)
    end.
Proof.
  intros H. destruct c as [var|regex_can var|var]; simpl in H.
  - keyvault_blocks H.
    all: eexists _, _, _, [1001; 4096].
    all: do 3 (split; [other_types; reflexivity|]).
    all: do 3 (split; [reflexivity|]).
    all: (split; [other_types; reflexivity|]).
    all: (split; [reflexivity|]).
    all: (split; [repeat constructor; lia|]).
    all: (split; [repeat constructor|]).
    all: (split; [repeat constructor|]).
    all: (split; [reflexivity|]); repeat split; reflexivity.
  - database_blocks H.
    all: eexists _, _, _, [1001; 1002; 4096].
    all: do 3 (split; [other_types; reflexivity|]).
    all: do 3 (split; [reflexivity|]).
    all: (split; [other_types; reflexivity|]).
    all: (split; [reflexivity|]).
    all: (split; [repeat constructor; lia|]).
    all: (split; [repeat constructor|]).
    all: (split; [repeat constructor|]).
    all: (split; [reflexivity|]); repeat split; reflexivity.
  - storage_blocks H.
    all: eexists _, _, _, [1001; 1002; 4096].
    all: do 3 (split; [other_types; reflexivity|]).
    all: do 3 (split; [reflexivity|]).
    all: (split; [other_types; reflexivity|]).
    all: (split; [reflexivity|]).
    all: (split; [repeat constructor; lia|]).
    all: (split; [repeat constructor|]).
    all: (split; [repeat constructor|]).
    all: (split; [reflexivity|]); repeat split; reflexivity.
Qed.

Lemma X22_witness_keyvault_defaults :
  let c := KeyVaultConfig KeyvaultSpoke.defaults in
  let plan := spoke_apply c sample_random sample_azure hub_states in
  plan = Ok (planned plan, planned_outputs plan) ∧
  ∃ (nsg : resource) (priorities : list Z),
    of_type "azurerm_network_security_group" (planned plan) = [nsg] ∧
    rule_priority <$> security_rules nsg = Some <$> priorities ∧
    StronglySorted Z.lt priorities ∧
    (fun rule => (rule_name rule, rule_priority rule, rule_access rule)) <$>
      last (security_rules nsg)
    = Some (Some "DenyAllInbound", Some 4096, Some "Deny").
Proof.
  intros c plan.
  assert (Hplan : plan = Ok (planned plan, planned_outputs plan))
    by (apply ok_planned; vm_compute; reflexivity).
  split; [exact Hplan|].
  destruct (X22_spoke_subnet_security c sample_random sample_azure hub_states
              _ _ Hplan)
    as (vnet & subnet & nsg & priorities & _ & _ & Hnsg & _ & _ & _ & _ & Hp & Hs
        & _ & _ & Hlast & _).
  exists nsg, priorities. auto.
Defined.

(** ** Peering settings and diagnostics *)

(** X23. In every spoke both peerings allow virtual network access and
    forwarded traffic, only the hub's side offers gateway transit, and
    neither side uses remote gateways.  The spoke plans exactly one domain
    resource (key vault, PostgreSQL server, storage account), named by its
    stem, the hub's environment and the suffix, and exactly one diagnostic
    setting, which targets that resource (for storage, its blob service),
    collects all metrics and sends to the workspace read from the hub. *)
Theorem X23_spoke_peering_and_diagnostics
    (c : SpokeConfig) (rnd : RandomValues) (az : Azure)
    (states : gmap string (gmap string value))
    (rs : list resource) (o : gmap string value) :
  spoke_apply c rnd az states = Ok (rs, o) →
  (fun p => (rlabel p, attr "allow_virtual_network_access" p,
             attr "allow_forwarded_traffic" p, attr "allow_gateway_transit" p,
             attr "use_remote_gateways" p)) <$>
    of_type "azurerm_virtual_network_peering" rs
  = [ ("spoke_to_hub", Some (VBool true), Some (VBool true), Some (VBool false),
       Some (VBool false));
      ("hub_to_spoke", Some (VBool true), Some (VBool true), Some (VBool true),
       Some (VBool false)) ] ∧
  ∃ (domain : resource) (workspace env : string),
    of_type (domain_type (spoke_of c)) rs = [domain] ∧
    hub_output_string c states "log_analytics_workspace_id" = Ok workspace ∧
    hub_output_string c states "environment" = Ok env ∧
    name_of domain
    = Some (domain_stem (spoke_of c) +:+ env
            +:+ (match spoke_of c with Storage => "" | _ => "-" end)
            +:+ random_string_suffix_result rnd) ∧
    (fun d => (attr "target_resource_id" d, attr "log_analytics_workspace_id" d,
               attr "metric" d)) <$>
      of_type "azurerm_monitor_diagnostic_setting" rs
    = [ (Some (VStr (diagnostic_target (spoke_of c) (az_id az (address domain)))),
         Some (VStr workspace),
         Some (VObj [("category", VStr "AllMetrics"); ("enabled", VBool true)])) ].
Proof.
  intros H. destruct c as [var|regex_can var|var]; simpl in H.
  - keyvault_blocks H.
    all: read_hub_fields.
    all: (split; [other_types; reflexivity|]).
    all: eexists _, _, _; (split; [other_types; reflexivity|]).
    all: (split; [hub_output|]); (split; [hub_output|]).
    all: (split; [reflexivity|]); other_types; reflexivity.
  - database_blocks H.
    all: read_hub_fields.
    all: (split; [other_types; reflexivity|]).
    all: eexists _, _, _; (split; [other_types; reflexivity|]).
    all: (split; [hub_output|]); (split; [hub_output|]).
    all: (split; [reflexivity|]); other_types; reflexivity.
  - storage_blocks H.
    all: read_hub_fields.
    all: (split; [other_types; reflexivity|]).
    all: eexists _, _, _; (split; [other_types; reflexivity|]).
    all: (split; [hub_output|]); (split; [hub_output|]).
    all: (split; [reflexivity|]); other_types; reflexivity.
Qed.

Lemma X23_witness_storage :
  let c := StorageConfig storage_without_keyvault in
  let plan := spoke_apply c sample_random sample_azure hub_states in
  plan = Ok (planned plan, planned_outputs plan) ∧
  ∃ domain,
    of_type "azurerm_storage_account" (planned plan) = [domain] ∧
    name_of domain = Some "stguiworlddeva1b2c3d4" ∧
    attr "target_resource_id" <$>
      of_type "azurerm_monitor_diagnostic_setting" (planned plan)
    = [Some (VStr (az_id sample_azure (address domain) +:+ "/blobServices/default"))].
Proof.
  intros c plan.
  assert (Hplan : plan = Ok (planned plan, planned_outputs plan))
    by (apply ok_planned; vm_compute; reflexivity).
  split; [exact Hplan|].
  destruct (X23_spoke_peering_and_diagnostics c sample_random sample_azure hub_states
              _ _ Hplan)
    as (_ & domain & workspace & env & Hdomain & _ & Henv & Hname & Hdiag).
  exists domain. split; [exact Hdomain|].
  assert (env = "dev") as -> by (vm_compute in Henv; congruence).
  split; [exact Hname|].
  apply (f_equal (fmap (fun x => x.1.1))) in Hdiag.
  rewrite <- list_fmap_compose in Hdiag. exact Hdiag.
Defined.

(** ** The name of the domain resource *)

Lemma length_append (a b : string) :
  String.length (a +:+ b) = (String.length a + String.length b)%nat.
Proof.
  induction a as [|c a IH]; [reflexivity|].
  rewrite append_cons. cbn [String.length]. by rewrite IH.
Qed.

Lemma lower_alphanumeric_app (a b : string) :
  lower_alphanumeric (a +:+ b) = lower_alphanumeric a && lower_alphanumeric b.
Proof.
  unfold lower_alphanumeric. induction a as [|c a IH]; [reflexivity|].
  rewrite append_cons. cbn [String.list_ascii_of_string forallb].
  by rewrite IH, andb_assoc.
Qed.

Lemma hub_validated_environment regex_can (var : Hub.Variables) :
  Hub.validate regex_can var = Ok tt →
  Hub.environment var ∈ ["dev"; "staging"; "prod"].
Proof.
  unfold Hub.validate, Hub.validations. intros H.
  apply validations_Ok_iff in H. cbn [app] in H.
  apply Forall_cons in H as [H _]. apply validation_Ok_iff in H.
  by apply bool_decide_eq_true in H.
Qed.

(** X24. For a spoke deployed against the state of a hub whose variables
    passed validation, with a suffix as [random_string.suffix] generates
    it, the name of the domain resource is its stem, the environment, a
    dash (none for the storage account) and the suffix: 24, 28 or 25
    characters for the key vault in dev, staging and prod, 26, 30 or 27 for
    the PostgreSQL server, and 21, 25 or 22 for the storage account, whose
    name consists of lowercase letters and digits only. *)
Theorem X24_domain_resource_name
    (regex_can : string → string → bool)
    (hvar : Hub.Variables) (today hsuffix : string) (haz : Azure)
    (c : SpokeConfig) (rnd : RandomValues) (az : Azure)
    (states : gmap string (gmap string value))
    (rs : list resource) (o : gmap string value) :
  Hub.validate regex_can hvar = Ok tt →
  states !! hub_state_path_of c = Some (Hub.outputs hvar today hsuffix haz) →
  Random.generated random_suffix_args (random_string_suffix_result rnd) = true →
  spoke_apply c rnd az states = Ok (rs, o) →
  ∃ n : string,
    name_of <$> of_type (domain_type (spoke_of c)) rs = [Some n] ∧
    n = domain_stem (spoke_of c) +:+ Hub.environment hvar
        +:+ (match spoke_of c with Storage => "" | _ => "-" end)
        +:+ random_string_suffix_result rnd ∧
    (∃ i : nat,
       [ "dev"; "staging"; "prod" ] !! i = Some (Hub.environment hvar) ∧
       match spoke_of c with
       | KeyVault => [24; 28; 25]
       | Database => [26; 30; 27]
       | Storage => [21; 25; 22]
       end%nat !! i = Some (String.length n)) ∧
    (spoke_of c = Storage → lower_alphanumeric n = true).
Proof.
  intros Hval Hstate Hgen H.
  apply hub_validated_environment in Hval.
  apply generated_suffix_alphanumeric in Hgen as [Hlen Hchars].
  assert (Hsuffix : lower_alphanumeric (random_string_suffix_result rnd) = true).
  { unfold lower_alphanumeric. apply forallb_forall. intros x Hx.
    rewrite Forall_forall in Hchars. by apply Hchars, list_elem_of_In. }
  assert (Henv : ∃ i : nat,
            [ "dev"; "staging"; "prod" ] !! i = Some (Hub.environment hvar) ∧
            [ 3; 7; 4 ]%nat !! i = Some (String.length (Hub.environment hvar)) ∧
            lower_alphanumeric (Hub.environment hvar) = true).
  { repeat (apply elem_of_cons in Hval as [->|Hval]);
      [exists 0%nat|exists 1%nat|exists 2%nat|by apply elem_of_nil in Hval];
      repeat split; reflexivity. }
  destruct Henv as (i & Hi & Hleni & Hlower).
  eexists. split; [|split; [reflexivity|split]].
  - destruct c as [var|regex_can' var|var]; simpl in H.
    + keyvault_blocks H; read_hub_state Hstate; other_types; reflexivity.
    + database_blocks H; read_hub_state Hstate; other_types; reflexivity.
    + storage_blocks H; read_hub_state Hstate; other_types; reflexivity.
  - exists i. split; [exact Hi|].
    rewrite !length_append, Hlen.
    destruct i as [|[|[|i]]]; try discriminate Hi;
      injection Hleni as <-; destruct c; reflexivity.
  - intros Hspoke. rewrite !lower_alphanumeric_app, Hlower, Hsuffix.
    destruct c; try discriminate Hspoke. reflexivity.
Qed.

Lemma X24_witness_storage_dev :
  let c := StorageConfig storage_without_keyvault in
  let plan := spoke_apply c sample_random sample_azure hub_states in
  Hub.validate accept_all Hub.defaults = Ok tt ∧
  Random.generated random_suffix_args (random_string_suffix_result sample_random)
    = true ∧
  plan = Ok (planned plan, planned_outputs plan) ∧
  ∃ n : string,
    name_of <$> of_type "azurerm_storage_account" (planned plan) = [Some n] ∧
    n = "stguiworld" +:+ "dev" +:+ "" +:+ "a1b2c3d4" ∧
    lower_alphanumeric n = true.
Proof.
  intros c plan.
  assert (Hval : Hub.validate accept_all Hub.defaults = Ok tt)
    by (vm_compute; reflexivity).
  assert (Hstate : hub_states !! hub_state_path_of c
            = Some (Hub.outputs Hub.defaults "2025-01-01" "h0h0h0h0" sample_azure))
    by reflexivity.
  assert (Hgen : Random.generated random_suffix_args
                   (random_string_suffix_result sample_random) = true)
    by (vm_compute; reflexivity).
  assert (Hplan : plan = Ok (planned plan, planned_outputs plan))
    by (apply ok_planned; vm_compute; reflexivity).
  split; [exact Hval|]. split; [exact Hgen|]. split; [exact Hplan|].
  destruct (X24_domain_resource_name accept_all Hub.defaults "2025-01-01" "h0h0h0h0"
              sample_azure c sample_random sample_azure hub_states _ _
              Hval Hstate Hgen Hplan) as (n & Hn & Heq & _ & Hlower).
  exists n. split; [exact Hn|]. split; [exact Heq|]. apply Hlower. reflexivity.
Defined.
